(** * terra-web: the GitHub client, the repository scanner and the diff view

    A shallow embedding of [src/lib/github.ts] and of [renderDiff] from the
    file modification dialog, followed by the properties the specification
    states about them.

    - JavaScript strings are sequences of UTF-16 code units.
    - An asynchronous function runs one await after the other: it is a
      state transformer that may raise.  The state holds the token slot of
      [localStorage], the host with the network (any type, with any
      response function), the log of the requests sent and the console.
    - [btoa] and [atob] are the browser's, after the HTML standard.
    - A parsed response body is one of the shapes the client's interfaces
      declare; property reads on another shape behave as in JavaScript. *)

From Stdlib Require Import List NArith Bool String Ascii Lia Arith.
Import ListNotations.

Set Implicit Arguments.

(* ================================================================== *)
(** * JavaScript strings *)

Module Js.
Local Open Scope N_scope.

(** A string value: its UTF-16 code units. *)
Abbreviation str := (list N).

(** A literal of the source, written as a Rocq string. *)
Definition lit (s : string) : str :=
  map N_of_ascii (list_ascii_of_string s).

Fixpoint eqb (a b : str) : bool :=
  match a, b with
  | [], [] => true
  | x :: a', y :: b' => N.eqb x y && eqb a' b'
  | _, _ => false
  end.

(** [s.startsWith(p)] *)
Fixpoint startsWith (s p : str) : bool :=
  match p, s with
  | [], _ => true
  | y :: p', x :: s' => N.eqb x y && startsWith s' p'
  | _ :: _, [] => false
  end.

(** [s.endsWith(p)] *)
Definition endsWith (s p : str) : bool :=
  startsWith (rev s) (rev p).

(** [s.includes(p)] *)
Fixpoint includes (s p : str) : bool :=
  startsWith s p ||
  match s with
  | [] => false
  | _ :: s' => includes s' p
  end.

(** Truthiness of a string: only the empty string is falsy. *)
Definition truthy (s : str) : bool :=
  match s with [] => false | _ :: _ => true end.

(** Truthiness of [string | null] and [string | undefined]. *)
Definition truthy_opt (o : option str) : bool :=
  match o with Some s => truthy s | None => false end.

(** [s.split('\n')]: the pieces between line feeds, at least one. *)
Fixpoint split_lf (s : str) : list str :=
  match s with
  | [] => [[]]
  | c :: s' =>
      if N.eqb c 10 then [] :: split_lf s'
      else match split_lf s' with
           | l :: ls => (c :: l) :: ls
           | [] => [[c]]
           end
  end.

(** [a === b] on [string | undefined]. *)
Definition strict_eq (a b : option str) : bool :=
  match a, b with
  | Some x, Some y => eqb x y
  | None, None => true
  | _, _ => false
  end.

(** [a || d] on [string | undefined]. *)
Definition or_else (a : option str) (d : str) : str :=
  if truthy_opt a then match a with Some x => x | None => d end else d.

End Js.

Notation "` s" := (Js.lit s) (at level 1, format "` s").
Arguments Js.lit : simpl never.

(* ================================================================== *)
(** * The browser's [btoa] and [atob] (HTML standard, forgiving base64) *)

Module Base64.
Local Open Scope N_scope.

(** Code unit of the sextet [i] in the base64 alphabet. *)
Definition enc (i : N) : N :=
  if i <? 26 then 65 + i
  else if i <? 52 then 97 + (i - 26)
  else if i <? 62 then 48 + (i - 52)
  else if i =? 62 then 43
  else 47.

(** Sextet of an alphabet code unit. *)
Definition dec (c : N) : option N :=
  if (65 <=? c) && (c <=? 90) then Some (c - 65)
  else if (97 <=? c) && (c <=? 122) then Some (c - 97 + 26)
  else if (48 <=? c) && (c <=? 57) then Some (c - 48 + 52)
  else if c =? 43 then Some 62
  else if c =? 47 then Some 63
  else None.

Definition pad : N := 61.

(** The four sextets of three bytes. *)
Definition sextet1 (a : N) : N := N.shiftr a 2.
Definition sextet2 (a b : N) : N :=
  N.lor (N.shiftl (N.land a 3) 4) (N.shiftr b 4).
Definition sextet3 (b c : N) : N :=
  N.lor (N.shiftl (N.land b 15) 2) (N.shiftr c 6).
Definition sextet4 (c : N) : N := N.land c 63.

(** The sextets of a byte sequence, the last group filled with zero bits. *)
Fixpoint groups (l : list N) : list N :=
  match l with
  | a :: b :: c :: r =>
      sextet1 a :: sextet2 a b :: sextet3 b c :: sextet4 c :: groups r
  | [a; b] => [sextet1 a; sextet2 a b; sextet3 b 0]
  | [a] => [sextet1 a; sextet2 a 0]
  | [] => []
  end.

Fixpoint padding (l : list N) : list N :=
  match l with
  | _ :: _ :: _ :: r => padding r
  | [_; _] => [pad]
  | [_] => [pad; pad]
  | [] => []
  end.

Definition encode (l : list N) : list N :=
  map enc (groups l) ++ padding l.

(** [btoa(s)]: raises InvalidCharacterError ([None]) when a code unit
    is above U+00FF. *)
Definition btoa (s : Js.str) : option Js.str :=
  if forallb (fun c => c <=? 255) s then Some (encode s) else None.

Definition is_space (c : N) : bool :=
  (c =? 9) || (c =? 10) || (c =? 12) || (c =? 13) || (c =? 32).

(** Removes one or two trailing [=] when the length is a multiple of 4. *)
Definition strip_pad (s : list N) : list N :=
  if N.of_nat (List.length s) mod 4 =? 0 then
    match rev s with
    | x :: y :: r =>
        if x =? pad then if y =? pad then rev r else rev (y :: r) else s
    | _ => s
    end
  else s.

Fixpoint sextets (s : list N) : option (list N) :=
  match s with
  | [] => Some []
  | c :: r =>
      match dec c, sextets r with
      | Some v, Some vs => Some (v :: vs)
      | _, _ => None
      end
  end.

(** The three bytes of four sextets. *)
Definition octet1 (a b : N) : N := N.lor (N.shiftl a 2) (N.shiftr b 4).
Definition octet2 (b c : N) : N :=
  N.lor (N.shiftl (N.land b 15) 4) (N.shiftr c 2).
Definition octet3 (c d : N) : N := N.lor (N.shiftl (N.land c 3) 6) d.

(** The bytes of a sextet sequence; the bits left over are dropped. *)
Fixpoint decode (l : list N) : list N :=
  match l with
  | a :: b :: c :: d :: r =>
      octet1 a b :: octet2 b c :: octet3 c d :: decode r
  | [a; b; c] => [octet1 a b; octet2 b c]
  | [a; b] => [octet1 a b]
  | _ => []
  end.

(** [atob(s)]: raises InvalidCharacterError ([None]) when the input,
    once white space is removed, is not base64. *)
Definition atob (s : Js.str) : option Js.str :=
  let d := strip_pad (filter (fun c => negb (is_space c)) s) in
  if N.of_nat (List.length d) mod 4 =? 1 then None
  else match sextets d with
       | Some vs => Some (decode vs)
       | None => None
       end.

(** The numbers below [n], for checks by enumeration. *)
Definition below (n : nat) : list N := map N.of_nat (seq 0 n).

(** What decoding needs of the sextets of two neighbouring bytes. *)
Definition bytes_ok (a b : N) : bool :=
  (octet1 (sextet1 a) (sextet2 a b) =? a)
  && (octet3 (sextet3 a b) (sextet4 b) =? b)
  && (N.land (sextet2 a b) 15 =? N.shiftr b 4)
  && (N.shiftr (sextet3 a b) 2 =? N.land a 15)
  && (N.lor (N.shiftl (N.shiftr a 4) 4) (N.land a 15) =? a)
  && (sextet1 a <? 64) && (sextet2 a b <? 64)
  && (sextet3 a b <? 64) && (sextet4 a <? 64).

(** What decoding needs of the character of a sextet. *)
Definition sextet_ok (i : N) : bool :=
  match dec (enc i) with Some j => j =? i | None => false end
  && negb (is_space (enc i)) && negb (enc i =? pad).

End Base64.

(* ================================================================== *)
(** * Regular expressions, as a backtracking matcher with continuations *)

Module Regex.
Local Open Scope N_scope.

Inductive re : Type :=
| Eps
| Chr (c : N)
| Cat (a b : re)
| Alt (a b : re).

(** A literal run of characters. *)
Definition Lit (s : Js.str) : re :=
  fold_right (fun c r => Cat (Chr c) r) Eps s.

(** [m r s k]: [r] matches a prefix of [s] and [k] accepts the rest;
    the first alternative is tried first. *)
Fixpoint m (r : re) (s : Js.str) (k : Js.str -> bool) : bool :=
  match r with
  | Eps => k s
  | Chr c => match s with
             | x :: s' => (x =? c) && k s'
             | [] => false
             end
  | Cat a b => m a s (fun s' => m b s' k)
  | Alt a b => m a s k || m b s k
  end.

(** [s.match(/^r$/)] is not null. *)
Definition matches (s : Js.str) (r : re) : bool :=
  m r s (fun rest => match rest with [] => true | _ :: _ => false end).

End Regex.

(* ================================================================== *)
(** * Exceptions and the monad of asynchronous functions *)

Inductive exn : Type :=
| Error (message : Js.str)
| TypeError
| SyntaxError
| InvalidCharacterError.

(** A computation over a state [S]: the state after it, and either the
    exception it raised or its value. *)
Definition M (S A : Type) : Type := S -> S * (exn + A).

Definition ret {S A} (a : A) : M S A := fun s => (s, inr a).

Definition throw {S A} (e : exn) : M S A := fun s => (s, inl e).

Definition bind {S A B} (c : M S A) (k : A -> M S B) : M S B :=
  fun s =>
    match c s with
    | (s', inr a) => k a s'
    | (s', inl e) => (s', inl e)
    end.

Declare Scope js_scope.
Delimit Scope js_scope with js.
Notation "x <- c ;; k" := (bind c (fun x => k))
  (at level 100, c at next level, right associativity) : js_scope.
Notation "c ;; k" := (bind c (fun _ => k))
  (at level 100, right associativity) : js_scope.
Open Scope js_scope.

(** [try { body } catch (error) { handler }] *)
Definition try_catch {S A} (body : M S A) (handler : exn -> M S A) : M S A :=
  fun s =>
    match body s with
    | (s', inr a) => (s', inr a)
    | (s', inl e) => handler e s'
    end.

(** [if (c) { body }] *)
Definition when {S} (c : bool) (body : M S unit) : M S unit :=
  if c then body else ret tt.

(** [for (const x of xs) { body }] *)
Fixpoint for_of {S A} (xs : list A) (body : A -> M S unit) : M S unit :=
  match xs with
  | [] => ret tt
  | x :: xs' => body x ;; for_of xs' body
  end.

(* ================================================================== *)
(** * The interfaces of [github.ts] *)

Module GitHubFile.
Record t : Type := mk {
  name : Js.str;
  path : Js.str;
  content : option Js.str;
  sha : Js.str;
  type : option Js.str;
  encoding : option Js.str
}.

(** [data.content = c] *)
Definition set_content (f : t) (c : Js.str) : t :=
  mk (name f) (path f) (Some c) (sha f) (type f) (encoding f).
End GitHubFile.

Module GitHubBranch.
Record t : Type := mk {
  name : Js.str;
  commit_sha : Js.str
}.
End GitHubBranch.

(** The parsed bodies this client reads: a contents object, a contents
    array, a git reference [{ object: { sha } }], and any other object,
    which has none of the properties read here (a user, a commit
    acknowledgement).  Entries of a contents array have the fields the
    [GitHubFile] interface declares. *)
Inductive Json : Type :=
| JFile (f : GitHubFile.t)
| JFiles (fs : list GitHubFile.t)
| JRef (object_sha : Js.str)
| JOther.

Record RepoAnalysis : Type := mkAnalysis {
  hasDockerCompose : bool;
  hasDockerfile : bool;
  hasTerraform : bool;
  hasKubernetes : bool;
  dockerComposeFile : option Json;
  dockerfiles : list Json;
  terraformFiles : list Json;
  kubernetesFiles : list Json
}.

(* ================================================================== *)
(** * [fetch] *)

(** The bodies this client sends, before [JSON.stringify]. *)
Inductive Body : Type :=
| UpdateBody (message content sha branch : Js.str)
| RefBody (ref sha : Js.str).

Definition Headers := list (Js.str * Js.str).

Record RequestInit : Type := mkInit {
  method : option Js.str;
  headers : option Headers;
  body : option Body
}.

Definition Request : Type := (Js.str * RequestInit)%type.

Record Response : Type := mkResponse {
  ok : bool;
  statusText : Js.str;
  json : option Json
}.

(** The promise [fetch] returns rejects or resolves with a response. *)
Inductive FetchOutcome : Type :=
| Rejected
| Resolved (r : Response).

(** [{ ...base, ...over }] on objects with string values. *)
Fixpoint obj_set (k v : Js.str) (o : Headers) : Headers :=
  match o with
  | [] => [(k, v)]
  | (k', v') :: o' =>
      if Js.eqb k' k then (k', v) :: o' else (k', v') :: obj_set k v o'
  end.

Definition spread (base : Headers) (over : option Headers) : Headers :=
  match over with
  | Some o => fold_left (fun acc kv => obj_set (fst kv) (snd kv) acc) o base
  | None => base
  end.

(** [body.content] of an outgoing request. *)
Definition body_content (rq : Request) : option Js.str :=
  match body (snd rq) with
  | Some (UpdateBody _ c _ _) => Some c
  | _ => None
  end.

(* ================================================================== *)
(** * The diff view of the file modification dialog *)

Module FileChange.
Record t : Type := mk {
  path : Js.str;
  oldContent : Js.str;
  newContent : Js.str;
  description : Js.str
}.
End FileChange.

(** One rendered row: its key, whether both cells carry the changed
    styling, and the text of the two cells. *)
Record DiffRow : Type := mkRow {
  key : nat;
  changed : bool;
  oldCell : Js.str;
  newCell : Js.str
}.

Definition renderDiff (fileChange : FileChange.t) : list DiffRow :=
  let oldLines := Js.split_lf (FileChange.oldContent fileChange) in
  let newLines := Js.split_lf (FileChange.newContent fileChange) in
  let maxLines := Nat.max (List.length oldLines) (List.length newLines) in
  map (fun i =>
         let oldLine := nth_error oldLines i in
         let newLine := nth_error newLines i in
         let changed := negb (Js.strict_eq oldLine newLine) in
         mkRow i changed (Js.or_else oldLine `" ") (Js.or_else newLine `" "))
      (seq 0 maxLines).

(** The specification's wording of the diff: both texts padded with empty
    lines, and a row changed when the padded lines differ. *)
Definition padded_line (lines : list Js.str) (i : nat) : Js.str :=
  nth i lines [].

Definition spec_changed (old new : Js.str) (i : nat) : bool :=
  negb (Js.eqb (padded_line (Js.split_lf old) i)
               (padded_line (Js.split_lf new) i)).

(** The diff as the specification words it: as many rows as the longer
    text has lines, row [i] changed when the padded lines differ. *)
Definition renders_as_specified (c : FileChange.t) : Prop :=
  List.length (renderDiff c)
  = Nat.max (List.length (Js.split_lf (FileChange.oldContent c)))
            (List.length (Js.split_lf (FileChange.newContent c))) /\
  forall i row,
    nth_error (renderDiff c) i = Some row ->
    changed row
    = spec_changed (FileChange.oldContent c) (FileChange.newContent c) i.

(* ================================================================== *)
(** * The client *)

Section Client.

(** The host and the network between: a state of their own, and the
    outcome of each request. *)
Variable World : Type.
Variable respond : Request -> World -> World * FetchOutcome.

(** What a call can read and change: the [github_token] slot of
    [localStorage], the world, the requests issued so far and the
    console. *)
Record Env : Type := mkEnv {
  token : option Js.str;
  world : World;
  requests : list Request;
  console : list (Js.str * exn)
}.

Definition setGitHubToken (t : Js.str) : M Env unit :=
  fun e => (mkEnv (Some t) (world e) (requests e) (console e), inr tt).

Definition getGitHubToken : M Env (option Js.str) :=
  fun e => (e, inr (token e)).

Definition clearGitHubToken : M Env unit :=
  fun e => (mkEnv None (world e) (requests e) (console e), inr tt).

(** The environment once [rq] has gone out and the world has moved
    to [w]. *)
Definition sent (e : Env) (w : World) (rq : Request) : Env :=
  mkEnv (token e) w (requests e ++ [rq]) (console e).

(** [await fetch(url, init)] *)
Definition fetch (url : Js.str) (init : RequestInit) : M Env Response :=
  fun e =>
    let (w, out) := respond (url, init) (world e) in
    let e' := sent e w (url, init) in
    match out with
    | Rejected => (e', inl TypeError)
    | Resolved r => (e', inr r)
    end.

(** [await response.json()] *)
Definition response_json (r : Response) : M Env Json :=
  match json r with
  | Some j => ret j
  | None => throw SyntaxError
  end.

(** [console.error(label, error)] *)
Definition console_error (label : Js.str) (err : exn) : M Env unit :=
  fun e =>
    (mkEnv (token e) (world e) (requests e) (console e ++ [(label, err)]),
     inr tt).

(** [`Bearer ${token}`] *)
Definition bearer (tok : option Js.str) : Js.str :=
  `"Bearer " ++ match tok with Some t => t | None => `"null" end.

Definition no_options : RequestInit := mkInit None None None.

Definition githubApi (endpoint : Js.str) (options : RequestInit) : M Env Json :=
  tok <- getGitHubToken ;;
  if negb (Js.truthy_opt tok) then throw (Error `"No GitHub token found")
  else
    response <- fetch (`"https://api.github.com" ++ endpoint)
      (mkInit (method options)
         (Some (spread [(`"Authorization", bearer tok);
                        (`"Accept", `"application/vnd.github.v3+json")]
                       (headers options)))
         (body options)) ;;
    if negb (ok response)
    then throw (Error (`"GitHub API error: " ++ statusText response))
    else response_json response.

(** The request [githubApi] issues for an endpoint called without
    options. *)
Definition api_request (tok : option Js.str) (endpoint : Js.str) : Request :=
  (`"https://api.github.com" ++ endpoint,
   mkInit None
     (Some [(`"Authorization", bearer tok);
            (`"Accept", `"application/vnd.github.v3+json")])
     None).

Definition getGitHubUser : M Env Json :=
  githubApi `"/user" no_options.

Definition getGitHubRepos : M Env Json :=
  githubApi `"/user/repos?sort=updated&per_page=100" no_options.

Definition getRepoBranches (owner repo : Js.str) : M Env Json :=
  githubApi (`"/repos/" ++ owner ++ `"/" ++ repo ++ `"/branches") no_options.

(** [branch ? `?ref=${branch}` : ''] *)
Definition ref_query (branch : option Js.str) : Js.str :=
  if Js.truthy_opt branch
  then `"?ref=" ++ match branch with Some b => b | None => [] end
  else [].

(** [data.content && data.encoding === 'base64'], then
    [data.content = atob(data.content)]. *)
Definition decode_content (data : Json) : M Env Json :=
  match data with
  | JFile f =>
      if Js.truthy_opt (GitHubFile.content f)
         && Js.strict_eq (GitHubFile.encoding f) (Some `"base64")
      then match GitHubFile.content f with
           | Some c =>
               match Base64.atob c with
               | Some d => ret (JFile (GitHubFile.set_content f d))
               | None => throw InvalidCharacterError
               end
           | None => ret data
           end
      else ret data
  | _ => ret data
  end.

Definition getRepoFile (owner repo path : Js.str) (branch : option Js.str)
  : M Env Json :=
  let ref := ref_query branch in
  data <- githubApi (`"/repos/" ++ owner ++ `"/" ++ repo ++ `"/contents/"
                     ++ path ++ ref) no_options ;;
  decode_content data.

Definition getRepoContents (owner repo : Js.str) (path : option Js.str)
    (branch : option Js.str) : M Env Json :=
  let path := match path with Some p => p | None => [] end in
  let ref := ref_query branch in
  githubApi (`"/repos/" ++ owner ++ `"/" ++ repo ++ `"/contents/"
             ++ path ++ ref) no_options.

Definition json_headers (tok : option Js.str) : Headers :=
  [(`"Authorization", bearer tok);
   (`"Accept", `"application/vnd.github.v3+json");
   (`"Content-Type", `"application/json")].

(** [btoa(content)] inside the request literal. *)
Definition btoa (content : Js.str) : M Env Js.str :=
  match Base64.btoa content with
  | Some c => ret c
  | None => throw InvalidCharacterError
  end.

Definition updateRepoFile (owner repo path content message sha branch : Js.str)
  : M Env Json :=
  tok <- getGitHubToken ;;
  if negb (Js.truthy_opt tok) then throw (Error `"No GitHub token found")
  else
    encoded <- btoa content ;;
    response <- fetch (`"https://api.github.com/repos/" ++ owner ++ `"/"
                       ++ repo ++ `"/contents/" ++ path)
      (mkInit (Some `"PUT") (Some (json_headers tok))
         (Some (UpdateBody message encoded sha branch))) ;;
    if negb (ok response)
    then throw (Error (`"Failed to update file: " ++ statusText response))
    else response_json response.

(** [data.object.sha]: [data.object] is undefined on every body but a
    git reference. *)
Definition object_sha (data : Json) : M Env Js.str :=
  match data with
  | JRef s => ret s
  | _ => throw TypeError
  end.

Definition createBranch (owner repo newBranchName fromBranch : Js.str)
  : M Env GitHubBranch.t :=
  tok <- getGitHubToken ;;
  if negb (Js.truthy_opt tok) then throw (Error `"No GitHub token found")
  else
    fromBranchData <- githubApi (`"/repos/" ++ owner ++ `"/" ++ repo
                                 ++ `"/git/refs/heads/" ++ fromBranch)
                        no_options ;;
    sha <- object_sha fromBranchData ;;
    response <- fetch (`"https://api.github.com/repos/" ++ owner ++ `"/"
                       ++ repo ++ `"/git/refs")
      (mkInit (Some `"POST") (Some (json_headers tok))
         (Some (RefBody (`"refs/heads/" ++ newBranchName) sha))) ;;
    if negb (ok response)
    then throw (Error (`"Failed to create branch: " ++ statusText response))
    else
      data <- response_json response ;;
      sha' <- object_sha data ;;
      ret (GitHubBranch.mk newBranchName sha').

(** ** The scanner *)

(** The scan runs over the environment and its local [analysis] object. *)
Definition Scan : Type := (Env * RepoAnalysis)%type.

(** A client call made from inside the scan. *)
Definition call {A} (c : M Env A) : M Scan A :=
  fun s =>
    match c (fst s) with
    | (e, r) => ((e, snd s), r)
    end.

(** An assignment to, or a push on, a field of [analysis]. *)
Definition assign (f : RepoAnalysis -> RepoAnalysis) : M Scan unit :=
  fun s => ((fst s, f (snd s)), inr tt).

Definition set_hasDockerCompose (a : RepoAnalysis) : RepoAnalysis :=
  mkAnalysis true (hasDockerfile a) (hasTerraform a) (hasKubernetes a)
    (dockerComposeFile a) (dockerfiles a) (terraformFiles a) (kubernetesFiles a).

Definition set_dockerComposeFile (f : Json) (a : RepoAnalysis) : RepoAnalysis :=
  mkAnalysis (hasDockerCompose a) (hasDockerfile a) (hasTerraform a)
    (hasKubernetes a) (Some f) (dockerfiles a) (terraformFiles a)
    (kubernetesFiles a).

Definition set_hasDockerfile (a : RepoAnalysis) : RepoAnalysis :=
  mkAnalysis (hasDockerCompose a) true (hasTerraform a) (hasKubernetes a)
    (dockerComposeFile a) (dockerfiles a) (terraformFiles a) (kubernetesFiles a).

Definition push_dockerfiles (f : Json) (a : RepoAnalysis) : RepoAnalysis :=
  mkAnalysis (hasDockerCompose a) (hasDockerfile a) (hasTerraform a)
    (hasKubernetes a) (dockerComposeFile a) (dockerfiles a ++ [f])
    (terraformFiles a) (kubernetesFiles a).

Definition set_hasTerraform (a : RepoAnalysis) : RepoAnalysis :=
  mkAnalysis (hasDockerCompose a) (hasDockerfile a) true (hasKubernetes a)
    (dockerComposeFile a) (dockerfiles a) (terraformFiles a) (kubernetesFiles a).

Definition push_terraformFiles (f : Json) (a : RepoAnalysis) : RepoAnalysis :=
  mkAnalysis (hasDockerCompose a) (hasDockerfile a) (hasTerraform a)
    (hasKubernetes a) (dockerComposeFile a) (dockerfiles a)
    (terraformFiles a ++ [f]) (kubernetesFiles a).

Definition set_hasKubernetes (a : RepoAnalysis) : RepoAnalysis :=
  mkAnalysis (hasDockerCompose a) (hasDockerfile a) (hasTerraform a) true
    (dockerComposeFile a) (dockerfiles a) (terraformFiles a) (kubernetesFiles a).

Definition push_kubernetesFiles (f : Json) (a : RepoAnalysis) : RepoAnalysis :=
  mkAnalysis (hasDockerCompose a) (hasDockerfile a) (hasTerraform a)
    (hasKubernetes a) (dockerComposeFile a) (dockerfiles a)
    (terraformFiles a) (kubernetesFiles a ++ [f]).

(** [/^docker-compose\.(yml|yaml)$/] *)
Definition compose_re : Regex.re :=
  Regex.Cat (Regex.Lit `"docker-compose.")
    (Regex.Alt (Regex.Lit `"yml") (Regex.Lit `"yaml")).

(** The four tests of the loop body, on the entry's name. *)
Definition is_compose (name : Js.str) : bool :=
  Regex.matches name compose_re.

Definition is_dockerfile (name : Js.str) : bool :=
  Js.eqb name `"Dockerfile" || Js.startsWith name `"Dockerfile.".

Definition is_terraform (name : Js.str) : bool :=
  Js.endsWith name `".tf".

Definition is_kubernetes (name : Js.str) : bool :=
  Js.includes name `"k8s" || Js.includes name `"kubernetes".

(** [file.type === 'file'] *)
Definition is_file (file : GitHubFile.t) : bool :=
  Js.strict_eq (GitHubFile.type file) (Some `"file").

(** The elements a [for ... of] visits: those of an array; the other
    bodies are objects, which are not iterable. *)
Definition iterate (rootContents : Json) : M Scan (list GitHubFile.t) :=
  match rootContents with
  | JFiles fs => ret fs
  | _ => throw TypeError
  end.

Section Scanner.
Variables (owner repo : Js.str) (branch : option Js.str).

(** The body of the loop. *)
Definition scan_entry (file : GitHubFile.t) : M Scan unit :=
  when (is_compose (GitHubFile.name file))
    (assign set_hasDockerCompose ;;
     f <- call (getRepoFile owner repo (GitHubFile.path file) branch) ;;
     assign (set_dockerComposeFile f)) ;;
  when (is_dockerfile (GitHubFile.name file))
    (assign set_hasDockerfile ;;
     dockerfileContent <-
       call (getRepoFile owner repo (GitHubFile.path file) branch) ;;
     assign (push_dockerfiles dockerfileContent)) ;;
  when (is_terraform (GitHubFile.name file))
    (assign set_hasTerraform ;;
     tfContent <-
       call (getRepoFile owner repo (GitHubFile.path file) branch) ;;
     assign (push_terraformFiles tfContent)) ;;
  when (is_kubernetes (GitHubFile.name file))
    (assign set_hasKubernetes ;;
     when (is_file file)
       (k8sContent <-
          call (getRepoFile owner repo (GitHubFile.path file) branch) ;;
        assign (push_kubernetesFiles k8sContent))).

(** The [try] block. *)
Definition scan_root : M Scan unit :=
  rootContents <- call (getRepoContents owner repo (Some `"") branch) ;;
  files <- iterate rootContents ;;
  for_of files scan_entry.

Definition new_analysis : RepoAnalysis :=
  mkAnalysis false false false false None [] [] [].

Definition analyzeRepository : M Env RepoAnalysis :=
  fun e =>
    let analysis := new_analysis in
    match
      try_catch scan_root
        (fun error =>
           call (console_error `"Error analyzing repository:" error))
        (e, analysis)
    with
    | ((e', analysis'), inr _) => (e', inr analysis')
    | ((e', _), inl error) => (e', inl error)
    end.

End Scanner.

End Client.

(** The four tests of the loop body, on an entry; the last is the test
    under which the Kubernetes rule reads the entry. *)
Definition compose_entry (file : GitHubFile.t) : bool :=
  is_compose (GitHubFile.name file).

Definition dockerfile_entry (file : GitHubFile.t) : bool :=
  is_dockerfile (GitHubFile.name file).

Definition terraform_entry (file : GitHubFile.t) : bool :=
  is_terraform (GitHubFile.name file).

Definition kubernetes_entry (file : GitHubFile.t) : bool :=
  is_kubernetes (GitHubFile.name file).

Definition kubernetes_file (file : GitHubFile.t) : bool :=
  is_kubernetes (GitHubFile.name file) && is_file file.

Section Run.

Variable World : Type.
Variable respond : Request -> World -> World * FetchOutcome.
Variables (owner repo : Js.str) (branch : option Js.str).

(** The environment in which a rule of the loop body reads an entry,
    when the body starts in [e]: each rule before it whose test the entry
    passes has read the entry once. *)
Definition after_rule (test : bool) (file : GitHubFile.t) (e : Env World)
  : Env World :=
  if test
  then fst (getRepoFile respond owner repo (GitHubFile.path file) branch e)
  else e.

Definition at_dockerfile_rule (file : GitHubFile.t) (e : Env World)
  : Env World :=
  after_rule (compose_entry file) file e.

Definition at_terraform_rule (file : GitHubFile.t) (e : Env World)
  : Env World :=
  after_rule (dockerfile_entry file) file (at_dockerfile_rule file e).

Definition at_kubernetes_rule (file : GitHubFile.t) (e : Env World)
  : Env World :=
  after_rule (terraform_entry file) file (at_terraform_rule file e).


(** The orchestration rule as the specification words it, of every scan:
    each listed entry whose name contains [k8s] or [kubernetes] sets the
    flag, and those of type ["file"] add a record each. *)
Definition kubernetes_rule_as_specified (e : Env World) : Prop :=
  forall e1 files e' a,
    getRepoContents respond owner repo (Some `"") branch e
    = (e1, inr (JFiles files)) ->
    analyzeRepository respond owner repo branch e = (e', inr a) ->
    (forall file,
       In file files ->
       (exists l r, GitHubFile.name file = l ++ `"k8s" ++ r)
       \/ (exists l r, GitHubFile.name file = l ++ `"kubernetes" ++ r) ->
       hasKubernetes a = true)
    /\ List.length (kubernetesFiles a)
       = List.length (filter kubernetes_file files).

(** The compose rule as the specification words it, of every scan: a
    listed entry named [docker-compose.yml] or [docker-compose.yaml] sets
    the flag and has its file stored, whatever the other entries are. *)
Definition compose_rule_as_specified (e : Env World) : Prop :=
  forall e1 files e' a,
    getRepoContents respond owner repo (Some `"") branch e
    = (e1, inr (JFiles files)) ->
    analyzeRepository respond owner repo branch e = (e', inr a) ->
    forall file,
      In file files ->
      GitHubFile.name file = `"docker-compose.yml"
      \/ GitHubFile.name file = `"docker-compose.yaml" ->
      hasDockerCompose a = true /\ dockerComposeFile a <> None.

End Run.

(** The flag a failed read leaves set: that of the first rule, in source
    order, under which the entry is read. *)
Definition flagged (file : GitHubFile.t) (a : RepoAnalysis) : RepoAnalysis :=
  if is_compose (GitHubFile.name file) then set_hasDockerCompose a
  else if is_dockerfile (GitHubFile.name file) then set_hasDockerfile a
  else if is_terraform (GitHubFile.name file) then set_hasTerraform a
  else if is_kubernetes (GitHubFile.name file) then set_hasKubernetes a
  else a.

(** The entry is read by some rule. *)
Definition is_read (file : GitHubFile.t) : bool :=
  is_compose (GitHubFile.name file)
  || is_dockerfile (GitHubFile.name file)
  || is_terraform (GitHubFile.name file)
  || (is_kubernetes (GitHubFile.name file) && is_file file).

(** A host with no state of its own that answers by URL, and with
    404 Not Found where the table has no entry. *)
Definition static_host (table : list (Js.str * FetchOutcome))
  : Request -> unit -> unit * FetchOutcome :=
  fun rq w =>
    (w, match find (fun p => Js.eqb (fst p) (fst rq)) table with
        | Some p => snd p
        | None => Resolved (mkResponse false `"Not Found" None)
        end).

(** A repository for the examples: its root listing, what the host sends
    for the entries that are read, and the records the reads return. *)
Definition demo_entry (name type : string) : GitHubFile.t :=
  GitHubFile.mk `name `name None `"0a1b" (Some `type) None.

Definition demo_listing : list GitHubFile.t :=
  [demo_entry "Dockerfile.prod" "file";
   demo_entry "Readme.Dockerfile" "file";
   demo_entry "k8s-manifests" "directory";
   demo_entry "docker-compose.yaml" "file"].

Definition demo_payload (file : GitHubFile.t) : GitHubFile.t :=
  GitHubFile.mk (GitHubFile.name file) (GitHubFile.path file)
    (Some `"RlJPTSBub2Rl") `"0a1b" (Some `"file") (Some `"base64").

Definition demo_got (file : GitHubFile.t) : Json :=
  JFile (GitHubFile.set_content (demo_payload file) `"FROM node").

Definition demo_answer (j : Json) : FetchOutcome :=
  Resolved (mkResponse true `"OK" (Some j)).

Definition demo_host : Request -> unit -> unit * FetchOutcome :=
  static_host
    [(`"https://api.github.com/repos/terra/web/contents/",
      demo_answer (JFiles demo_listing));
     (`"https://api.github.com/repos/terra/web/contents/Dockerfile.prod",
      demo_answer (JFile (demo_payload (demo_entry "Dockerfile.prod" "file"))));
     (`"https://api.github.com/repos/terra/web/contents/docker-compose.yaml",
      demo_answer
        (JFile (demo_payload (demo_entry "docker-compose.yaml" "file"))));
     (`"https://api.github.com/repos/terra/web/git/refs/heads/main",
      demo_answer (JRef `"c0ffee"));
     (`"https://api.github.com/repos/terra/web/git/refs",
      demo_answer (JRef `"c0ffee"))].

(** The same repository behind a host that fails every read of a file. *)
Definition listing_only_host : Request -> unit -> unit * FetchOutcome :=
  static_host
    [(`"https://api.github.com/repos/terra/web/contents/",
      demo_answer (JFiles demo_listing))].

(** A signed-in environment and a signed-out one. *)
Definition signed_in : Env unit := mkEnv (Some `"token-1") tt [] [].

Definition signed_out : Env unit := mkEnv None tt [] [].

(* ================================================================== *)
(** * The pages that call the client *)

(** [o[k]] on an object with string values. *)
Fixpoint obj_get (k : Js.str) (o : Headers) : option Js.str :=
  match o with
  | [] => None
  | (k', v) :: o' => if Js.eqb k' k then Some v else obj_get k o'
  end.

(** The line feeds of a text. *)
Definition count_lf (s : Js.str) : nat :=
  List.length (filter (fun c => N.eqb c 10) s).

(** The reads the loop body makes for an entry: one for each rule that
    reads it. *)
Definition reads_of (file : GitHubFile.t) : nat :=
  (if is_compose (GitHubFile.name file) then 1 else 0)
  + (if is_dockerfile (GitHubFile.name file) then 1 else 0)
  + (if is_terraform (GitHubFile.name file) then 1 else 0)
  + (if is_kubernetes (GitHubFile.name file) && is_file file then 1 else 0).

(** Whatever an analysis holds for a category, the flag of the category
    is set. *)
Definition flags_cover (a : RepoAnalysis) : Prop :=
  (dockerComposeFile a <> None -> hasDockerCompose a = true)
  /\ (dockerfiles a <> [] -> hasDockerfile a = true)
  /\ (terraformFiles a <> [] -> hasTerraform a = true)
  /\ (kubernetesFiles a <> [] -> hasKubernetes a = true).

(** What encoding needs of the bytes of two neighbouring sextets. *)
Definition octets_ok (a b : N) : bool :=
  (Base64.octet1 a b <=? 255)%N && (Base64.octet2 a b <=? 255)%N
  && (Base64.octet3 a b <=? 255)%N.

(** White space and line terminators of ECMAScript, as code units. *)
Definition is_white (c : N) : bool :=
  ((c =? 9) || (c =? 10) || (c =? 11) || (c =? 12) || (c =? 13) || (c =? 32)
   || (c =? 160) || (c =? 5760) || ((8192 <=? c) && (c <=? 8202))
   || (c =? 8232) || (c =? 8233) || (c =? 8239) || (c =? 8287)
   || (c =? 12288) || (c =? 65279))%N.

Fixpoint trim_start (s : Js.str) : Js.str :=
  match s with
  | c :: s' => if is_white c then trim_start s' else s
  | [] => []
  end.

(** [s.trim()] *)
Definition trim (s : Js.str) : Js.str :=
  rev (trim_start (rev (trim_start s))).

(** [err.message]: that of an [Error] the code built, or the one the
    browser gave to an error of its own.  Every exception here is an
    instance of [Error]. *)
Definition message (native_message : exn -> Js.str) (err : exn) : Js.str :=
  match err with
  | Error m => m
  | other => native_message other
  end.

(** [try { body } finally { after }] *)
Definition try_finally {S A} (body : M S A) (after : M S unit) : M S A :=
  fun s =>
    match body s with
    | (s', r) =>
        match after s' with
        | (s'', inr _) => (s'', r)
        | (s'', inl e) => (s'', inl e)
        end
    end.

(** [e'] is [e] after at most [n] more requests: the token and the
    console are the same and the request log has grown at its end. *)
Definition extends_by {World : Type} (n : nat) (e e' : Env World) : Prop :=
  token e' = token e
  /\ console e' = console e
  /\ exists news,
       requests e' = requests e ++ news /\ (List.length news <= n)%nat.

(** A request is a read of the contents of the repository: a GET with
    the bearer token, on some path of the contents endpoint. *)
Definition is_contents_read (owner repo : Js.str) (branch : option Js.str)
    (tok : option Js.str) (rq : Request) : Prop :=
  exists path,
    rq = api_request tok
           (`"/repos/" ++ owner ++ `"/" ++ repo ++ `"/contents/" ++ path
            ++ ref_query branch).

(** [e'] is [e] after some reads of the contents of the repository, and
    nothing else: the same token and console, the request log longer by
    reads only. *)
Definition after_reads {World : Type} (owner repo : Js.str)
    (branch : option Js.str) (e e' : Env World) : Prop :=
  token e' = token e
  /\ console e' = console e
  /\ exists news,
       requests e' = requests e ++ news
       /\ Forall (is_contents_read owner repo branch (token e)) news.

Module ReposPage.
(** The state of the repository selection page. *)
Record t : Type := mk {
  repos : Json;
  loading : bool;
  selectedRepo : Js.str;
  error : option Js.str
}.

(** [useState] initial values; [JFiles []] is the empty array. *)
Definition initial : t := mk (JFiles []) true [] None.
End ReposPage.

Section GitHubAuthPage.

Variable World : Type.
Variable respond : Request -> World -> World * FetchOutcome.
Variable native_message : exn -> Js.str.

(** The page in its browser: the client's environment, the page state,
    the routes pushed and the route pushes scheduled by [setTimeout]. *)
Record Browser : Type := mkBrowser {
  env : Env World;
  view : ReposPage.t;
  pushed : list Js.str;
  timers : list (Js.str * N)
}.

(** A client call made from the page. *)
Definition on_env {A} (c : M (Env World) A) : M Browser A :=
  fun b =>
    match c (env b) with
    | (e, r) => (mkBrowser e (view b) (pushed b) (timers b), r)
    end.

Definition set_view (f : ReposPage.t -> ReposPage.t) : M Browser unit :=
  fun b => (mkBrowser (env b) (f (view b)) (pushed b) (timers b), inr tt).

Definition setRepos (repositories : Json) : M Browser unit :=
  set_view (fun v => ReposPage.mk repositories (ReposPage.loading v)
                       (ReposPage.selectedRepo v) (ReposPage.error v)).

Definition setLoading (l : bool) : M Browser unit :=
  set_view (fun v => ReposPage.mk (ReposPage.repos v) l
                       (ReposPage.selectedRepo v) (ReposPage.error v)).

Definition setError (m : option Js.str) : M Browser unit :=
  set_view (fun v => ReposPage.mk (ReposPage.repos v) (ReposPage.loading v)
                       (ReposPage.selectedRepo v) m).

(** [router.push(url)] *)
Definition router_push (url : Js.str) : M Browser unit :=
  fun b => (mkBrowser (env b) (view b) (pushed b ++ [url]) (timers b), inr tt).

(** [setTimeout(() => router.push(url), ms)] *)
Definition push_later (url : Js.str) (ms : N) : M Browser unit :=
  fun b =>
    (mkBrowser (env b) (view b) (pushed b) (timers b ++ [(url, ms)]), inr tt).

Definition fetchRepos : M Browser unit :=
  try_catch
    (repositories <- on_env (getGitHubRepos respond) ;;
     setRepos repositories ;;
     setLoading false)
    (fun err =>
       on_env (console_error `"Error fetching repos:" err) ;;
       setError (Some (message native_message err)) ;;
       setLoading false ;;
       when (Js.includes (message native_message err) `"401")
         (on_env (@clearGitHubToken World) ;;
          push_later `"/" 2000)).

(** The effect the page runs when it mounts. *)
Definition reposEffect : M Browser unit :=
  tok <- on_env (@getGitHubToken World) ;;
  if negb (Js.truthy_opt tok) then router_push `"/"
  else fetchRepos.

End GitHubAuthPage.

Module Dialog.
(** The state of the file modification dialog. *)
Record t : Type := mk {
  selectedBranch : Js.str;
  createNewBranch : bool;
  newBranchName : Js.str;
  committing : bool;
  error : option Js.str
}.
End Dialog.

Section FileModificationDialog.

(** The page behind the dialog, with the two callbacks it passes. *)
Variable Page : Type.
Variable onConfirm : Js.str -> bool -> option Js.str -> M Page unit.
Variable onClose : M Page unit.
Variable native_message : exn -> Js.str.

Definition Open : Type := (Page * Dialog.t)%type.

(** A callback of the page, called from the dialog. *)
Definition on_page {A} (c : M Page A) : M Open A :=
  fun s =>
    match c (fst s) with
    | (p, r) => ((p, snd s), r)
    end.

Definition set_dialog (f : Dialog.t -> Dialog.t) : M Open unit :=
  fun s => ((fst s, f (snd s)), inr tt).

Definition setCommitting (c : bool) : M Open unit :=
  set_dialog (fun d => Dialog.mk (Dialog.selectedBranch d)
                         (Dialog.createNewBranch d) (Dialog.newBranchName d)
                         c (Dialog.error d)).

Definition setDialogError (m : option Js.str) : M Open unit :=
  set_dialog (fun d => Dialog.mk (Dialog.selectedBranch d)
                         (Dialog.createNewBranch d) (Dialog.newBranchName d)
                         (Dialog.committing d) m).

(** [handleConfirm], with the state values of the render it closes over. *)
Definition handleConfirm : M Open unit :=
  fun s =>
    let d := snd s in
    (if Dialog.createNewBranch d
        && negb (Js.truthy (trim (Dialog.newBranchName d)))
     then setDialogError (Some `"Please enter a branch name")
     else
       setCommitting true ;;
       setDialogError None ;;
       try_finally
         (try_catch
            (on_page
               (onConfirm (Dialog.selectedBranch d) (Dialog.createNewBranch d)
                  (if Dialog.createNewBranch d
                   then Some (Dialog.newBranchName d) else None)) ;;
             on_page onClose)
            (fun err => setDialogError (Some (message native_message err))))
         (setCommitting false)) s.

End FileModificationDialog.

(** Examples for the pages and the reads: a page that has just mounted,
    a host that refuses the request for the repositories with a given
    status text, a payload whose content GitHub broke into two lines, a
    host that serves one answer at one address, and a dialog over a page
    that counts the calls of its callbacks. *)
Definition mounted (e : Env unit) : Browser unit :=
  mkBrowser e ReposPage.initial [] [].

Definition refusing_host (status : Js.str)
  : Request -> unit -> unit * FetchOutcome :=
  static_host
    [(`"https://api.github.com/user/repos?sort=updated&per_page=100",
      Resolved (mkResponse false status None))].

Definition wrapped_payload : GitHubFile.t :=
  GitHubFile.mk `"Dockerfile.prod" `"Dockerfile.prod"
    (Some (`"RlJP" ++ 10%N :: `"TSBub2Rl")) `"0a1b" (Some `"file")
    (Some `"base64").

Definition one_answer_host (url : Js.str) (j : Json)
  : Request -> unit -> unit * FetchOutcome :=
  static_host [(url, demo_answer j)].

Definition counted (result : exn + unit) : M nat unit :=
  fun calls => (S calls, result).

Definition demo_dialog (createNew : bool) (name : Js.str) : Dialog.t :=
  Dialog.mk `"main" createNew name false None.

(* ================================================================== *)
(** * Facts about strings and the compose pattern *)

Section StringFacts.
Local Open Scope N_scope.

Lemma eqb_eq (a b : Js.str) : Js.eqb a b = true <-> a = b.
Proof.
  revert b; induction a as [|x a IH]; intros [|y b]; simpl;
    try (split; (discriminate || reflexivity)).
  rewrite andb_true_iff, N.eqb_eq, IH.
  split; [intros [-> ->]; reflexivity | intros [= -> ->]; auto].
Qed.

Lemma eqb_refl (a : Js.str) : Js.eqb a a = true.
Proof. apply eqb_eq; reflexivity. Qed.

Lemma startsWith_iff (s p : Js.str) :
  Js.startsWith s p = true <-> exists r, s = p ++ r.
Proof.
  revert s; induction p as [|y p IH]; intros s; simpl.
  - split; [intros _; exists s; reflexivity | destruct s; reflexivity].
  - destruct s as [|x s]; simpl.
    + split; [discriminate | intros [r Hr]; discriminate].
    + rewrite andb_true_iff, N.eqb_eq, IH. split.
      * intros [-> [r ->]]. exists r; reflexivity.
      * intros [r [= -> ->]]. split; [reflexivity | exists r; reflexivity].
Qed.

Lemma endsWith_iff (s p : Js.str) :
  Js.endsWith s p = true <-> exists r, s = r ++ p.
Proof.
  unfold Js.endsWith. rewrite startsWith_iff. split.
  - intros [r Hr]. exists (rev r).
    rewrite <- (rev_involutive s), Hr, rev_app_distr, rev_involutive.
    reflexivity.
  - intros [r ->]. exists (rev r). apply rev_app_distr.
Qed.

Lemma includes_iff (s p : Js.str) :
  Js.includes s p = true <-> exists a b, s = a ++ p ++ b.
Proof.
  induction s as [|x s IH]; cbn [Js.includes].
  - rewrite orb_false_r, startsWith_iff. split.
    + intros [r Hr]. exists [], r. exact Hr.
    + intros [a [b H]]. destruct a; [exists b; exact H | discriminate].
  - rewrite orb_true_iff, startsWith_iff, IH. split.
    + intros [[r Hr] | [a [b Hab]]].
      * exists [], r. exact Hr.
      * exists (x :: a), b. simpl. f_equal. exact Hab.
    + intros [[|y a] [b H]].
      * left. exists b. exact H.
      * right. injection H as _ H. exists a, b. exact H.
Qed.

(** A literal matches exactly itself as a prefix. *)
Lemma match_Lit (p s : Js.str) (k : Js.str -> bool) :
  Regex.m (Regex.Lit p) s k = true <-> exists r, s = p ++ r /\ k r = true.
Proof.
  revert s; induction p as [|c p IH]; intros s; simpl.
  - split; [intros H; exists s; auto | intros [r [-> H]]; exact H].
  - destruct s as [|x s].
    + split; [discriminate | intros [r [Hr _]]; discriminate].
    + rewrite andb_true_iff, N.eqb_eq, IH. split.
      * intros [-> [r [-> H]]]. exists r; auto.
      * intros [r [[= -> ->] H]]. split; [reflexivity | exists r; auto].
Qed.

Lemma is_compose_iff (name : Js.str) :
  is_compose name = true <->
  name = `"docker-compose.yml" \/ name = `"docker-compose.yaml".
Proof.
  unfold is_compose, Regex.matches, compose_re.
  cbn [Regex.m]. rewrite match_Lit. split.
  - intros [r [-> H]]. apply orb_true_iff in H.
    destruct H as [H | H]; apply match_Lit in H;
      destruct H as [[|? ?] [-> H]]; try discriminate; auto.
  - intros [-> | ->].
    + exists `"yml". split; reflexivity.
    + exists `"yaml". split; reflexivity.
Qed.

Lemma is_dockerfile_iff (name : Js.str) :
  is_dockerfile name = true <->
  name = `"Dockerfile" \/ exists rest, name = `"Dockerfile." ++ rest.
Proof.
  unfold is_dockerfile. rewrite orb_true_iff, eqb_eq, startsWith_iff.
  reflexivity.
Qed.

Lemma is_kubernetes_iff (name : Js.str) :
  is_kubernetes name = true <->
  (exists a b, name = a ++ `"k8s" ++ b) \/
  (exists a b, name = a ++ `"kubernetes" ++ b).
Proof.
  unfold is_kubernetes. rewrite orb_true_iff, !includes_iff. reflexivity.
Qed.

Lemma is_file_iff (f : GitHubFile.t) :
  is_file f = true <-> GitHubFile.type f = Some `"file".
Proof.
  unfold is_file. destruct (GitHubFile.type f) as [t|]; simpl.
  - rewrite eqb_eq. split; [intros ->; reflexivity | intros [= ->]; reflexivity].
  - split; discriminate.
Qed.

End StringFacts.

(* ================================================================== *)
(** * [atob] undoes [btoa] *)

Section Base64Facts.
Local Open Scope N_scope.
Import Base64.

Lemma list_ind3 {A} (P : list A -> Prop) :
  P [] -> (forall a, P [a]) -> (forall a b, P [a; b]) ->
  (forall a b c r, P r -> P (a :: b :: c :: r)) ->
  forall l, P l.
Proof.
  intros H0 H1 H2 H3.
  refine (fix go l := match l with
                      | [] => H0
                      | [a] => H1 a
                      | [a; b] => H2 a b
                      | a :: b :: c :: r => H3 a b c r (go r)
                      end).
Qed.

Lemma below_all (n : nat) (P : N -> bool) :
  forallb P (below n) = true -> forall a, a < N.of_nat n -> P a = true.
Proof.
  intros H a Ha. rewrite forallb_forall in H. apply H.
  unfold below. apply in_map_iff. exists (N.to_nat a).
  split; [apply N2Nat.id | apply in_seq; lia].
Qed.

Lemma bytes_ok_all (a b : N) : a <= 255 -> b <= 255 -> bytes_ok a b = true.
Proof.
  intros Ha Hb.
  assert (H : forallb (fun x => forallb (bytes_ok x) (below 256)) (below 256)
              = true) by (vm_compute; reflexivity).
  apply (below_all 256 (bytes_ok a)); [|simpl; lia].
  apply (below_all 256 (fun x => forallb (bytes_ok x) (below 256)) H).
  simpl; lia.
Qed.

Lemma sextet_ok_all (i : N) : i < 64 -> sextet_ok i = true.
Proof.
  intros Hi. apply (below_all 64 sextet_ok); [vm_compute; reflexivity|].
  simpl; lia.
Qed.

(** The facts packed in [bytes_ok]. *)
Lemma bytes_facts (a b : N) :
  a <= 255 -> b <= 255 ->
  octet1 (sextet1 a) (sextet2 a b) = a
  /\ octet3 (sextet3 a b) (sextet4 b) = b
  /\ N.land (sextet2 a b) 15 = N.shiftr b 4
  /\ N.shiftr (sextet3 a b) 2 = N.land a 15
  /\ N.lor (N.shiftl (N.shiftr a 4) 4) (N.land a 15) = a
  /\ sextet1 a < 64 /\ sextet2 a b < 64 /\ sextet3 a b < 64 /\ sextet4 a < 64.
Proof.
  intros Ha Hb. pose proof (bytes_ok_all Ha Hb) as H. unfold bytes_ok in H.
  repeat (apply andb_true_iff in H; destruct H as [H ?]).
  repeat match goal with
         | E : (_ =? _) = true |- _ => apply N.eqb_eq in E
         | E : (_ <? _) = true |- _ => apply N.ltb_lt in E
         end.
  repeat split; assumption.
Qed.

Lemma octet2_sextets (a b c : N) :
  a <= 255 -> b <= 255 -> c <= 255 ->
  octet2 (sextet2 a b) (sextet3 b c) = b.
Proof.
  intros Ha Hb Hc. unfold octet2.
  destruct (bytes_facts Ha Hb) as (_ & _ & -> & _).
  destruct (bytes_facts Hb Hc) as (_ & _ & _ & -> & E & _). exact E.
Qed.

Lemma groups_bound (l : list N) :
  Forall (fun c => c <= 255) l -> Forall (fun v => v < 64) (groups l).
Proof.
  assert (H0 : 0 <= 255) by lia.
  induction l as [|a|a b|a b c r IH] using list_ind3; intros H; cbn [groups].
  - constructor.
  - inversion_clear H as [|? ? Ha _].
    destruct (bytes_facts Ha H0) as (_ & _ & _ & _ & _ & ? & ? & _).
    repeat constructor; assumption.
  - inversion_clear H as [|? ? Ha H']. inversion_clear H' as [|? ? Hb _].
    destruct (bytes_facts Ha Hb) as (_ & _ & _ & _ & _ & ? & ? & _).
    destruct (bytes_facts Hb H0) as (_ & _ & _ & _ & _ & _ & _ & ? & _).
    repeat constructor; assumption.
  - inversion_clear H as [|? ? Ha H']. inversion_clear H' as [|? ? Hb H''].
    inversion_clear H'' as [|? ? Hc Hr].
    destruct (bytes_facts Ha Hb) as (_ & _ & _ & _ & _ & ? & ? & _).
    destruct (bytes_facts Hb Hc) as (_ & _ & _ & _ & _ & _ & _ & ? & _).
    destruct (bytes_facts Hc H0) as (_ & _ & _ & _ & _ & _ & _ & _ & ?).
    repeat (constructor; [assumption|]). apply IH, Hr.
Qed.

Lemma decode_groups (l : list N) :
  Forall (fun c => c <= 255) l -> decode (groups l) = l.
Proof.
  assert (H0 : 0 <= 255) by lia.
  induction l as [|a|a b|a b c r IH] using list_ind3; intros H;
    cbn [groups decode].
  - reflexivity.
  - inversion_clear H as [|? ? Ha _].
    destruct (bytes_facts Ha H0) as (-> & _). reflexivity.
  - inversion_clear H as [|? ? Ha H']. inversion_clear H' as [|? ? Hb _].
    destruct (bytes_facts Ha Hb) as (-> & _).
    rewrite (octet2_sextets Ha Hb H0). reflexivity.
  - inversion_clear H as [|? ? Ha H']. inversion_clear H' as [|? ? Hb H''].
    inversion_clear H'' as [|? ? Hc Hr].
    destruct (bytes_facts Ha Hb) as (-> & _).
    destruct (bytes_facts Hb Hc) as (_ & -> & _).
    rewrite (octet2_sextets Ha Hb Hc), (IH Hr). reflexivity.
Qed.

Lemma sextets_enc (g : list N) :
  Forall (fun v => v < 64) g -> sextets (map enc g) = Some g.
Proof.
  induction 1 as [|v g Hv _ IH]; cbn [map sextets]; [reflexivity|].
  rewrite IH. pose proof (sextet_ok_all Hv) as H. unfold sextet_ok in H.
  apply andb_true_iff in H. destruct H as [H _].
  apply andb_true_iff in H. destruct H as [H _].
  destruct (dec (enc v)) as [j|]; [|discriminate H].
  apply N.eqb_eq in H. subst j. reflexivity.
Qed.

Lemma enc_plain (g : list N) :
  Forall (fun v => v < 64) g ->
  Forall (fun x => is_space x = false /\ (x =? pad) = false) (map enc g).
Proof.
  induction 1 as [|v g Hv _ IH]; cbn [map]; constructor; [|exact IH].
  pose proof (sextet_ok_all Hv) as H. unfold sextet_ok in H.
  apply andb_true_iff in H. destruct H as [H Hp].
  apply andb_true_iff in H. destruct H as [_ Hs].
  apply negb_true_iff in Hp, Hs. split; assumption.
Qed.

Lemma padding_cases (l : list N) :
  padding l = [] \/ padding l = [pad] \/ padding l = [pad; pad].
Proof.
  induction l as [|a|a b|a b c r IH] using list_ind3; cbn [padding]; auto.
Qed.

(** The length of an encoding is a multiple of 4, and its sextets are
    never one more than a multiple of 4. *)
Lemma encode_length (l : list N) :
  exists k : nat,
    (List.length (map enc (groups l) ++ padding l) = 4 * k)%nat
    /\ (List.length (map enc (groups l)) = 4 * k
        \/ List.length (map enc (groups l)) + 1 = 4 * k
        \/ List.length (map enc (groups l)) + 2 = 4 * k)%nat.
Proof.
  induction l as [|a|a b|a b c r IH] using list_ind3.
  - exists 0%nat. split; [reflexivity | left; reflexivity].
  - exists 1%nat. split; [reflexivity | right; right; reflexivity].
  - exists 1%nat. split; [reflexivity | right; left; reflexivity].
  - destruct IH as [k [H1 H2]]. exists (S k).
    cbn [groups padding map List.length app] in *. lia.
Qed.

Lemma mod4_of_nat (n k r : nat) :
  (n + r = 4 * k)%nat -> (r < 3)%nat ->
  (N.of_nat (n + r) mod 4 =? 0) = true
  /\ (N.of_nat n mod 4 =? 1) = false.
Proof.
  intros H Hr. split.
  - apply N.eqb_eq. rewrite H, Nat2N.inj_mul, N.mul_comm.
    apply N.Div0.mod_mul.
  - apply N.eqb_neq. intros E.
    assert (Hn : (n = 4 * (n / 4) + n mod 4)%nat) by (apply Nat.div_mod_eq).
    assert (Hm : (n mod 4 = 1)%nat).
    { apply Nat2N.inj. rewrite Nat2N.inj_mod. exact E. }
    lia.
Qed.

Lemma filter_keeps {A} (f : A -> bool) (l : list A) :
  Forall (fun x => f x = true) l -> filter f l = l.
Proof.
  induction 1 as [|x l Hx _ IH]; cbn [filter]; [reflexivity|].
  rewrite Hx, IH. reflexivity.
Qed.

Lemma strip_pad_encoded (X P : list N) :
  Forall (fun x => (x =? pad) = false) X ->
  P = [] \/ P = [pad] \/ P = [pad; pad] ->
  (N.of_nat (List.length (X ++ P)) mod 4 =? 0) = true ->
  strip_pad (X ++ P) = X.
Proof.
  intros HX HP Hlen. unfold strip_pad. rewrite Hlen.
  assert (Hhead : forall y r, rev X = y :: r -> (y =? pad) = false).
  { intros y r E. rewrite Forall_forall in HX. apply HX.
    apply in_rev. rewrite E. left. reflexivity. }
  destruct HP as [-> | [-> | ->]].
  - rewrite app_nil_r.
    destruct (rev X) as [|x [|y r]] eqn:E; try reflexivity.
    rewrite (Hhead x (y :: r) eq_refl). reflexivity.
  - rewrite rev_app_distr. cbn [rev app].
    destruct (rev X) as [|y r] eqn:E.
    + apply (f_equal (@rev N)) in E. rewrite rev_involutive in E.
      subst X. discriminate Hlen.
    + rewrite N.eqb_refl, (Hhead y r eq_refl).
      rewrite <- (rev_involutive X), E. reflexivity.
  - rewrite rev_app_distr. cbn [rev app]. rewrite !N.eqb_refl.
    apply rev_involutive.
Qed.

(** Decoding an encoding gives the bytes back. *)
Lemma atob_encode (l : list N) :
  Forall (fun c => c <= 255) l -> atob (encode l) = Some l.
Proof.
  intros Hl. pose proof (groups_bound Hl) as Hg.
  pose proof (enc_plain Hg) as Hplain.
  destruct (encode_length l) as [k [Hk Hcases]].
  unfold atob, encode.
  rewrite filter_keeps.
  2:{ apply Forall_app. split.
      - eapply Forall_impl; [|exact Hplain].
        intros x [Hs _]. rewrite Hs. reflexivity.
      - destruct (padding_cases l) as [-> | [-> | ->]];
          repeat constructor. }
  assert (Hmod : (N.of_nat (List.length (map enc (groups l) ++ padding l))
                    mod 4 =? 0) = true
                 /\ (N.of_nat (List.length (map enc (groups l))) mod 4 =? 1)
                    = false).
  { destruct Hcases as [H | [H | H]].
    - destruct (@mod4_of_nat _ k 0%nat (eq_trans (Nat.add_0_r _) H)
                  ltac:(lia)) as [_ H2].
      split; [|exact H2]. rewrite Hk, Nat2N.inj_mul, N.mul_comm.
      apply N.eqb_eq, N.Div0.mod_mul.
    - destruct (@mod4_of_nat _ k 1%nat H ltac:(lia)) as [_ H2].
      split; [|exact H2]. rewrite Hk, Nat2N.inj_mul, N.mul_comm.
      apply N.eqb_eq, N.Div0.mod_mul.
    - destruct (@mod4_of_nat _ k 2%nat H ltac:(lia)) as [_ H2].
      split; [|exact H2]. rewrite Hk, Nat2N.inj_mul, N.mul_comm.
      apply N.eqb_eq, N.Div0.mod_mul. }
  destruct Hmod as [Hm0 Hm1].
  rewrite strip_pad_encoded; [| |apply padding_cases|exact Hm0].
  2:{ eapply Forall_impl; [|exact Hplain]. intros x [_ Hp]. exact Hp. }
  cbv zeta. rewrite Hm1, (sextets_enc Hg), (decode_groups Hl). reflexivity.
Qed.

(** What [btoa] returns, [atob] turns back into the string. *)
Theorem atob_btoa (s encoded : Js.str) :
  btoa s = Some encoded -> atob encoded = Some s.
Proof.
  unfold btoa. destruct (forallb (fun c => c <=? 255) s) eqn:H; [|discriminate].
  intros [= <-]. apply atob_encode. apply Forall_forall. intros c Hc.
  rewrite forallb_forall in H. apply N.leb_le, H, Hc.
Qed.

Example btoa_hello : btoa `"hello" = Some `"aGVsbG8=".
Proof. reflexivity. Qed.

(** The host breaks the content into lines; [atob] skips the line feeds. *)
Example atob_lines : atob (`"aGVs" ++ [10] ++ `"bG8=" ++ [10]) = Some `"hello".
Proof. reflexivity. Qed.

Example atob_not_base64 : atob `"a_b" = None.
Proof. reflexivity. Qed.

End Base64Facts.

(* ================================================================== *)
(** * The diff view *)

Section DiffFacts.

Lemma strict_eq_iff (a b : option Js.str) :
  Js.strict_eq a b = true <-> a = b.
Proof.
  destruct a as [x|], b as [y|]; simpl;
    try (split; (discriminate || reflexivity)).
  rewrite eqb_eq. split; [intros ->; reflexivity | intros [= ->]; reflexivity].
Qed.

Lemma renderDiff_length (c : FileChange.t) :
  List.length (renderDiff c)
  = Nat.max (List.length (Js.split_lf (FileChange.oldContent c)))
            (List.length (Js.split_lf (FileChange.newContent c))).
Proof. unfold renderDiff. rewrite length_map, length_seq. reflexivity. Qed.

Lemma renderDiff_nth (c : FileChange.t) (i : nat) :
  i < List.length (renderDiff c) ->
  nth_error (renderDiff c) i
  = Some (let oldLine :=
            nth_error (Js.split_lf (FileChange.oldContent c)) i in
          let newLine :=
            nth_error (Js.split_lf (FileChange.newContent c)) i in
          mkRow i (negb (Js.strict_eq oldLine newLine))
                (Js.or_else oldLine `" ") (Js.or_else newLine `" ")).
Proof.
  rewrite renderDiff_length. intros Hi. unfold renderDiff.
  rewrite nth_error_map, nth_error_seq.
  destruct (Nat.ltb_spec i
    (Nat.max (List.length (Js.split_lf (FileChange.oldContent c)))
             (List.length (Js.split_lf (FileChange.newContent c))))) as [_|Hge];
    [reflexivity | lia].
Qed.

Lemma nth_error_padded (lines : list Js.str) (i : nat) :
  i < List.length lines -> nth_error lines i = Some (padded_line lines i).
Proof.
  intros Hi. unfold padded_line. apply nth_error_nth'. exact Hi.
Qed.

(** C3, as the specification words it, fails: when the new text only
    gains a final line feed, row 1 pairs no old line with an empty new
    line; padding makes the two equal, the renderer marks the row changed. *)
Lemma renderDiff_not_as_specified :
  ~ renders_as_specified
      (FileChange.mk `"docker-compose.yml" `"a" (`"a" ++ [10%N])
         `"final newline").
Proof.
  intros [_ H].
  specialize (H 1 (mkRow 1 true `" " `" ") eq_refl).
  discriminate H.
Qed.

(** C3, amended: the renderer is a function of the two texts that yields
    one row for each index below the larger line count; row [i] is changed
    exactly when the line [i] of the old text and the line [i] of the new
    text differ, a text that has no line [i] differing there from any text
    that has one.  So a row is as the padded comparison says where both
    texts have the line, and changed where only one has it.  On "a","b"
    against "a","c","d" the three rows are unchanged, changed, changed. *)
Theorem renderDiff_rows (c : FileChange.t) :
  let oldLines := Js.split_lf (FileChange.oldContent c) in
  let newLines := Js.split_lf (FileChange.newContent c) in
  List.length (renderDiff c)
  = Nat.max (List.length oldLines) (List.length newLines)
  /\ (forall i row,
        nth_error (renderDiff c) i = Some row ->
        key row = i
        /\ (changed row = true <-> nth_error oldLines i <> nth_error newLines i)
        /\ (i < List.length oldLines -> i < List.length newLines ->
            changed row
            = spec_changed (FileChange.oldContent c) (FileChange.newContent c)
                i)
        /\ (List.length oldLines <= i \/ List.length newLines <= i ->
            changed row = true))
  /\ (forall path note,
        map changed
          (renderDiff
             (FileChange.mk path (`"a" ++ [10%N] ++ `"b")
                (`"a" ++ [10%N] ++ `"c" ++ [10%N] ++ `"d") note))
        = [false; true; true]
        /\ map oldCell
             (renderDiff
                (FileChange.mk path (`"a" ++ [10%N] ++ `"b")
                   (`"a" ++ [10%N] ++ `"c" ++ [10%N] ++ `"d") note))
           = [`"a"; `"b"; `" "]
        /\ map newCell
             (renderDiff
                (FileChange.mk path (`"a" ++ [10%N] ++ `"b")
                   (`"a" ++ [10%N] ++ `"c" ++ [10%N] ++ `"d") note))
           = [`"a"; `"c"; `"d"]).
Proof.
  intros oldLines newLines. split; [apply renderDiff_length|].
  split; [|intros path note; repeat split; reflexivity].
  intros i row Hrow.
  assert (Hi : i < List.length (renderDiff c)).
  { apply nth_error_Some. rewrite Hrow. discriminate. }
  rewrite (renderDiff_nth c Hi) in Hrow. cbv zeta in Hrow.
  injection Hrow as <-. cbn [key changed].
  fold oldLines newLines.
  assert (Hch : negb (Js.strict_eq (nth_error oldLines i) (nth_error newLines i))
                = true
                <-> nth_error oldLines i <> nth_error newLines i).
  { rewrite negb_true_iff, <- not_true_iff_false, strict_eq_iff. reflexivity. }
  split; [reflexivity|]. split; [exact Hch|]. split.
  - intros Ho Hn. unfold spec_changed. fold oldLines newLines.
    rewrite (nth_error_padded oldLines Ho), (nth_error_padded newLines Hn).
    reflexivity.
  - intros Hout. apply Hch. intros Heq.
    rewrite renderDiff_length in Hi. fold oldLines newLines in Hi.
    destruct Hout as [Ho | Hn].
    + pose proof (proj2 (nth_error_None oldLines i) Ho) as E.
      rewrite E in Heq. symmetry in Heq. apply nth_error_None in Heq. lia.
    + pose proof (proj2 (nth_error_None newLines i) Hn) as E.
      rewrite E in Heq. apply nth_error_None in Heq. lia.
Qed.

End DiffFacts.

(* ================================================================== *)
(** * The client calls *)

Section ClientFacts.

Variable World : Type.
Variable respond : Request -> World -> World * FetchOutcome.
Implicit Types (e : Env World) (owner repo path : Js.str)
  (branch : option Js.str).

Lemma githubApi_unauthenticated e endpoint options :
  Js.truthy_opt (token e) = false ->
  githubApi respond endpoint options e
  = (e, inl (Error `"No GitHub token found")).
Proof.
  intros H. unfold githubApi, bind, getGitHubToken. rewrite H. reflexivity.
Qed.

Lemma githubApi_run e endpoint :
  Js.truthy_opt (token e) = true ->
  githubApi respond endpoint no_options e
  = let rq := api_request (token e) endpoint in
    let (w, out) := respond rq (world e) in
    match out with
    | Rejected => (sent e w rq, inl TypeError)
    | Resolved r =>
        if ok r then
          match json r with
          | Some j => (sent e w rq, inr j)
          | None => (sent e w rq, inl SyntaxError)
          end
        else (sent e w rq,
              inl (Error (`"GitHub API error: " ++ statusText r)))
    end.
Proof.
  intros H. unfold githubApi, bind, getGitHubToken, fetch, api_request.
  rewrite H. simpl.
  destruct (respond _ (world e)) as [w [|r]]; [reflexivity|].
  destruct (ok r); simpl; [|reflexivity].
  unfold response_json. destruct (json r); reflexivity.
Qed.

Lemma githubApi_token e endpoint options :
  token (fst (githubApi respond endpoint options e)) = token e.
Proof.
  unfold githubApi, bind, getGitHubToken, fetch.
  destruct (negb (Js.truthy_opt (token e))); [reflexivity|].
  destruct (respond _ (world e)) as [w [|r]]; [reflexivity|].
  destruct (negb (ok r)); [reflexivity|].
  unfold response_json. destruct (json r); reflexivity.
Qed.

Lemma githubApi_ok_token e e' endpoint options j :
  githubApi respond endpoint options e = (e', inr j) ->
  Js.truthy_opt (token e) = true.
Proof.
  destruct (Js.truthy_opt (token e)) eqn:H; [reflexivity|].
  rewrite githubApi_unauthenticated by exact H. discriminate.
Qed.

Lemma decode_content_env e data :
  fst (decode_content data e) = e.
Proof.
  unfold decode_content. destruct data as [f| | |]; try reflexivity.
  destruct (_ && _); [|reflexivity].
  destruct (GitHubFile.content f) as [c|]; [|reflexivity].
  destruct (Base64.atob c); reflexivity.
Qed.

Lemma getRepoFile_token e owner repo path branch :
  token (fst (getRepoFile respond owner repo path branch e)) = token e.
Proof.
  unfold getRepoFile, bind.
  pose proof (githubApi_token e
    (`"/repos/" ++ owner ++ `"/" ++ repo ++ `"/contents/" ++ path
     ++ ref_query branch) no_options) as H.
  destruct (githubApi _ _ _ e) as [e' [x|data]]; [exact H|].
  rewrite decode_content_env. exact H.
Qed.

Lemma set_content_same (f : GitHubFile.t) (c : Js.str) :
  GitHubFile.content f = Some c -> GitHubFile.set_content f c = f.
Proof. destruct f; simpl; intros ->; reflexivity. Qed.

(** C2: with no credential stored, each of the seven client calls raises
    the "No GitHub token found" error and leaves the environment as it
    was: the request log gains nothing and the host is not asked. *)
Theorem no_credential_no_request e owner repo path content message sha
    newBranchName fromBranch (dir : option Js.str) branch (target : Js.str) :
  token e = None ->
  let unauthenticated := Error `"No GitHub token found" in
  getGitHubUser respond e = (e, inl unauthenticated) /\
  getGitHubRepos respond e = (e, inl unauthenticated) /\
  getRepoBranches respond owner repo e = (e, inl unauthenticated) /\
  getRepoFile respond owner repo path branch e = (e, inl unauthenticated) /\
  getRepoContents respond owner repo dir branch e
    = (e, inl unauthenticated) /\
  updateRepoFile respond owner repo path content message sha target e
    = (e, inl unauthenticated) /\
  createBranch respond owner repo newBranchName fromBranch e
    = (e, inl unauthenticated).
Proof.
  intros H. simpl.
  assert (Ht : Js.truthy_opt (token e) = false) by (rewrite H; reflexivity).
  unfold getGitHubUser, getGitHubRepos, getRepoBranches, getRepoFile,
    getRepoContents, updateRepoFile, createBranch, bind, getGitHubToken.
  rewrite !githubApi_unauthenticated by exact Ht.
  rewrite Ht. simpl. repeat split; reflexivity.
Qed.

(** C4: when the payload read for a file says [encoding: "base64"], the
    record [getRepoFile] returns carries, as its content, the base64
    decoding of the payload's content; a content that is not base64 has
    no decoding and the read raises. *)
Theorem getRepoFile_decodes_base64 e e' owner repo path branch f c :
  githubApi respond
    (`"/repos/" ++ owner ++ `"/" ++ repo ++ `"/contents/" ++ path
     ++ ref_query branch) no_options e = (e', inr (JFile f)) ->
  GitHubFile.encoding f = Some `"base64" ->
  GitHubFile.content f = Some c ->
  match Base64.atob c with
  | Some decoded =>
      getRepoFile respond owner repo path branch e
      = (e', inr (JFile (GitHubFile.set_content f decoded)))
      /\ GitHubFile.content (GitHubFile.set_content f decoded) = Some decoded
  | None =>
      getRepoFile respond owner repo path branch e
      = (e', inl InvalidCharacterError)
  end.
Proof.
  intros Hapi Henc Hc. unfold getRepoFile, bind. rewrite Hapi.
  unfold decode_content. rewrite Henc, Hc.
  change (Js.strict_eq (Some `"base64") (Some `"base64")) with true.
  rewrite andb_true_r. destruct c as [|x c].
  - simpl. rewrite set_content_same by exact Hc. split; reflexivity.
  - cbn [Js.truthy_opt Js.truthy].
    destruct (Base64.atob (x :: c)); [split|]; reflexivity.
Qed.

(** What a write sends when its content can be encoded: one PUT whose
    body carries the base64 encoding of the content. *)
Lemma updateRepoFile_sends_base64 e owner repo path content message sha
    (target encoded : Js.str) :
  Js.truthy_opt (token e) = true ->
  Base64.btoa content = Some encoded ->
  requests (fst (updateRepoFile respond owner repo path content message sha
                   target e))
  = requests e
    ++ [(`"https://api.github.com/repos/" ++ owner ++ `"/" ++ repo
         ++ `"/contents/" ++ path,
         mkInit (Some `"PUT") (Some (json_headers (token e)))
           (Some (UpdateBody message encoded sha target)))].
Proof.
  intros Ht Hb. unfold updateRepoFile, bind, getGitHubToken, btoa, fetch.
  rewrite Ht, Hb. simpl.
  destruct (respond _ (world e)) as [w [|r]]; [reflexivity|].
  destruct (negb (ok r)); [reflexivity|].
  unfold response_json. destruct (json r); reflexivity.
Qed.

Lemma btoa_narrow (content : Js.str) :
  Forall (fun c => (c <= 255)%N) content ->
  Base64.btoa content = Some (Base64.encode content).
Proof.
  intros H. unfold Base64.btoa.
  replace (forallb (fun c => (c <=? 255)%N) content) with true; [reflexivity|].
  symmetry. apply forallb_forall. intros c Hc. apply N.leb_le.
  rewrite Forall_forall in H. apply H. exact Hc.
Qed.

Lemma btoa_wide (content : Js.str) :
  (exists c, In c content /\ (255 < c)%N) -> Base64.btoa content = None.
Proof.
  intros [c [Hin Hc]]. unfold Base64.btoa.
  destruct (forallb (fun c => (c <=? 255)%N) content) eqn:H; [|reflexivity].
  rewrite forallb_forall in H. specialize (H c Hin).
  apply N.leb_le in H. lia.
Qed.

(** C8, with a token stored.  A content whose code units all fit a byte
    goes out in one PUT whose body carries its base64 encoding, which
    [atob] decodes back to the content.  A content
    with a code unit above U+00FF makes [btoa] raise: the write raises
    before [fetch] is called and no request goes out; the euro sign alone
    is such a content. *)
Theorem updateRepoFile_encodes_or_raises e owner repo path content message
    sha (target : Js.str) :
  Js.truthy_opt (token e) = true ->
  (Forall (fun c => (c <= 255)%N) content ->
   requests (fst (updateRepoFile respond owner repo path content message sha
                    target e))
   = requests e
     ++ [(`"https://api.github.com/repos/" ++ owner ++ `"/" ++ repo
          ++ `"/contents/" ++ path,
          mkInit (Some `"PUT") (Some (json_headers (token e)))
            (Some (UpdateBody message (Base64.encode content) sha target)))]
   /\ Base64.atob (Base64.encode content) = Some content)
  /\ ((exists c, In c content /\ (255 < c)%N) ->
      updateRepoFile respond owner repo path content message sha target e
      = (e, inl InvalidCharacterError))
  /\ updateRepoFile respond owner repo path [8364%N] message sha target e
     = (e, inl InvalidCharacterError).
Proof.
  intros Ht.
  assert (Hwide : forall wide,
            Base64.btoa wide = None ->
            updateRepoFile respond owner repo path wide message sha target e
            = (e, inl InvalidCharacterError)).
  { intros wide Hb. unfold updateRepoFile, bind, getGitHubToken, btoa.
    rewrite Ht, Hb. reflexivity. }
  split; [|split].
  - intros Hn. split; [|apply atob_encode, Hn].
    apply updateRepoFile_sends_base64; [exact Ht|].
    apply btoa_narrow. exact Hn.
  - intros Hw. apply Hwide, btoa_wide, Hw.
  - apply Hwide. reflexivity.
Qed.

(** C9: [createBranch] first asks for the head of [fromBranch]; when the
    answer is not a success it raises the GitHub API error with that one
    request issued, and when it is, the second request creates the new
    ref at the hash just read. *)
Theorem createBranch_two_dependent_calls e owner repo newBranchName
    fromBranch (w1 : World) (r1 : Response) :
  Js.truthy_opt (token e) = true ->
  let lookup :=
    api_request (token e)
      (`"/repos/" ++ owner ++ `"/" ++ repo ++ `"/git/refs/heads/"
       ++ fromBranch) in
  respond lookup (world e) = (w1, Resolved r1) ->
  (ok r1 = false ->
   createBranch respond owner repo newBranchName fromBranch e
   = (sent e w1 lookup,
      inl (Error (`"GitHub API error: " ++ statusText r1)))) /\
  (forall hash,
     ok r1 = true -> json r1 = Some (JRef hash) ->
     let create : Request :=
       (`"https://api.github.com/repos/" ++ owner ++ `"/" ++ repo
        ++ `"/git/refs",
        mkInit (Some `"POST") (Some (json_headers (token e)))
          (Some (RefBody (`"refs/heads/" ++ newBranchName) hash))) in
     requests (fst (createBranch respond owner repo newBranchName
                      fromBranch e))
     = requests e ++ [lookup; create] /\
     forall w2 r2 hash',
       respond create w1 = (w2, Resolved r2) ->
       ok r2 = true -> json r2 = Some (JRef hash') ->
       snd (createBranch respond owner repo newBranchName fromBranch e)
       = inr (GitHubBranch.mk newBranchName hash')).
Proof.
  intros Ht lookup Hr.
  unfold createBranch, bind, getGitHubToken. rewrite Ht. cbn [negb].
  rewrite !githubApi_run by exact Ht. fold lookup. cbv zeta. rewrite Hr.
  split.
  - intros Hok. rewrite Hok. reflexivity.
  - intros hash Hok Hj. rewrite Hok, Hj. cbn [object_sha ret].
    unfold fetch. cbn [world token requests console sent].
    split.
    + destruct (respond _ w1) as [w2 [|r2]].
      * simpl. rewrite <- app_assoc. reflexivity.
      * destruct (negb (ok r2)); simpl.
        -- rewrite <- app_assoc. reflexivity.
        -- unfold response_json. destruct (json r2) as [[]|];
             simpl; rewrite <- app_assoc; reflexivity.
    + intros w2 r2 hash' Hr2 Hok2 Hj2. rewrite Hr2, Hok2. cbn [negb].
      unfold response_json. rewrite Hj2. reflexivity.
Qed.

End ClientFacts.

(* ================================================================== *)
(** * The scanner *)

Section ScannerFacts.

Variable World : Type.
Variable respond : Request -> World -> World * FetchOutcome.
Variables (owner repo : Js.str) (branch : option Js.str).
Implicit Types (e : Env World) (a : RepoAnalysis) (file : GitHubFile.t).

(** The read the loop body makes for an entry, and the loop body. *)
Local Abbreviation read file :=
  (getRepoFile respond owner repo (GitHubFile.path file) branch).

Local Abbreviation body := (scan_entry respond owner repo branch).

Lemma bind_value {S A B} (c : M S A) (k : A -> M S B) (s s' : S) (x : A) :
  c s = (s', inr x) -> bind c k s = k x s'.
Proof. intros H. unfold bind. rewrite H. reflexivity. Qed.

Lemma bind_raise {S A B} (c : M S A) (k : A -> M S B) (s s' : S) (x : exn) :
  c s = (s', inl x) -> bind c k s = (s', inl x).
Proof. intros H. unfold bind. rewrite H. reflexivity. Qed.

Lemma for_of_app {S A} (xs ys : list A) (f : A -> M S unit) (s : S) :
  for_of (xs ++ ys) f s = bind (for_of xs f) (fun _ => for_of ys f) s.
Proof.
  revert s. induction xs as [|x xs IH]; intros s; simpl; [reflexivity|].
  unfold bind in *. destruct (f x s) as [s1 [err|u]]; [reflexivity|apply IH].
Qed.

(** A loop that raises at an entry stops there. *)
Lemma for_of_raise {S A} (pre post : list A) (x : A) (f : A -> M S unit)
    (s s1 s2 : S) (err : exn) :
  for_of pre f s = (s1, inr tt) ->
  f x s1 = (s2, inl err) ->
  for_of (pre ++ x :: post) f s = (s2, inl err).
Proof.
  intros Hpre Hx. rewrite for_of_app, (bind_value _ _ _ Hpre). simpl.
  apply bind_raise. exact Hx.
Qed.

(** One rule of the loop body, when the read returns. *)
Lemma rule_returns (test : bool) (flag : RepoAnalysis -> RepoAnalysis)
    (store : Json -> RepoAnalysis -> RepoAnalysis) file e e' a j :
  read file e = (e', inr j) ->
  when test
    (assign flag ;; c <- call (read file) ;; assign (store c)) (e, a)
  = (if test then (e', store j (flag a)) else (e, a), inr tt).
Proof.
  intros H. destruct test; [|reflexivity].
  unfold when, bind, assign, call. simpl. rewrite H. reflexivity.
Qed.

(** One rule of the loop body, when the read raises: the flag is set
    and nothing is stored. *)
Lemma rule_raises (flag : RepoAnalysis -> RepoAnalysis)
    (store : Json -> RepoAnalysis -> RepoAnalysis) file e e' a err :
  read file e = (e', inl err) ->
  when true
    (assign flag ;; c <- call (read file) ;; assign (store c)) (e, a)
  = ((e', flag a), inl err).
Proof.
  intros H. unfold when, bind, assign, call. simpl. rewrite H. reflexivity.
Qed.

(** The loop body when the entry's read raises. *)
Lemma scan_entry_raises file e e' a err :
  read file e = (e', inl err) ->
  is_read file = true ->
  body file (e, a) = ((e', flagged file a), inl err).
Proof.
  intros H. unfold is_read, scan_entry, flagged.
  destruct (is_compose (GitHubFile.name file)),
    (is_dockerfile (GitHubFile.name file)),
    (is_terraform (GitHubFile.name file)),
    (is_kubernetes (GitHubFile.name file)), (is_file file);
    cbn [orb andb]; intros Hr; try discriminate Hr;
    unfold when, bind, assign, call, ret; cbv beta iota zeta; cbn [fst snd];
    rewrite H; reflexivity.
Qed.

(** The loop body on an entry no rule reads: no request goes out. *)
Lemma scan_entry_unread file e a :
  is_read file = false ->
  body file (e, a) = ((e, flagged file a), inr tt).
Proof.
  unfold is_read, scan_entry, flagged.
  destruct (is_compose (GitHubFile.name file)),
    (is_dockerfile (GitHubFile.name file)),
    (is_terraform (GitHubFile.name file)),
    (is_kubernetes (GitHubFile.name file)), (is_file file);
    cbn [orb andb]; intros Hr; try discriminate Hr; reflexivity.
Qed.

(** What [analyzeRepository] returns, from what its [try] block did. *)
Lemma analyzeRepository_run e :
  analyzeRepository respond owner repo branch e
  = match scan_root respond owner repo branch (e, new_analysis) with
    | ((e', a), inr _) => (e', inr a)
    | ((e', a), inl err) =>
        (fst (console_error `"Error analyzing repository:" err e'), inr a)
    end.
Proof.
  unfold analyzeRepository, try_catch.
  destruct (scan_root respond owner repo branch (e, new_analysis))
    as [[e' a] [err|u]]; reflexivity.
Qed.

(** The [try] block once the root listing has arrived. *)
Lemma scan_root_listed e e1 files :
  getRepoContents respond owner repo (Some `"") branch e
  = (e1, inr (JFiles files)) ->
  scan_root respond owner repo branch (e, new_analysis)
  = for_of files body (e1, new_analysis).
Proof.
  intros H. unfold scan_root, bind, call, iterate. cbn [fst snd].
  rewrite H. reflexivity.
Qed.

Lemma getRepoContents_token e dir :
  token (fst (getRepoContents respond owner repo dir branch e)) = token e.
Proof. unfold getRepoContents. apply githubApi_token. Qed.

Lemma is_dockerfile_not_compose (name : Js.str) :
  is_dockerfile name = true -> is_compose name = false.
Proof.
  intros H. destruct (is_compose name) eqn:Hc; [|reflexivity].
  apply is_compose_iff in Hc. apply is_dockerfile_iff in H.
  destruct Hc as [-> | ->], H as [H | [rest H]]; discriminate H.
Qed.

(** C1: [analyzeRepository] always returns an analysis, whatever the host
    does.  When the root listing raises, that analysis is the initial one,
    all flags false and all collections empty.  When the processing of an
    entry raises, after the entries before it went through, the loop stops
    there: the analysis returned is the one reached at the raise, the error
    is logged, and no request is made for the entries that follow.  In
    particular, when the read of an entry raises, the analysis returned is
    the one the entries before left, with the flag of the reading rule
    set. *)
Theorem analyzeRepository_never_raises e :
  (exists e' a, analyzeRepository respond owner repo branch e = (e', inr a))
  /\ (forall e1 err,
        getRepoContents respond owner repo (Some `"") branch e
        = (e1, inl err) ->
        analyzeRepository respond owner repo branch e
        = (fst (console_error `"Error analyzing repository:" err e1),
           inr (mkAnalysis false false false false None [] [] [])))
  /\ (forall e1 pre file post e2 a2 e3 a3 err,
        getRepoContents respond owner repo (Some `"") branch e
        = (e1, inr (JFiles (pre ++ file :: post))) ->
        for_of pre body (e1, new_analysis) = ((e2, a2), inr tt) ->
        body file (e2, a2) = ((e3, a3), inl err) ->
        analyzeRepository respond owner repo branch e
        = (fst (console_error `"Error analyzing repository:" err e3), inr a3)
        /\ requests (fst (console_error `"Error analyzing repository:" err e3))
           = requests e3)
  /\ (forall e1 pre file post e2 a2 e3 err,
        getRepoContents respond owner repo (Some `"") branch e
        = (e1, inr (JFiles (pre ++ file :: post))) ->
        for_of pre body (e1, new_analysis) = ((e2, a2), inr tt) ->
        is_read file = true ->
        read file e2 = (e3, inl err) ->
        analyzeRepository respond owner repo branch e
        = (fst (console_error `"Error analyzing repository:" err e3),
           inr (flagged file a2))).
Proof.
  split; [|split; [|split]].
  - rewrite analyzeRepository_run.
    destruct (scan_root respond owner repo branch (e, new_analysis))
      as [[e' a] [err|u]]; eauto.
  - intros e1 err H. rewrite analyzeRepository_run.
    unfold scan_root, bind, call. cbn [fst snd]. rewrite H. reflexivity.
  - intros e1 pre file post e2 a2 e3 a3 err Hl Hpre Hf.
    rewrite analyzeRepository_run, (scan_root_listed e Hl),
      (for_of_raise pre post file body _ Hpre Hf).
    split; reflexivity.
  - intros e1 pre file post e2 a2 e3 err Hl Hpre Hr Hread.
    rewrite analyzeRepository_run, (scan_root_listed e Hl),
      (for_of_raise pre post file body _ Hpre
         (scan_entry_raises file e2 a2 Hread Hr)).
    reflexivity.
Qed.

(** C10: a rule sets its flag before it reads the entry.  When that read
    raises, the scan returns with the flag of the rule set and nothing
    stored for the entry: the compose file, or the collection of the rule,
    is as the entries before left it. *)
Theorem flag_set_before_read e e1 pre file post e2 a2 e3 err :
  getRepoContents respond owner repo (Some `"") branch e
  = (e1, inr (JFiles (pre ++ file :: post))) ->
  for_of pre body (e1, new_analysis) = ((e2, a2), inr tt) ->
  read file e2 = (e3, inl err) ->
  is_read file = true ->
  exists e' a,
    analyzeRepository respond owner repo branch e = (e', inr a)
    /\ (is_compose (GitHubFile.name file) = true ->
        hasDockerCompose a = true
        /\ dockerComposeFile a = dockerComposeFile a2)
    /\ (is_dockerfile (GitHubFile.name file) = true ->
        hasDockerfile a = true /\ dockerfiles a = dockerfiles a2)
    /\ (is_compose (GitHubFile.name file) = false ->
        is_dockerfile (GitHubFile.name file) = false ->
        is_terraform (GitHubFile.name file) = true ->
        hasTerraform a = true /\ terraformFiles a = terraformFiles a2)
    /\ (is_compose (GitHubFile.name file) = false ->
        is_dockerfile (GitHubFile.name file) = false ->
        is_terraform (GitHubFile.name file) = false ->
        hasKubernetes a = true /\ kubernetesFiles a = kubernetesFiles a2)
    /\ (pre = [] ->
        dockerComposeFile a2 = None /\ dockerfiles a2 = []
        /\ terraformFiles a2 = [] /\ kubernetesFiles a2 = []).
Proof.
  intros Hl Hpre Hread Hr.
  pose proof (scan_entry_raises file e2 a2 Hread Hr) as Hf.
  exists (fst (console_error `"Error analyzing repository:" err e3)),
    (flagged file a2).
  split.
  - rewrite analyzeRepository_run, (scan_root_listed e Hl),
      (for_of_raise pre post file body _ Hpre Hf). reflexivity.
  - unfold flagged. split; [|split; [|split; [|split]]].
    + intros Hc. rewrite Hc. split; reflexivity.
    + intros Hd. rewrite (is_dockerfile_not_compose _ Hd), Hd.
      split; reflexivity.
    + intros Hc Hd Ht. rewrite Hc, Hd, Ht. split; reflexivity.
    + intros Hc Hd Ht. unfold is_read in Hr.
      rewrite Hc, Hd, Ht in Hr. cbn [orb] in Hr.
      apply andb_true_iff in Hr. destruct Hr as [Hk _].
      rewrite Hc, Hd, Ht, Hk. split; reflexivity.
    + intros ->. cbn [for_of ret] in Hpre. injection Hpre as _ <-.
      repeat split; reflexivity.
Qed.

(** A loop that returns went through each of its entries. *)
Lemma for_of_split {S A} (pre post : list A) (x : A) (f : A -> M S unit)
    (s s' : S) :
  for_of (pre ++ x :: post) f s = (s', inr tt) ->
  exists s1 s2,
    for_of pre f s = (s1, inr tt)
    /\ f x s1 = (s2, inr tt)
    /\ for_of post f s2 = (s', inr tt).
Proof.
  rewrite for_of_app. unfold bind at 1.
  destruct (for_of pre f s) as [s1 [err|[]]] eqn:H1; [discriminate|].
  cbn [for_of]. unfold bind at 1.
  destruct (f x s1) as [s2 [err|[]]] eqn:H2; [discriminate|].
  intros H. exists s1, s2. repeat split; [exact H2|exact H].
Qed.

(** The loop body when it returns: every rule whose test the entry
    passes has set its flag, read the entry in its turn and stored the
    record that read returned; the Kubernetes rule has read the entry
    only if its type is ["file"]. *)
Lemma scan_entry_completes file e a e' a' :
  body file (e, a) = ((e', a'), inr tt) ->
  hasDockerCompose a' = hasDockerCompose a || compose_entry file
  /\ hasDockerfile a' = hasDockerfile a || dockerfile_entry file
  /\ hasTerraform a' = hasTerraform a || terraform_entry file
  /\ hasKubernetes a' = hasKubernetes a || kubernetes_entry file
  /\ (if compose_entry file
      then exists e3 j,
             read file e = (e3, inr j) /\ dockerComposeFile a' = Some j
      else dockerComposeFile a' = dockerComposeFile a)
  /\ (if dockerfile_entry file
      then exists e3 j,
             read file (at_dockerfile_rule respond owner repo branch file e)
             = (e3, inr j)
             /\ dockerfiles a' = dockerfiles a ++ [j]
      else dockerfiles a' = dockerfiles a)
  /\ (if terraform_entry file
      then exists e3 j,
             read file (at_terraform_rule respond owner repo branch file e)
             = (e3, inr j)
             /\ terraformFiles a' = terraformFiles a ++ [j]
      else terraformFiles a' = terraformFiles a)
  /\ (if kubernetes_file file
      then exists e3 j,
             read file (at_kubernetes_rule respond owner repo branch file e)
             = (e3, inr j)
             /\ kubernetesFiles a' = kubernetesFiles a ++ [j]
      else kubernetesFiles a' = kubernetesFiles a)
  /\ e' = after_rule respond owner repo branch (kubernetes_file file) file
            (at_kubernetes_rule respond owner repo branch file e).
Proof.
  unfold scan_entry, at_kubernetes_rule, at_terraform_rule,
    at_dockerfile_rule, after_rule, compose_entry, dockerfile_entry,
    terraform_entry, kubernetes_entry, kubernetes_file.
  destruct (is_compose (GitHubFile.name file)),
    (is_dockerfile (GitHubFile.name file)),
    (is_terraform (GitHubFile.name file)),
    (is_kubernetes (GitHubFile.name file)), (is_file file);
    unfold when, bind, assign, call, ret; cbv beta iota zeta;
    cbn [fst snd andb];
    repeat match goal with
      | |- context [read file ?e1] =>
          let E := fresh "E" in
          destruct (read file e1) as [? [?|?]] eqn:E; cbv beta iota;
          cbn [fst snd]; [intros [=] |]
      end;
    intros [= <- <-]; destruct a;
    cbn [hasDockerCompose hasDockerfile hasTerraform hasKubernetes
         dockerComposeFile dockerfiles terraformFiles kubernetesFiles
         set_hasDockerCompose set_dockerComposeFile set_hasDockerfile
         push_dockerfiles set_hasTerraform push_terraformFiles
         set_hasKubernetes push_kubernetesFiles];
    rewrite ?orb_true_r, ?orb_false_r; repeat split; eauto.
Qed.

(** A loop that returns: every flag is set exactly when it was, or an
    entry passes its test; each collection has grown at its end by one
    record for each entry its rule reads; the compose file is the one
    held before when no entry has a compose name, and some file when one
    has. *)
Lemma scan_loop_completes files :
  forall e0 a0 e' a,
    for_of files body (e0, a0) = ((e', a), inr tt) ->
    hasDockerCompose a = hasDockerCompose a0 || existsb compose_entry files
    /\ hasDockerfile a = hasDockerfile a0 || existsb dockerfile_entry files
    /\ hasTerraform a = hasTerraform a0 || existsb terraform_entry files
    /\ hasKubernetes a = hasKubernetes a0 || existsb kubernetes_entry files
    /\ (existsb compose_entry files = false ->
        dockerComposeFile a = dockerComposeFile a0)
    /\ (existsb compose_entry files = true -> dockerComposeFile a <> None)
    /\ (exists ds, dockerfiles a = dockerfiles a0 ++ ds
                   /\ List.length ds
                      = List.length (filter dockerfile_entry files))
    /\ (exists ts, terraformFiles a = terraformFiles a0 ++ ts
                   /\ List.length ts
                      = List.length (filter terraform_entry files))
    /\ (exists ks, kubernetesFiles a = kubernetesFiles a0 ++ ks
                   /\ List.length ks
                      = List.length (filter kubernetes_file files)).
Proof.
  induction files as [|file files IH]; intros e0 a0 e' a; cbn [for_of].
  - intros [= <- <-]. cbn [existsb filter List.length].
    rewrite !orb_false_r. repeat split; try reflexivity;
      try discriminate; exists []; rewrite app_nil_r; split; reflexivity.
  - unfold bind at 1.
    destruct (body file (e0, a0)) as [[e1 a1] [err|[]]] eqn:Hb;
      [discriminate|].
    intros Hrest. apply IH in Hrest. apply scan_entry_completes in Hb.
    destruct Hb as (B1 & B2 & B3 & B4 & B5 & B6 & B7 & B8 & _).
    destruct Hrest as (R1 & R2 & R3 & R4 & R5 & R6
                       & (ds & R7 & L7) & (ts & R8 & L8) & (ks & R9 & L9)).
    cbn [existsb filter].
    rewrite R1, R2, R3, R4, B1, B2, B3, B4, !orb_assoc.
    repeat (split; [reflexivity|]).
    split; [|split; [|split; [|split]]].
    + intros Hno. apply orb_false_iff in Hno. destruct Hno as [Hf Hr].
      rewrite Hf in B5. rewrite (R5 Hr). exact B5.
    + intros Hsome. destruct (existsb compose_entry files) eqn:Hr.
      * apply R6. reflexivity.
      * rewrite (R5 eq_refl). rewrite orb_false_r in Hsome.
        rewrite Hsome in B5. destruct B5 as (e3 & j & _ & ->).
        discriminate.
    + destruct (dockerfile_entry file).
      * destruct B6 as (e3 & j & _ & B6). exists (j :: ds). split.
        -- rewrite R7, B6, <- app_assoc. reflexivity.
        -- cbn [List.length]. rewrite L7. reflexivity.
      * exists ds. split; [rewrite R7, B6; reflexivity|exact L7].
    + destruct (terraform_entry file).
      * destruct B7 as (e3 & j & _ & B7). exists (j :: ts). split.
        -- rewrite R8, B7, <- app_assoc. reflexivity.
        -- cbn [List.length]. rewrite L8. reflexivity.
      * exists ts. split; [rewrite R8, B7; reflexivity|exact L8].
    + destruct (kubernetes_file file).
      * destruct B8 as (e3 & j & _ & B8). exists (j :: ks). split.
        -- rewrite R9, B8, <- app_assoc. reflexivity.
        -- cbn [List.length]. rewrite L9. reflexivity.
      * exists ks. split; [rewrite R9, B8; reflexivity|exact L9].
Qed.

(** A scan whose loop returns, from the initial analysis. *)
Lemma scan_completes e e1 files e' a :
  getRepoContents respond owner repo (Some `"") branch e
  = (e1, inr (JFiles files)) ->
  for_of files body (e1, new_analysis) = ((e', a), inr tt) ->
  analyzeRepository respond owner repo branch e = (e', inr a)
  /\ hasDockerCompose a = existsb compose_entry files
  /\ hasDockerfile a = existsb dockerfile_entry files
  /\ hasTerraform a = existsb terraform_entry files
  /\ hasKubernetes a = existsb kubernetes_entry files
  /\ (existsb compose_entry files = false -> dockerComposeFile a = None)
  /\ (existsb compose_entry files = true -> dockerComposeFile a <> None)
  /\ List.length (dockerfiles a)
     = List.length (filter dockerfile_entry files)
  /\ List.length (terraformFiles a)
     = List.length (filter terraform_entry files)
  /\ List.length (kubernetesFiles a)
     = List.length (filter kubernetes_file files).
Proof.
  intros Hl Hrun. split.
  - rewrite analyzeRepository_run, (scan_root_listed e Hl), Hrun.
    reflexivity.
  - destruct (@scan_loop_completes files _ _ _ _ Hrun)
      as (R1 & R2 & R3 & R4 & R5 & R6
          & (ds & R7 & L7) & (ts & R8 & L8) & (ks & R9 & L9)).
    cbn [new_analysis hasDockerCompose hasDockerfile hasTerraform
         hasKubernetes dockerComposeFile dockerfiles terraformFiles
         kubernetesFiles orb app] in *.
    rewrite R7, R8, R9, L7, L8, L9. repeat split; assumption.
Qed.

(** The entry at which a completed loop stands after [pre]. *)
Lemma scan_reaches pre file post e1 e' a :
  for_of (pre ++ file :: post) body (e1, new_analysis) = ((e', a), inr tt) ->
  exists e2 a2 e3 a3,
    for_of pre body (e1, new_analysis) = ((e2, a2), inr tt)
    /\ body file (e2, a2) = ((e3, a3), inr tt)
    /\ for_of post body (e3, a3) = ((e', a), inr tt).
Proof.
  intros H. apply for_of_split in H.
  destruct H as ([e2 a2] & [e3 a3] & H1 & H2 & H3).
  exists e2, a2, e3, a3. repeat split; assumption.
Qed.

Lemma existsb_split {A} (f : A -> bool) (pre post : list A) (x : A) :
  f x = true -> existsb f (pre ++ x :: post) = true.
Proof.
  intros H. rewrite existsb_app. cbn [existsb].
  rewrite H, orb_true_r. reflexivity.
Qed.

Lemma filter_drop {A} (f : A -> bool) (pre post : list A) (x : A) :
  f x = false -> filter f (pre ++ x :: post) = filter f (pre ++ post).
Proof.
  intros H. rewrite !filter_app. cbn [filter]. rewrite H. reflexivity.
Qed.


Lemma existsb_none {A} (f : A -> bool) (l : list A) :
  (forall x, In x l -> f x = false) -> existsb f l = false.
Proof.
  intros H. destruct (existsb f l) eqn:E; [|reflexivity].
  apply existsb_exists in E. destruct E as [x [Hin Hx]].
  rewrite (H x Hin) in Hx. discriminate Hx.
Qed.


(** C6: in a scan that is not cut short, every entry whose name contains
    [k8s] or [kubernetes], in lower case, sets [hasKubernetes], and
    [kubernetesFiles] holds one record for each of them whose type is
    ["file"], the one its read returned, and none for any other entry:
    at an entry of another type the loop body ends in the environment in
    which the Kubernetes rule began, and with the collection as it was.
    An entry [k8s-manifests] of type ["directory"] sets the flag, is not
    read (the loop body sends nothing for it) and adds no record. *)
Theorem kubernetes_rule_reads_files_only e e1 files e' a :
  getRepoContents respond owner repo (Some `"") branch e
  = (e1, inr (JFiles files)) ->
  for_of files body (e1, new_analysis) = ((e', a), inr tt) ->
  analyzeRepository respond owner repo branch e = (e', inr a)
  /\ List.length (kubernetesFiles a)
     = List.length (filter kubernetes_file files)
  /\ (forall file,
        In file files ->
        (exists l r, GitHubFile.name file = l ++ `"k8s" ++ r)
        \/ (exists l r, GitHubFile.name file = l ++ `"kubernetes" ++ r) ->
        hasKubernetes a = true)
  /\ (forall pre file post,
        files = pre ++ file :: post ->
        (exists l r, GitHubFile.name file = l ++ `"k8s" ++ r)
        \/ (exists l r, GitHubFile.name file = l ++ `"kubernetes" ++ r) ->
        GitHubFile.type file = Some `"file" ->
        exists e2 a2 e3 j before after,
          for_of pre body (e1, new_analysis) = ((e2, a2), inr tt)
          /\ read file (at_kubernetes_rule respond owner repo branch file e2)
             = (e3, inr j)
          /\ kubernetesFiles a = before ++ [j] ++ after
          /\ List.length before = List.length (filter kubernetes_file pre)
          /\ List.length after = List.length (filter kubernetes_file post))
  /\ (forall pre file post,
        files = pre ++ file :: post ->
        GitHubFile.type file <> Some `"file" ->
        List.length (kubernetesFiles a)
        = List.length (filter kubernetes_file (pre ++ post))
        /\ exists e2 a2 a3,
             for_of pre body (e1, new_analysis) = ((e2, a2), inr tt)
             /\ body file (e2, a2)
                = ((at_kubernetes_rule respond owner repo branch file e2, a3),
                   inr tt)
             /\ kubernetesFiles a3 = kubernetesFiles a2)
  /\ (forall pre file post,
        files = pre ++ file :: post ->
        GitHubFile.name file = `"k8s-manifests" ->
        GitHubFile.type file = Some `"directory" ->
        hasKubernetes a = true
        /\ List.length (kubernetesFiles a)
           = List.length (filter kubernetes_file (pre ++ post))
        /\ forall e0 a0,
             body file (e0, a0) = ((e0, set_hasKubernetes a0), inr tt))
  /\ is_kubernetes `"K8S-manifests" = false.
Proof.
  intros Hl Hrun.
  destruct (@scan_completes e e1 files e' a Hl Hrun)
    as (H & _ & _ & _ & F4 & _ & _ & _ & _ & L3).
  repeat (split; [assumption|]).
  assert (Hdrop : forall pre file post,
            files = pre ++ file :: post -> is_file file = false ->
            List.length (kubernetesFiles a)
            = List.length (filter kubernetes_file (pre ++ post))).
  { intros pre file post -> Hnf. rewrite L3. f_equal.
    apply filter_drop. unfold kubernetes_file.
    rewrite Hnf, andb_false_r. reflexivity. }
  split; [|split; [|split; [|split; [|reflexivity]]]].
  - intros file Hin Hname. apply is_kubernetes_iff in Hname.
    rewrite F4. apply existsb_exists. exists file. split; assumption.
  - intros pre file post -> Hname Hty. apply is_kubernetes_iff in Hname.
    apply is_file_iff in Hty.
    destruct (@scan_reaches pre file post _ _ _ Hrun)
      as (e2 & a2 & e3 & a3 & Hpre & Hb & Hpost).
    destruct (@scan_loop_completes pre _ _ _ _ Hpre)
      as (_ & _ & _ & _ & _ & _ & _ & _ & (ks & K1 & KL)).
    destruct (@scan_loop_completes post _ _ _ _ Hpost)
      as (_ & _ & _ & _ & _ & _ & _ & _ & (ks' & K2 & KL')).
    destruct (@scan_entry_completes _ _ _ _ _ Hb)
      as (_ & _ & _ & _ & _ & _ & _ & B8 & _).
    unfold kubernetes_file in B8 at 1. rewrite Hname, Hty in B8.
    destruct B8 as (e4 & j & Hr & B8).
    exists e2, a2, e4, j, ks, ks'.
    split; [exact Hpre|]. split; [exact Hr|].
    split; [|split; assumption].
    rewrite K2, B8, K1. cbn [new_analysis kubernetesFiles app].
    rewrite <- app_assoc. reflexivity.
  - intros pre file post Hfiles Hty.
    assert (Hnf : is_file file = false).
    { destruct (is_file file) eqn:Hf; [|reflexivity].
      apply is_file_iff in Hf. contradiction. }
    split; [apply (Hdrop pre file post Hfiles Hnf)|]. subst files.
    destruct (@scan_reaches pre file post _ _ _ Hrun)
      as (e2 & a2 & e3 & a3 & Hpre & Hb & _).
    destruct (@scan_entry_completes _ _ _ _ _ Hb)
      as (_ & _ & _ & _ & _ & _ & _ & B8 & B9).
    unfold kubernetes_file in B8 at 1, B9 at 1.
    rewrite Hnf, andb_false_r in B8, B9. cbn [after_rule] in B9.
    exists e2, a2, a3. split; [exact Hpre|]. split; [|exact B8].
    rewrite Hb, B9. reflexivity.
  - intros pre file post Hfiles Hname Hty.
    assert (Hnf : is_file file = false).
    { unfold is_file. rewrite Hty. reflexivity. }
    split; [|split].
    + rewrite F4, Hfiles. apply existsb_split.
      unfold kubernetes_entry. rewrite Hname. reflexivity.
    + apply (Hdrop pre file post Hfiles Hnf).
    + intros e0 a0. rewrite scan_entry_unread.
      * unfold flagged. rewrite Hname. reflexivity.
      * unfold is_read. rewrite Hnf, Hname. reflexivity.
Qed.

(** C7: the compose test accepts the names [docker-compose.yml] and
    [docker-compose.yaml] and no other.  In a scan that is not cut short,
    [hasDockerCompose] is set exactly when the listing has such an entry,
    and [dockerComposeFile] is the record read for the last of them in
    listing order, whatever the other entries are. *)
Theorem compose_rule_last_match_wins e e1 files e' a :
  getRepoContents respond owner repo (Some `"") branch e
  = (e1, inr (JFiles files)) ->
  for_of files body (e1, new_analysis) = ((e', a), inr tt) ->
  analyzeRepository respond owner repo branch e = (e', inr a)
  /\ (forall name,
        is_compose name = true
        <-> name = `"docker-compose.yml" \/ name = `"docker-compose.yaml")
  /\ (hasDockerCompose a = true
      <-> exists file,
            In file files
            /\ (GitHubFile.name file = `"docker-compose.yml"
                \/ GitHubFile.name file = `"docker-compose.yaml"))
  /\ (forall pre file post,
        files = pre ++ file :: post ->
        GitHubFile.name file = `"docker-compose.yml"
        \/ GitHubFile.name file = `"docker-compose.yaml" ->
        (forall g, In g post ->
                   GitHubFile.name g <> `"docker-compose.yml"
                   /\ GitHubFile.name g <> `"docker-compose.yaml") ->
        hasDockerCompose a = true
        /\ exists e2 a2 e3 j,
             for_of pre body (e1, new_analysis) = ((e2, a2), inr tt)
             /\ read file e2 = (e3, inr j)
             /\ dockerComposeFile a = Some j)
  /\ ((forall g, In g files ->
                 GitHubFile.name g <> `"docker-compose.yml"
                 /\ GitHubFile.name g <> `"docker-compose.yaml") ->
      hasDockerCompose a = false /\ dockerComposeFile a = None).
Proof.
  intros Hl Hrun.
  destruct (@scan_completes e e1 files e' a Hl Hrun)
    as (H & F1 & _ & _ & _ & C0 & _).
  split; [exact H|].
  assert (Hno : forall g,
            GitHubFile.name g <> `"docker-compose.yml"
            /\ GitHubFile.name g <> `"docker-compose.yaml" ->
            compose_entry g = false).
  { intros g [N1 N2]. unfold compose_entry.
    destruct (is_compose (GitHubFile.name g)) eqn:Hc; [|reflexivity].
    apply is_compose_iff in Hc. destruct Hc; contradiction. }
  split; [exact is_compose_iff|]. split; [|split].
  - rewrite F1, existsb_exists. split.
    + intros [file [Hin Hc]]. exists file. split; [exact Hin|].
      apply is_compose_iff. exact Hc.
    + intros [file [Hin Hc]]. exists file. split; [exact Hin|].
      apply is_compose_iff. exact Hc.
  - intros pre file post -> Hname Hpost. apply is_compose_iff in Hname.
    split; [rewrite F1; apply existsb_split; exact Hname|].
    destruct (@scan_reaches pre file post _ _ _ Hrun)
      as (e2 & a2 & e3 & a3 & Hpre & Hb & Hrest).
    destruct (@scan_loop_completes post _ _ _ _ Hrest)
      as (_ & _ & _ & _ & R5 & _).
    destruct (@scan_entry_completes _ _ _ _ _ Hb) as (_ & _ & _ & _ & B5 & _).
    unfold compose_entry in B5 at 1. rewrite Hname in B5.
    destruct B5 as (e4 & j & Hr & B5).
    exists e2, a2, e4, j. split; [exact Hpre|]. split; [exact Hr|].
    rewrite R5; [exact B5|].
    apply existsb_none. intros g Hg. apply Hno, Hpost, Hg.
  - intros Hall.
    assert (Hex : existsb compose_entry files = false).
    { apply existsb_none. intros g Hg. apply Hno, Hall, Hg. }
    split; [rewrite F1; exact Hex|exact (C0 Hex)].
Qed.

End ScannerFacts.

(* ================================================================== *)
(** * The properties on the example repository *)

(** Signed out, a file read and a write raise and send nothing. *)
Lemma no_credential_no_request_witness :
  token signed_out = None
  /\ getRepoFile demo_host `"terra" `"web" `"Dockerfile.prod" None signed_out
     = (signed_out, inl (Error `"No GitHub token found"))
  /\ requests
       (fst (updateRepoFile demo_host `"terra" `"web" `"Dockerfile.prod"
               `"FROM node" `"Update Dockerfile.prod" `"0a1b" `"main"
               signed_out))
     = [].
Proof.
  split; [reflexivity|].
  destruct (@no_credential_no_request unit demo_host signed_out
              `"terra" `"web" `"Dockerfile.prod" `"FROM node"
              `"Update Dockerfile.prod" `"0a1b" `"feature" `"main"
              None None `"main" eq_refl)
    as (_ & _ & _ & H4 & _ & H6 & _).
  split; [exact H4 | rewrite H6; reflexivity].
Defined.

(** Signed in, a write of the euro sign raises with nothing sent, and a
    write of [FROM node] sends its encoding [RlJPTSBub2Rl]. *)
Lemma updateRepoFile_encodes_or_raises_witness :
  Js.truthy_opt (token signed_in) = true
  /\ updateRepoFile demo_host `"terra" `"web" `"Dockerfile.prod" [8364%N]
       `"Update Dockerfile.prod" `"0a1b" `"main" signed_in
     = (signed_in, inl InvalidCharacterError)
  /\ map body_content
       (requests
          (fst (updateRepoFile demo_host `"terra" `"web" `"Dockerfile.prod"
                  `"FROM node" `"Update Dockerfile.prod" `"0a1b" `"main"
                  signed_in)))
     = [Some `"RlJPTSBub2Rl"].
Proof.
  split; [reflexivity|]. split.
  - apply (proj1 (proj2
             (@updateRepoFile_encodes_or_raises unit demo_host signed_in
                `"terra" `"web" `"Dockerfile.prod" [8364%N]
                `"Update Dockerfile.prod" `"0a1b" `"main" eq_refl))).
    exists 8364%N. split; [left; reflexivity | reflexivity].
  - destruct (@updateRepoFile_encodes_or_raises unit demo_host signed_in
                `"terra" `"web" `"Dockerfile.prod" `"FROM node"
                `"Update Dockerfile.prod" `"0a1b" `"main" eq_refl)
      as [Hsend _].
    destruct Hsend as [Hsend _]; [repeat constructor; discriminate|].
    rewrite Hsend. reflexivity.
Defined.

(** The read of [Dockerfile.prod] returns its record with the content
    decoded. *)
Lemma getRepoFile_decodes_base64_witness :
  Base64.atob `"RlJPTSBub2Rl" = Some `"FROM node"
  /\ snd (getRepoFile demo_host `"terra" `"web" `"Dockerfile.prod" None
            signed_in)
     = inr (demo_got (demo_entry "Dockerfile.prod" "file")).
Proof.
  split; [reflexivity|].
  pose proof (@getRepoFile_decodes_base64 unit demo_host signed_in
                (fst (getRepoFile demo_host `"terra" `"web" `"Dockerfile.prod"
                        None signed_in))
                `"terra" `"web" `"Dockerfile.prod" None
                (demo_payload (demo_entry "Dockerfile.prod" "file"))
                `"RlJPTSBub2Rl" eq_refl eq_refl eq_refl) as H.
  change (Base64.atob `"RlJPTSBub2Rl") with (Some `"FROM node") in H.
  destruct H as [H _]. rewrite H. reflexivity.
Defined.

(** From a branch the host does not know, one request and the GitHub API
    error; from [main], the new branch at the hash of the created ref. *)
Lemma createBranch_two_dependent_calls_witness :
  Js.truthy_opt (token signed_in) = true
  /\ snd (createBranch listing_only_host `"terra" `"web" `"feature" `"gone"
            signed_in)
     = inl (Error `"GitHub API error: Not Found")
  /\ List.length
       (requests
          (fst (createBranch listing_only_host `"terra" `"web" `"feature"
                  `"gone" signed_in)))
     = 1
  /\ snd (createBranch demo_host `"terra" `"web" `"feature" `"main" signed_in)
     = inr (GitHubBranch.mk `"feature" `"c0ffee").
Proof.
  split; [reflexivity|].
  destruct (@createBranch_two_dependent_calls unit listing_only_host signed_in
              `"terra" `"web" `"feature" `"gone" tt
              (mkResponse false `"Not Found" None) eq_refl eq_refl)
    as [Hfail _].
  rewrite (Hfail eq_refl).
  split; [reflexivity|]. split; [reflexivity|].
  destruct (@createBranch_two_dependent_calls unit demo_host signed_in
              `"terra" `"web" `"feature" `"main" tt
              (mkResponse true `"OK" (Some (JRef `"c0ffee"))) eq_refl eq_refl)
    as [_ Hok].
  destruct (Hok `"c0ffee" eq_refl eq_refl) as [_ Hret].
  exact (Hret tt (mkResponse true `"OK" (Some (JRef `"c0ffee"))) `"c0ffee"
           eq_refl eq_refl eq_refl).
Defined.

(** A final line feed added: row 1 is changed. *)
Lemma renderDiff_rows_witness :
  exists row,
    nth_error
      (renderDiff (FileChange.mk `"docker-compose.yml" `"a" (`"a" ++ [10%N])
                     `"final newline")) 1
    = Some row
    /\ key row = 1 /\ changed row = true.
Proof.
  exists (mkRow 1 true `" " `" "). split; [reflexivity|].
  destruct (renderDiff_rows
              (FileChange.mk `"docker-compose.yml" `"a" (`"a" ++ [10%N])
                 `"final newline")) as [_ [H _]].
  destruct (H 1 (mkRow 1 true `" " `" ") eq_refl) as (Hk & _ & _ & Hout).
  split; [exact Hk|]. apply Hout. left. apply le_n.
Defined.

(** Signed out, the scan returns the initial analysis; behind a host that
    fails the read of [Dockerfile.prod], it returns after two requests
    with what it had. *)
Lemma analyzeRepository_never_raises_witness :
  getRepoContents listing_only_host `"terra" `"web" (Some `"") None signed_out
  = (signed_out, inl (Error `"No GitHub token found"))
  /\ snd (analyzeRepository listing_only_host `"terra" `"web" None signed_out)
     = inr (mkAnalysis false false false false None [] [] [])
  /\ snd (analyzeRepository listing_only_host `"terra" `"web" None signed_in)
     = inr (set_hasDockerfile new_analysis)
  /\ List.length
       (requests
          (fst (analyzeRepository listing_only_host `"terra" `"web" None
                  signed_in)))
     = 2.
Proof.
  split; [reflexivity|].
  destruct (@analyzeRepository_never_raises unit listing_only_host
              `"terra" `"web" None signed_out) as (_ & Hlist & _ & _).
  rewrite (Hlist signed_out (Error `"No GitHub token found") eq_refl).
  split; [reflexivity|].
  destruct (@analyzeRepository_never_raises unit listing_only_host
              `"terra" `"web" None signed_in) as (_ & _ & Hentry & _).
  destruct (Hentry
              (fst (getRepoContents listing_only_host `"terra" `"web"
                      (Some `"") None signed_in))
              [] (demo_entry "Dockerfile.prod" "file")
              (tl demo_listing)
              (fst (getRepoContents listing_only_host `"terra" `"web"
                      (Some `"") None signed_in))
              new_analysis
              (fst (getRepoFile listing_only_host `"terra" `"web"
                      `"Dockerfile.prod" None
                      (fst (getRepoContents listing_only_host `"terra" `"web"
                              (Some `"") None signed_in))))
              (set_hasDockerfile new_analysis)
              (Error `"GitHub API error: Not Found")
              eq_refl eq_refl eq_refl) as [Hrun _].
  rewrite Hrun. split; reflexivity.
Defined.

(** Behind a host that fails the read of [Dockerfile.prod], the scan
    returns [hasDockerfile] set and [dockerfiles] empty. *)
Lemma flag_set_before_read_witness :
  is_read (demo_entry "Dockerfile.prod" "file") = true
  /\ exists e' a,
       analyzeRepository listing_only_host `"terra" `"web" None signed_in
       = (e', inr a)
       /\ hasDockerfile a = true /\ dockerfiles a = [].
Proof.
  split; [reflexivity|].
  destruct (@flag_set_before_read unit listing_only_host `"terra" `"web" None
              signed_in
              (fst (getRepoContents listing_only_host `"terra" `"web"
                      (Some `"") None signed_in))
              [] (demo_entry "Dockerfile.prod" "file") (tl demo_listing)
              (fst (getRepoContents listing_only_host `"terra" `"web"
                      (Some `"") None signed_in))
              new_analysis
              (fst (getRepoFile listing_only_host `"terra" `"web"
                      `"Dockerfile.prod" None
                      (fst (getRepoContents listing_only_host `"terra" `"web"
                              (Some `"") None signed_in))))
              (Error `"GitHub API error: Not Found")
              eq_refl eq_refl eq_refl eq_refl)
    as (e' & a & Hrun & _ & Hd & _ & _ & Hfirst).
  exists e', a. split; [exact Hrun|].
  destruct (Hd eq_refl) as [Hflag Hfiles].
  destruct (Hfirst eq_refl) as (_ & Hnone & _).
  split; [exact Hflag | rewrite Hfiles; exact Hnone].
Defined.


(** Behind the same host, [k8s-manifests] is listed after the entry whose
    read is refused, and the scan returns [hasKubernetes] false. *)
Lemma kubernetes_rule_not_as_specified :
  ~ kubernetes_rule_as_specified listing_only_host `"terra" `"web" None
      signed_in.
Proof.
  intros H.
  destruct (H (fst (getRepoContents listing_only_host `"terra" `"web"
                      (Some `"") None signed_in))
              demo_listing
              (fst (analyzeRepository listing_only_host `"terra" `"web" None
                      signed_in))
              (set_hasDockerfile new_analysis) eq_refl eq_refl)
    as [Hflag _].
  specialize (Hflag (demo_entry "k8s-manifests" "directory")).
  assert (Hset : hasKubernetes (set_hasDockerfile new_analysis) = true).
  { apply Hflag.
    - right. right. left. reflexivity.
    - left. exists [], `"-manifests". reflexivity. }
  discriminate Hset.
Qed.

(** Behind the same host, [docker-compose.yaml] is listed after the entry
    whose read is refused, and the scan returns [hasDockerCompose]
    false. *)
Lemma compose_rule_not_as_specified :
  ~ compose_rule_as_specified listing_only_host `"terra" `"web" None
      signed_in.
Proof.
  intros H.
  destruct (H (fst (getRepoContents listing_only_host `"terra" `"web"
                      (Some `"") None signed_in))
              demo_listing
              (fst (analyzeRepository listing_only_host `"terra" `"web" None
                      signed_in))
              (set_hasDockerfile new_analysis) eq_refl eq_refl
              (demo_entry "docker-compose.yaml" "file"))
    as [Hflag _].
  - right. right. right. left. reflexivity.
  - right. reflexivity.
  - discriminate Hflag.
Qed.


(** The directory [k8s-manifests] sets the flag and adds no record. *)
Lemma kubernetes_rule_reads_files_only_witness :
  exists e' a,
    analyzeRepository demo_host `"terra" `"web" None signed_in = (e', inr a)
    /\ hasKubernetes a = true
    /\ List.length (kubernetesFiles a) = 0.
Proof.
  destruct (@kubernetes_rule_reads_files_only unit demo_host `"terra" `"web"
              None signed_in
              (fst (getRepoContents demo_host `"terra" `"web" (Some `"") None
                      signed_in))
              demo_listing
              (fst (analyzeRepository demo_host `"terra" `"web" None
                      signed_in))
              (mkAnalysis true true false true
                 (Some (demo_got (demo_entry "docker-compose.yaml" "file")))
                 [demo_got (demo_entry "Dockerfile.prod" "file")] [] [])
              eq_refl eq_refl)
    as (Hrun & _ & _ & _ & _ & Hdir & _).
  eexists. eexists. split; [exact Hrun|].
  destruct (Hdir [demo_entry "Dockerfile.prod" "file";
                  demo_entry "Readme.Dockerfile" "file"]
              (demo_entry "k8s-manifests" "directory")
              [demo_entry "docker-compose.yaml" "file"]
              eq_refl eq_refl eq_refl) as (Hflag & Hfiles & _).
  split; [exact Hflag | rewrite Hfiles; reflexivity].
Defined.

(** The compose file of the example repository is the one kept. *)
Lemma compose_rule_last_match_wins_witness :
  exists e' a,
    analyzeRepository demo_host `"terra" `"web" None signed_in = (e', inr a)
    /\ hasDockerCompose a = true
    /\ dockerComposeFile a
       = Some (demo_got (demo_entry "docker-compose.yaml" "file")).
Proof.
  destruct (@compose_rule_last_match_wins unit demo_host `"terra" `"web"
              None signed_in
              (fst (getRepoContents demo_host `"terra" `"web" (Some `"") None
                      signed_in))
              demo_listing
              (fst (analyzeRepository demo_host `"terra" `"web" None
                      signed_in))
              (mkAnalysis true true false true
                 (Some (demo_got (demo_entry "docker-compose.yaml" "file")))
                 [demo_got (demo_entry "Dockerfile.prod" "file")] [] [])
              eq_refl eq_refl)
    as (Hrun & _ & _ & Hlast & _).
  eexists. eexists. split; [exact Hrun|].
  destruct (Hlast [demo_entry "Dockerfile.prod" "file";
                   demo_entry "Readme.Dockerfile" "file";
                   demo_entry "k8s-manifests" "directory"]
              (demo_entry "docker-compose.yaml" "file") [] eq_refl)
    as [Hflag _].
  - right. reflexivity.
  - intros g [].
  - split; [exact Hflag|reflexivity].
Defined.

(* ================================================================== *)
(** * Further properties: base64 *)

Section MoreBase64Facts.
Local Open Scope N_scope.
Import Base64.

Lemma list_ind4 {A} (P : list A -> Prop) :
  P [] -> (forall a, P [a]) -> (forall a b, P [a; b]) ->
  (forall a b c, P [a; b; c]) ->
  (forall a b c d r, P r -> P (a :: b :: c :: d :: r)) ->
  forall l, P l.
Proof.
  intros H0 H1 H2 H3 H4.
  refine (fix go l := match l with
                      | [] => H0
                      | [a] => H1 a
                      | [a; b] => H2 a b
                      | [a; b; c] => H3 a b c
                      | a :: b :: c :: d :: r => H4 a b c d r (go r)
                      end).
Qed.

Lemma dec_bound (c v : N) : dec c = Some v -> v < 64.
Proof.
  unfold dec.
  destruct ((65 <=? c) && (c <=? 90)) eqn:H1.
  { apply andb_true_iff in H1. destruct H1 as [L U].
    apply N.leb_le in L, U. intros [= <-]. lia. }
  destruct ((97 <=? c) && (c <=? 122)) eqn:H2.
  { apply andb_true_iff in H2. destruct H2 as [L U].
    apply N.leb_le in L, U. intros [= <-]. lia. }
  destruct ((48 <=? c) && (c <=? 57)) eqn:H3.
  { apply andb_true_iff in H3. destruct H3 as [L U].
    apply N.leb_le in L, U. intros [= <-]. lia. }
  destruct (c =? 43); [intros [= <-]; lia|].
  destruct (c =? 47); [intros [= <-]; lia|discriminate].
Qed.

Lemma sextets_bound (s : list N) :
  forall vs, sextets s = Some vs -> Forall (fun v => v < 64) vs.
Proof.
  induction s as [|c s IH]; cbn [sextets]; intros vs H.
  - injection H as <-. constructor.
  - destruct (dec c) as [v|] eqn:Hd; [|discriminate H].
    destruct (sextets s) as [ws|]; [|discriminate H].
    injection H as <-. constructor; [exact (dec_bound c Hd)|].
    apply IH. reflexivity.
Qed.

Lemma octets_bound (a b : N) :
  a < 64 -> b < 64 ->
  octet1 a b <= 255 /\ octet2 a b <= 255 /\ octet3 a b <= 255.
Proof.
  intros Ha Hb.
  assert (H : forallb (fun x => forallb (octets_ok x) (below 64)) (below 64)
              = true) by (vm_compute; reflexivity).
  pose proof (@below_all 64 (fun x => forallb (octets_ok x) (below 64)) H a
                ltac:(simpl; lia)) as Hrow. cbv beta in Hrow.
  pose proof (@below_all 64 (octets_ok a) Hrow b ltac:(simpl; lia)) as Hok.
  unfold octets_ok in Hok.
  apply andb_true_iff in Hok. destruct Hok as [Hok H3].
  apply andb_true_iff in Hok. destruct Hok as [H1 H2].
  apply N.leb_le in H1, H2, H3. auto.
Qed.

Lemma decode_bound (vs : list N) :
  Forall (fun v => v < 64) vs -> Forall (fun c => c <= 255) (decode vs).
Proof.
  induction vs as [|a|a b|a b c|a b c d r IH] using list_ind4;
    intros H; cbn [decode]; try constructor.
  - inversion_clear H as [|? ? Ha H']. inversion_clear H' as [|? ? Hb _].
    apply (octets_bound Ha Hb).
  - constructor.
  - inversion_clear H as [|? ? Ha H']. inversion_clear H' as [|? ? Hb _].
    apply (octets_bound Ha Hb).
  - inversion_clear H as [|? ? Ha H']. inversion_clear H' as [|? ? Hb H''].
    inversion_clear H'' as [|? ? Hc _].
    constructor; [apply (octets_bound Hb Hc)|constructor].
  - inversion_clear H as [|? ? Ha H']. inversion_clear H' as [|? ? Hb _].
    apply (octets_bound Ha Hb).
  - inversion_clear H as [|? ? Ha H']. inversion_clear H' as [|? ? Hb H''].
    inversion_clear H'' as [|? ? Hc H3]. inversion_clear H3 as [|? ? Hd Hr].
    constructor; [apply (octets_bound Hb Hc)|].
    constructor; [apply (octets_bound Hc Hd)|]. apply IH, Hr.
Qed.

(** What [atob] returns is made of bytes. *)
Lemma atob_bytes (c d : Js.str) :
  atob c = Some d -> Forall (fun x => x <= 255) d.
Proof.
  unfold atob. cbv zeta.
  destruct (N.of_nat _ mod 4 =? 1); [discriminate|].
  destruct (sextets _) as [vs|] eqn:Hs; [|discriminate].
  intros [= <-]. apply decode_bound, (sextets_bound _ Hs).
Qed.

(** Whatever [atob] decodes, [btoa] accepts, and its encoding decodes
    to the same string. *)
Lemma atob_output_encodes_back (c d : Js.str) :
  atob c = Some d ->
  btoa d = Some (encode d) /\ atob (encode d) = Some d.
Proof.
  intros H. pose proof (atob_bytes c H) as Hb.
  split; [apply btoa_narrow, Hb | apply atob_encode, Hb].
Qed.

(** [atob] skips white space: spaces, tabs, form feeds and line ends
    anywhere in the input change nothing. *)
Lemma atob_ignores_space (a b : Js.str) (sp : N) :
  is_space sp = true -> atob (a ++ sp :: b) = atob (a ++ b).
Proof.
  intros H. unfold atob. rewrite !filter_app. cbn [filter].
  rewrite H. reflexivity.
Qed.

End MoreBase64Facts.

(* ================================================================== *)
(** * Further properties: the client *)

Section MoreClientFacts.

Variable World : Type.
Variable respond : Request -> World -> World * FetchOutcome.
Implicit Types (e : Env World) (owner repo path : Js.str)
  (branch : option Js.str).

Lemma extends_by_refl (n : nat) e : extends_by n e e.
Proof.
  repeat split. exists []. rewrite app_nil_r. split; [reflexivity|simpl; lia].
Qed.

Lemma extends_by_sent (n : nat) e (w : World) (rq : Request) :
  extends_by (S n) e (sent e w rq).
Proof.
  repeat split. exists [rq]. split; [reflexivity|simpl; lia].
Qed.

Lemma extends_by_trans (n m : nat) e e1 e2 :
  extends_by n e e1 -> extends_by m e1 e2 -> extends_by (n + m) e e2.
Proof.
  intros (T1 & C1 & l1 & R1 & L1) (T2 & C2 & l2 & R2 & L2).
  split; [congruence|]. split; [congruence|].
  exists (l1 ++ l2). rewrite R2, R1, app_assoc, length_app.
  split; [reflexivity|lia].
Qed.

Lemma extends_by_le (n m : nat) e e' :
  (n <= m)%nat -> extends_by n e e' -> extends_by m e e'.
Proof.
  intros Hle (T & C & l & R & L). repeat split; try assumption.
  exists l. split; [exact R|lia].
Qed.

Lemma githubApi_extends e endpoint options :
  extends_by 1 e (fst (githubApi respond endpoint options e)).
Proof.
  unfold githubApi, bind, getGitHubToken, fetch.
  destruct (negb (Js.truthy_opt (token e))); [apply extends_by_refl|].
  destruct (respond _ (world e)) as [w [|r]]; [apply extends_by_sent|].
  destruct (negb (ok r)); [apply extends_by_sent|].
  unfold response_json. destruct (json r); apply extends_by_sent.
Qed.

Lemma getRepoFile_extends e owner repo path branch :
  extends_by 1 e (fst (getRepoFile respond owner repo path branch e)).
Proof.
  unfold getRepoFile, bind.
  pose proof (githubApi_extends e
    (`"/repos/" ++ owner ++ `"/" ++ repo ++ `"/contents/" ++ path
     ++ ref_query branch) no_options) as H.
  destruct (githubApi _ _ _ e) as [e' [x|data]]; [exact H|].
  rewrite decode_content_env. exact H.
Qed.

Lemma updateRepoFile_extends e owner repo path content message sha
    (target : Js.str) :
  extends_by 1 e
    (fst (updateRepoFile respond owner repo path content message sha target e)).
Proof.
  unfold updateRepoFile, bind, getGitHubToken, btoa, fetch.
  destruct (negb (Js.truthy_opt (token e))); [apply extends_by_refl|].
  destruct (Base64.btoa content); [|apply extends_by_refl]. cbn [ret].
  destruct (respond _ (world e)) as [w [|r]]; [apply extends_by_sent|].
  destruct (negb (ok r)); [apply extends_by_sent|].
  unfold response_json. destruct (json r); apply extends_by_sent.
Qed.

Lemma createBranch_extends e owner repo newBranchName fromBranch :
  extends_by 2 e
    (fst (createBranch respond owner repo newBranchName fromBranch e)).
Proof.
  unfold createBranch, bind at 1, getGitHubToken.
  destruct (negb (Js.truthy_opt (token e))); [apply extends_by_refl|].
  unfold bind at 1.
  pose proof (githubApi_extends e
    (`"/repos/" ++ owner ++ `"/" ++ repo ++ `"/git/refs/heads/" ++ fromBranch)
    no_options) as H.
  destruct (githubApi _ _ _ e) as [e1 [x|data]];
    [exact (@extends_by_le 1 2 _ _ ltac:(lia) H)|].
  cbn [fst] in H. unfold bind, object_sha, fetch.
  destruct data as [f|fs|hash|];
    try exact (@extends_by_le 1 2 _ _ ltac:(lia) H).
  cbn [ret]. apply (extends_by_trans H).
  destruct (respond _ (world e1)) as [w [|r]]; [apply extends_by_sent|].
  destruct (negb (ok r)); [apply extends_by_sent|].
  unfold response_json. destruct (json r) as [[]|]; apply extends_by_sent.
Qed.

(** X1: no client call writes the token slot or the console, and each
    only adds to the end of the request log: at most one request, two for
    [createBranch], whatever the host answers.  Nothing is retried. *)
Theorem client_calls_send_at_most e owner repo path content message sha
    newBranchName fromBranch (dir : option Js.str) branch (target : Js.str) :
  extends_by 1 e (fst (getGitHubUser respond e))
  /\ extends_by 1 e (fst (getGitHubRepos respond e))
  /\ extends_by 1 e (fst (getRepoBranches respond owner repo e))
  /\ extends_by 1 e (fst (getRepoFile respond owner repo path branch e))
  /\ extends_by 1 e (fst (getRepoContents respond owner repo dir branch e))
  /\ extends_by 1 e
       (fst (updateRepoFile respond owner repo path content message sha
               target e))
  /\ extends_by 2 e
       (fst (createBranch respond owner repo newBranchName fromBranch e)).
Proof.
  repeat split;
    try (apply githubApi_extends);
    try (apply getRepoFile_extends);
    try (apply updateRepoFile_extends);
    apply createBranch_extends.
Qed.

Lemma obj_get_set (k k' v : Js.str) (o : Headers) :
  obj_get k (obj_set k' v o)
  = if Js.eqb k' k then Some v else obj_get k o.
Proof.
  induction o as [|[k0 v0] o IH]; cbn [obj_set obj_get].
  - reflexivity.
  - destruct (Js.eqb k0 k') eqn:E0; cbn [obj_get].
    + apply eqb_eq in E0. subst k0.
      destruct (Js.eqb k' k); reflexivity.
    + rewrite IH. destruct (Js.eqb k0 k) eqn:E1; [|reflexivity].
      apply eqb_eq in E1. subst k0.
      destruct (Js.eqb k' k) eqn:E2; [|reflexivity].
      apply eqb_eq in E2. subst k'. rewrite eqb_refl in E0. discriminate E0.
Qed.

(** A spread object holds, for each key, the last value the second object
    gives it, and otherwise the value of the first. *)
Lemma obj_get_spread (k : Js.str) (base over : Headers) :
  obj_get k (spread base (Some over))
  = match obj_get k (rev over) with
    | Some v => Some v
    | None => obj_get k base
    end.
Proof.
  unfold spread. induction over as [|[k' v] over IH] using rev_ind.
  - reflexivity.
  - rewrite fold_left_app, rev_app_distr. cbn [fold_left rev app fst snd].
    rewrite obj_get_set. cbn [obj_get].
    destruct (Js.eqb k' k); [reflexivity|exact IH].
Qed.

(** X2: with a token stored, a [githubApi] call sends exactly one request,
    whatever the outcome: to the API host at the endpoint, with the
    caller's method and body, and with headers that are the bearer token
    and the accept type unless the caller gives the same names, whose
    values then win. *)
Theorem githubApi_sends_one_request e endpoint options :
  Js.truthy_opt (token e) = true ->
  exists hs,
    requests (fst (githubApi respond endpoint options e))
    = requests e
      ++ [(`"https://api.github.com" ++ endpoint,
           mkInit (method options) (Some hs) (body options))]
    /\ forall k,
         obj_get k hs
         = match
             match headers options with
             | Some over => obj_get k (rev over)
             | None => None
             end
           with
           | Some v => Some v
           | None =>
               obj_get k
                 [(`"Authorization", bearer (token e));
                  (`"Accept", `"application/vnd.github.v3+json")]
           end.
Proof.
  intros Ht.
  exists (spread [(`"Authorization", bearer (token e));
                  (`"Accept", `"application/vnd.github.v3+json")]
            (headers options)).
  split.
  - unfold githubApi, bind, getGitHubToken, fetch. rewrite Ht. cbn [negb].
    destruct (respond _ (world e)) as [w [|r]]; [reflexivity|].
    destruct (negb (ok r)); [reflexivity|].
    unfold response_json. destruct (json r); reflexivity.
  - intros k. destruct (headers options) as [over|];
      [apply obj_get_spread | reflexivity].
Qed.

(** X3: the token slot decides the calls.  After [setGitHubToken t] the
    token read is [t]; a call then sends one request bearing [t] when [t]
    is not empty, and raises with nothing sent when it is; after
    [clearGitHubToken] it raises with nothing sent. *)
Theorem token_slot_decides_calls e (t endpoint : Js.str) :
  let stored := fst (setGitHubToken t e) in
  let cleared := fst (clearGitHubToken stored) in
  snd (getGitHubToken stored) = inr (Some t)
  /\ (t <> [] ->
      requests (fst (githubApi respond endpoint no_options stored))
      = requests e ++ [api_request (Some t) endpoint])
  /\ (t = [] ->
      githubApi respond endpoint no_options stored
      = (stored, inl (Error `"No GitHub token found")))
  /\ githubApi respond endpoint no_options cleared
     = (cleared, inl (Error `"No GitHub token found"))
  /\ snd (getGitHubToken cleared) = inr None.
Proof.
  cbv zeta. split; [reflexivity|]. split; [|split; [|split]].
  - intros Ht.
    assert (Htr : Js.truthy_opt (token (fst (setGitHubToken t e))) = true).
    { destruct t; [contradiction|reflexivity]. }
    rewrite (githubApi_run respond _ endpoint Htr). cbv zeta.
    cbn [setGitHubToken fst token world requests].
    destruct (respond _ (world e)) as [w [|r]]; [reflexivity|].
    destruct (ok r); [|reflexivity]. destruct (json r); reflexivity.
  - intros ->. reflexivity.
  - reflexivity.
  - reflexivity.
Qed.

End MoreClientFacts.

(* ================================================================== *)
(** * Further properties: reading, writing and branching *)

Section ReadWriteFacts.

Variable World : Type.
Variable respond : Request -> World -> World * FetchOutcome.
Implicit Types (e : Env World) (owner repo path : Js.str)
  (branch : option Js.str).

(** The endpoint of a read. *)
Local Abbreviation contents owner repo path branch :=
  (`"/repos/" ++ owner ++ `"/" ++ repo ++ `"/contents/" ++ path
   ++ ref_query branch).

(** What a read returns on a base64 payload. *)
Lemma getRepoFile_base64_run e e' owner repo path branch f c :
  githubApi respond (contents owner repo path branch) no_options e
  = (e', inr (JFile f)) ->
  GitHubFile.encoding f = Some `"base64" ->
  GitHubFile.content f = Some c ->
  getRepoFile respond owner repo path branch e
  = (e', match Base64.atob c with
         | Some d => inr (JFile (GitHubFile.set_content f d))
         | None => inl InvalidCharacterError
         end).
Proof.
  intros Hapi Henc Hc. unfold getRepoFile, bind. rewrite Hapi.
  unfold decode_content. rewrite Henc, Hc.
  change (Js.strict_eq (Some `"base64") (Some `"base64")) with true.
  rewrite andb_true_r. destruct c as [|x c].
  - simpl. rewrite set_content_same by exact Hc. reflexivity.
  - cbn [Js.truthy_opt Js.truthy].
    destruct (Base64.atob (x :: c)); reflexivity.
Qed.

(** X4: [getRepoFile] returns untouched a body that is a contents array
    (the path was a directory), and a file object that has no content,
    an empty content, or an encoding other than ["base64"]. *)
Theorem getRepoFile_passes_through e e' owner repo path branch data :
  githubApi respond (contents owner repo path branch) no_options e
  = (e', inr data) ->
  (exists fs, data = JFiles fs)
  \/ (exists f,
        data = JFile f
        /\ (GitHubFile.content f = None \/ GitHubFile.content f = Some []
            \/ GitHubFile.encoding f <> Some `"base64")) ->
  getRepoFile respond owner repo path branch e = (e', inr data).
Proof.
  intros Hapi Hplain. unfold getRepoFile, bind. rewrite Hapi.
  destruct Hplain as [[fs ->] | [f [-> Hplain]]]; [reflexivity|].
  unfold decode_content.
  destruct Hplain as [Hc | [Hc | He]].
  - rewrite Hc. reflexivity.
  - rewrite Hc. reflexivity.
  - destruct (Js.strict_eq (GitHubFile.encoding f) (Some `"base64")) eqn:Hs.
    + apply strict_eq_iff in Hs. contradiction.
    + rewrite andb_false_r. reflexivity.
Qed.

(** X5: when [getRepoFile] returns on a file payload, the record differs
    from the payload in its content at most: name, path, sha and type are
    the payload's, and so is the encoding, which still reads ["base64"]
    on a record whose content has been decoded. *)
Theorem getRepoFile_keeps_fields e e1 e' owner repo path branch f j :
  githubApi respond (contents owner repo path branch) no_options e
  = (e1, inr (JFile f)) ->
  getRepoFile respond owner repo path branch e = (e', inr j) ->
  e' = e1
  /\ exists f',
       j = JFile f'
       /\ GitHubFile.name f' = GitHubFile.name f
       /\ GitHubFile.path f' = GitHubFile.path f
       /\ GitHubFile.sha f' = GitHubFile.sha f
       /\ GitHubFile.type f' = GitHubFile.type f
       /\ GitHubFile.encoding f' = GitHubFile.encoding f.
Proof.
  intros Hapi. unfold getRepoFile, bind. rewrite Hapi. unfold decode_content.
  destruct (_ && _).
  - destruct (GitHubFile.content f) as [c|].
    + destruct (Base64.atob c) as [d|]; [|discriminate].
      intros [= <- <-]. split; [reflexivity|].
      exists (GitHubFile.set_content f d). repeat split; reflexivity.
    + intros [= <- <-]. split; [reflexivity|].
      exists f. repeat split; reflexivity.
  - intros [= <- <-]. split; [reflexivity|].
    exists f. repeat split; reflexivity.
Qed.

(** X6: an empty branch name is no branch name: the reads and the scan
    ask for the default branch, with no [ref] in the URL. *)
Theorem empty_branch_is_no_branch e owner repo path (dir : option Js.str) :
  getRepoFile respond owner repo path (Some []) e
  = getRepoFile respond owner repo path None e
  /\ getRepoContents respond owner repo dir (Some []) e
     = getRepoContents respond owner repo dir None e
  /\ analyzeRepository respond owner repo (Some []) e
     = analyzeRepository respond owner repo None e
  /\ requests (fst (getRepoFile respond owner repo path None e))
     = requests e
       ++ (if Js.truthy_opt (token e)
           then [api_request (token e)
                   (`"/repos/" ++ owner ++ `"/" ++ repo ++ `"/contents/"
                    ++ path)]
           else []).
Proof.
  split; [reflexivity|]. split; [reflexivity|]. split; [reflexivity|].
  unfold getRepoFile, bind.
  change (ref_query None) with (@nil N). rewrite app_nil_r.
  destruct (Js.truthy_opt (token e)) eqn:Ht.
  - rewrite (githubApi_run respond e _ Ht). cbv zeta.
    destruct (respond _ (world e)) as [w [|r]]; [reflexivity|].
    destruct (ok r); [|reflexivity].
    destruct (json r) as [j|]; [|reflexivity].
    rewrite decode_content_env. reflexivity.
  - rewrite (githubApi_unauthenticated respond e _ _ Ht).
    rewrite app_nil_r. reflexivity.
Qed.

(** X7: a write followed by a read gives the content back.  When a
    content made of bytes has been written and the host later serves the
    body's content field as a base64 payload, [getRepoFile] returns the
    record with the content that was written. *)
Theorem write_then_read e e' owner repo path branch f (written : Js.str) :
  Forall (fun c => (c <= 255)%N) written ->
  githubApi respond (contents owner repo path branch) no_options e
  = (e', inr (JFile f)) ->
  GitHubFile.encoding f = Some `"base64" ->
  GitHubFile.content f = Some (Base64.encode written) ->
  Base64.btoa written = Some (Base64.encode written)
  /\ getRepoFile respond owner repo path branch e
     = (e', inr (JFile (GitHubFile.set_content f written))).
Proof.
  intros Hb Hapi Henc Hc. split; [apply btoa_narrow, Hb|].
  rewrite (getRepoFile_base64_run e owner repo path branch Hapi Henc Hc).
  rewrite (atob_encode Hb). reflexivity.
Qed.

(** X8: a read followed by a write never fails on the content.  Whatever
    content [getRepoFile] decoded from a base64 payload, [updateRepoFile]
    encodes it and sends it in one request, and the body's content field
    decodes to it. *)
Theorem read_then_write e e' e2 owner repo path branch f (raw : Js.str) f'
    decoded message sha (target : Js.str) :
  githubApi respond (contents owner repo path branch) no_options e
  = (e', inr (JFile f)) ->
  GitHubFile.encoding f = Some `"base64" ->
  GitHubFile.content f = Some raw ->
  getRepoFile respond owner repo path branch e = (e', inr (JFile f')) ->
  GitHubFile.content f' = Some decoded ->
  Js.truthy_opt (token e2) = true ->
  requests (fst (updateRepoFile respond owner repo path decoded message sha
                   target e2))
  = requests e2
    ++ [(`"https://api.github.com/repos/" ++ owner ++ `"/" ++ repo
         ++ `"/contents/" ++ path,
         mkInit (Some `"PUT") (Some (json_headers (token e2)))
           (Some (UpdateBody message (Base64.encode decoded) sha target)))]
  /\ Base64.atob (Base64.encode decoded) = Some decoded.
Proof.
  intros Hapi Henc Hc Hread Hd Ht.
  pose proof (getRepoFile_base64_run e owner repo path branch
                Hapi Henc Hc) as H.
  destruct (Base64.atob raw) as [d|] eqn:Hatob.
  - rewrite H in Hread. injection Hread as <-.
    cbn [GitHubFile.set_content GitHubFile.content] in Hd.
    injection Hd as <-.
    destruct (atob_output_encodes_back raw Hatob) as [Hbtoa Hback].
    split; [|exact Hback].
    apply updateRepoFile_sends_base64; assumption.
  - rewrite H in Hread. discriminate Hread.
Qed.

(** X9: when [createBranch] returns, it has sent exactly two requests,
    the second a POST, and the branch it returns bears the requested
    name, whatever the host called the ref, at the hash of the host's
    answer to the creation. *)
Theorem createBranch_returns e e' owner repo newBranchName fromBranch
    (b : GitHubBranch.t) :
  createBranch respond owner repo newBranchName fromBranch e = (e', inr b) ->
  GitHubBranch.name b = newBranchName
  /\ token e' = token e
  /\ exists lookup create r2,
       requests e' = requests e ++ [lookup; create]
       /\ method (snd lookup) = None
       /\ method (snd create) = Some `"POST"
       /\ snd (respond create (fst (respond lookup (world e))))
          = Resolved r2
       /\ json r2 = Some (JRef (GitHubBranch.commit_sha b)).
Proof.
  unfold createBranch, bind at 1, getGitHubToken.
  destruct (Js.truthy_opt (token e)) eqn:Ht; [|discriminate]. cbn [negb].
  unfold bind at 1. rewrite (githubApi_run respond e _ Ht). cbv zeta.
  destruct (respond _ (world e)) as [w1 [|r1]] eqn:Hr1; [discriminate|].
  destruct (ok r1); [|discriminate].
  destruct (json r1) as [[f|fs|hash|]|]; try discriminate.
  unfold bind, object_sha, fetch. cbn [ret sent world token requests console].
  destruct (respond _ w1) as [w2 [|r2]] eqn:Hr2; [discriminate|].
  destruct (ok r2); [|discriminate]. cbn [negb].
  unfold response_json. destruct (json r2) as [[f2|fs2|hash2|]|] eqn:Hj2;
    try discriminate.
  cbn [ret]. intros [= <- <-]. cbn [GitHubBranch.name GitHubBranch.commit_sha].
  split; [reflexivity|]. split; [reflexivity|].
  exists (api_request (token e)
            (`"/repos/" ++ owner ++ `"/" ++ repo ++ `"/git/refs/heads/"
             ++ fromBranch)),
    (`"https://api.github.com/repos/" ++ owner ++ `"/" ++ repo ++ `"/git/refs",
     mkInit (Some `"POST") (Some (json_headers (token e)))
       (Some (RefBody (`"refs/heads/" ++ newBranchName) hash))),
    r2.
  cbn [requests sent].
  split; [rewrite <- app_assoc; reflexivity|].
  split; [reflexivity|]. split; [reflexivity|].
  rewrite Hr1. cbn [fst]. rewrite Hr2. split; [reflexivity|exact Hj2].
Qed.

End ReadWriteFacts.

(* ================================================================== *)
(** * Further properties: the scanner *)

Section MoreScannerFacts.

Variable World : Type.
Variable respond : Request -> World -> World * FetchOutcome.
Variables (owner repo : Js.str) (branch : option Js.str).
Implicit Types (e : Env World) (a : RepoAnalysis) (file : GitHubFile.t).

Local Abbreviation read file :=
  (getRepoFile respond owner repo (GitHubFile.path file) branch).

Local Abbreviation body := (scan_entry respond owner repo branch).

Local Abbreviation scan := (analyzeRepository respond owner repo branch).

Local Abbreviation listing :=
  (getRepoContents respond owner repo (Some `"") branch).

Local Abbreviation logged err e :=
  (fst (console_error `"Error analyzing repository:" err e)).

(** A property of the scan state that the loop body keeps keeps through
    the loop, however the loop ends. *)
Lemma for_of_keeps {S A} (I : S -> Prop) (f : A -> M S unit) (xs : list A) :
  (forall x s, I s -> I (fst (f x s))) ->
  forall s, I s -> I (fst (for_of xs f s)).
Proof.
  intros Hstep. induction xs as [|x xs IH]; intros s Hs; cbn [for_of].
  - exact Hs.
  - unfold bind. pose proof (Hstep x s Hs) as H1.
    destruct (f x s) as [s1 [err|u]]; [exact H1|]. apply IH. exact H1.
Qed.

(** The state the [try] block ends in, for a property kept by the loop
    body and by the listing. *)
Lemma scan_root_keeps (I : Scan World -> Prop) e :
  (forall file s, I s -> I (fst (body file s))) ->
  (forall a, I (e, a) -> I (fst (listing e), a)) ->
  I (e, new_analysis) ->
  I (fst (scan_root respond owner repo branch (e, new_analysis))).
Proof.
  intros Hbody Hlist H0. unfold scan_root, bind at 1, call. cbn [fst snd].
  specialize (Hlist new_analysis H0).
  destruct (listing e) as [e1 [err|j]]; [exact Hlist|].
  unfold bind, iterate. destruct j as [f|fs|hash|]; try exact Hlist.
  cbn [ret]. apply for_of_keeps; [exact Hbody|exact Hlist].
Qed.

Lemma flags_cover_new : flags_cover new_analysis.
Proof. repeat split; intros H; destruct (H eq_refl). Qed.

Lemma scan_entry_flags file (s : Scan World) :
  flags_cover (snd s) -> flags_cover (snd (fst (body file s))).
Proof.
  destruct s as [e a]. cbn [snd]. intros (H1 & H2 & H3 & H4).
  unfold scan_entry.
  destruct (is_compose (GitHubFile.name file)),
    (is_dockerfile (GitHubFile.name file)),
    (is_terraform (GitHubFile.name file)),
    (is_kubernetes (GitHubFile.name file)), (is_file file);
    unfold when, bind, assign, call, ret; cbv beta iota zeta; cbn [fst snd];
    repeat match goal with
      | |- context [read file ?e1] =>
          destruct (read file e1) as [? [?|?]]; cbv beta iota; cbn [fst snd]
      end;
    unfold flags_cover; destruct a; cbn; repeat split; auto.
Qed.

(** X11: in the analysis of every scan, complete or cut short, whatever
    is held for a category has the flag of the category set: a stored
    compose file or a non-empty collection never comes with a false
    flag. *)
Theorem scan_flags_cover_collections e :
  exists e' a, scan e = (e', inr a) /\ flags_cover a.
Proof.
  rewrite analyzeRepository_run.
  pose proof (@scan_root_keeps (fun s => flags_cover (snd s)) e
                scan_entry_flags (fun a H => H) flags_cover_new) as H.
  destruct (scan_root respond owner repo branch (e, new_analysis))
    as [[e' a] [err|u]]; eauto.
Qed.

Lemma existsb_filter {A} (f : A -> bool) (l : list A) :
  existsb f l = true <-> filter f l <> [].
Proof.
  induction l as [|x l IH]; cbn [existsb filter].
  - split; [discriminate | intros H; destruct (H eq_refl)].
  - destruct (f x); cbn [orb]; [split; [discriminate|reflexivity]|exact IH].
Qed.

Lemma length_filter_some {A B} (f : A -> bool) (l : list A) (r : list B) :
  List.length r = List.length (filter f l) ->
  (existsb f l = true <-> r <> []).
Proof.
  intros H. rewrite existsb_filter.
  destruct r, (filter f l); try discriminate H; split; intros N;
    try discriminate; destruct (N eq_refl).
Qed.

(** X12: in a scan that is not cut short, three flags say exactly
    whether something is held: [hasDockerCompose] that a compose file is
    stored, [hasDockerfile] and [hasTerraform] that their collection is
    not empty.  [hasKubernetes] alone can be set over an empty
    collection. *)
Theorem scan_flags_match_collections e e1 files e' a :
  listing e = (e1, inr (JFiles files)) ->
  for_of files body (e1, new_analysis) = ((e', a), inr tt) ->
  scan e = (e', inr a)
  /\ (hasDockerCompose a = true <-> dockerComposeFile a <> None)
  /\ (hasDockerfile a = true <-> dockerfiles a <> [])
  /\ (hasTerraform a = true <-> terraformFiles a <> [])
  /\ (kubernetesFiles a <> [] -> hasKubernetes a = true).
Proof.
  intros Hl Hrun.
  destruct (@scan_completes _ respond owner repo branch e e1 files e' a
              Hl Hrun)
    as (H & F1 & F2 & F3 & F4 & C0 & C1 & L1 & L2 & L3).
  split; [exact H|].
  rewrite F1, F2, F3, F4.
  split; [|split; [|split]].
  - destruct (existsb compose_entry files).
    + split; [intros _; apply C1; reflexivity|reflexivity].
    + split; [discriminate|]. intros N. destruct (N (C0 eq_refl)).
  - apply length_filter_some. exact L1.
  - apply length_filter_some. exact L2.
  - intros N. apply (length_filter_some _ _ _ L3) in N.
    apply existsb_exists in N. destruct N as [f [Hin Hf]].
    apply andb_true_iff in Hf. apply existsb_exists. exists f.
    split; [exact Hin|apply Hf].
Qed.

Lemma read_returns_one_request file e e' j :
  read file e = (e', inr j) ->
  List.length (requests e') = S (List.length (requests e)).
Proof.
  unfold getRepoFile, bind.
  destruct (githubApi _ _ _ e) as [e1 [x|data]] eqn:Hapi; [discriminate|].
  pose proof (githubApi_ok_token respond e _ _ Hapi) as Ht.
  rewrite (githubApi_run respond e _ Ht) in Hapi. cbv zeta in Hapi.
  intros Hd. pose proof (decode_content_env e1 data) as Henv.
  rewrite Hd in Henv. cbn [fst] in Henv. subst e'.
  destruct (respond _ (world e)) as [w [|r]]; [discriminate|].
  destruct (ok r); [|discriminate]. destruct (json r); [|discriminate].
  injection Hapi as <- _. cbn [requests sent].
  rewrite length_app. cbn. lia.
Qed.

Lemma listing_returns_one_request e e' j :
  listing e = (e', inr j) ->
  List.length (requests e') = S (List.length (requests e)).
Proof.
  unfold getRepoContents. intros Hapi.
  pose proof (githubApi_ok_token respond e _ _ Hapi) as Ht.
  rewrite (githubApi_run respond e _ Ht) in Hapi. cbv zeta in Hapi.
  destruct (respond _ (world e)) as [w [|r]]; [discriminate|].
  destruct (ok r); [|discriminate]. destruct (json r); [|discriminate].
  injection Hapi as <- _. cbn [requests sent].
  rewrite length_app. cbn. lia.
Qed.

Lemma scan_entry_count file e a e' a' :
  body file (e, a) = ((e', a'), inr tt) ->
  List.length (requests e') = List.length (requests e) + reads_of file.
Proof.
  unfold scan_entry, reads_of.
  destruct (is_compose (GitHubFile.name file)),
    (is_dockerfile (GitHubFile.name file)),
    (is_terraform (GitHubFile.name file)),
    (is_kubernetes (GitHubFile.name file)), (is_file file);
    unfold when, bind, assign, call, ret; cbv beta iota zeta; cbn [fst snd];
    repeat match goal with
      | |- context [read file ?e1] =>
          let E := fresh "E" in
          destruct (read file e1) as [? [?|?]] eqn:E; cbv beta iota;
          cbn [fst snd]; [intros [=] |];
          apply read_returns_one_request in E
      end;
    intros [= <- _]; cbn [andb]; lia.
Qed.

Lemma scan_entry_bound file (s : Scan World) :
  List.length (requests (fst (fst (body file s))))
  <= List.length (requests (fst s)) + reads_of file.
Proof.
  destruct s as [e a]. cbn [fst].
  unfold scan_entry, reads_of.
  destruct (is_compose (GitHubFile.name file)),
    (is_dockerfile (GitHubFile.name file)),
    (is_terraform (GitHubFile.name file)),
    (is_kubernetes (GitHubFile.name file)), (is_file file);
    unfold when, bind, assign, call, ret; cbv beta iota zeta; cbn [fst snd];
    repeat match goal with
      | |- context [read file ?e1] =>
          let H := fresh "H" in
          pose proof (getRepoFile_extends respond e1 owner repo
                        (GitHubFile.path file) branch) as H;
          destruct H as (_ & _ & ? & H & ?);
          destruct (read file e1) as [? [?|?]]; cbv beta iota;
          cbn [fst snd] in H |- *;
          apply (f_equal (@List.length Request)) in H;
          rewrite length_app in H
      end;
    cbn [fst snd andb]; lia.
Qed.

Lemma for_of_count files :
  forall e a e' a',
    for_of files body (e, a) = ((e', a'), inr tt) ->
    List.length (requests e')
    = List.length (requests e) + list_sum (map reads_of files).
Proof.
  induction files as [|file files IH]; intros e a e' a'; cbn [for_of].
  - intros [= <- _]. cbn. lia.
  - unfold bind. destruct (body file (e, a)) as [[e1 a1] [err|[]]] eqn:E;
      [discriminate|].
    intros H. apply IH in H. apply scan_entry_count in E.
    unfold list_sum in *; cbn [map fold_right] in *. lia.
Qed.

Lemma for_of_bound files :
  forall s : Scan World,
    List.length (requests (fst (fst (for_of files body s))))
    <= List.length (requests (fst s)) + list_sum (map reads_of files).
Proof.
  induction files as [|file files IH]; intros s; cbn [for_of].
  - cbn. lia.
  - unfold bind. pose proof (scan_entry_bound file s) as H1.
    destruct (body file s) as [s1 [err|u]]; cbn [fst] in *;
      unfold list_sum in *; cbn [map fold_right] in *; [lia|].
    specialize (IH s1). lia.
Qed.

(** X13: once the root is listed, a scan sends at most one request for
    each rule that reads an entry, and exactly that many when it is not
    cut short: an entry that several rules read is fetched once by each
    of them. *)
Theorem scan_request_count e e1 files :
  listing e = (e1, inr (JFiles files)) ->
  List.length (requests (fst (scan e)))
  <= List.length (requests e) + 1 + list_sum (map reads_of files)
  /\ (forall e' a,
        for_of files body (e1, new_analysis) = ((e', a), inr tt) ->
        List.length (requests (fst (scan e)))
        = List.length (requests e) + 1 + list_sum (map reads_of files)).
Proof.
  intros Hl. pose proof (listing_returns_one_request e Hl) as H1.
  rewrite analyzeRepository_run,
    (@scan_root_listed _ respond owner repo branch e e1 files Hl). split.
  - pose proof (for_of_bound files (e1, new_analysis)) as Hb.
    destruct (for_of files body (e1, new_analysis)) as [[e' a] [err|u]];
      cbn [fst snd console_error requests] in *; lia.
  - intros e' a H. rewrite H. cbn [fst]. apply for_of_count in H. lia.
Qed.

Lemma after_reads_refl e : after_reads owner repo branch e e.
Proof.
  split; [reflexivity|]. split; [reflexivity|].
  exists []. split; [symmetry; apply app_nil_r|constructor].
Qed.

Lemma after_reads_trans e e1 e2 :
  after_reads owner repo branch e e1 ->
  after_reads owner repo branch e1 e2 ->
  after_reads owner repo branch e e2.
Proof.
  intros (T1 & C1 & n1 & R1 & F1) (T2 & C2 & n2 & R2 & F2).
  split; [congruence|]. split; [congruence|].
  exists (n1 ++ n2). split.
  - rewrite R2, R1, app_assoc. reflexivity.
  - apply Forall_app. split; [exact F1|]. rewrite <- T1. exact F2.
Qed.

Lemma contents_call_reads e path :
  after_reads owner repo branch e
    (fst (githubApi respond
            (`"/repos/" ++ owner ++ `"/" ++ repo ++ `"/contents/" ++ path
             ++ ref_query branch) no_options e)).
Proof.
  destruct (Js.truthy_opt (token e)) eqn:Ht.
  - rewrite (githubApi_run respond e _ Ht). cbv zeta.
    assert (H : forall w,
      after_reads owner repo branch e
        (sent e w (api_request (token e)
           (`"/repos/" ++ owner ++ `"/" ++ repo ++ `"/contents/" ++ path
            ++ ref_query branch)))).
    { intros w. split; [reflexivity|]. split; [reflexivity|].
      eexists. split; [reflexivity|].
      constructor; [|constructor]. exists path. reflexivity. }
    destruct (respond _ (world e)) as [w [|r]]; [apply H|].
    destruct (ok r); [|apply H]. destruct (json r); apply H.
  - rewrite (githubApi_unauthenticated respond e _ _ Ht).
    apply after_reads_refl.
Qed.

Lemma read_after_reads file e0 e1 :
  after_reads owner repo branch e0 e1 ->
  after_reads owner repo branch e0 (fst (read file e1)).
Proof.
  intros H. apply (after_reads_trans H).
  unfold getRepoFile, bind.
  pose proof (contents_call_reads e1 (GitHubFile.path file)) as H1.
  destruct (githubApi _ _ _ e1) as [e2 [x|data]]; [exact H1|].
  rewrite decode_content_env. exact H1.
Qed.

Lemma scan_entry_after_reads e0 file (s : Scan World) :
  after_reads owner repo branch e0 (fst s) ->
  after_reads owner repo branch e0 (fst (fst (body file s))).
Proof.
  destruct s as [e a]. cbn [fst]. intros H.
  unfold scan_entry.
  destruct (is_compose (GitHubFile.name file)),
    (is_dockerfile (GitHubFile.name file)),
    (is_terraform (GitHubFile.name file)),
    (is_kubernetes (GitHubFile.name file)), (is_file file);
    unfold when, bind, assign, call, ret; cbv beta iota zeta; cbn [fst snd];
    repeat match goal with
      | H : after_reads _ _ _ e0 ?e1 |- context [read file ?e1] =>
          apply (read_after_reads file) in H;
          destruct (read file e1) as [? [?|?]]; cbv beta iota;
          cbn [fst snd] in H |- *
      end;
    exact H.
Qed.

(** X14: a scan only reads.  Every request it sends is a GET, without a
    body and with the bearer token, on the contents endpoint of the
    repository and branch it was given; the token is not touched, and the
    console gets one entry at most, when the scan was cut short. *)
Theorem scan_only_reads e :
  exists e1,
    after_reads owner repo branch e e1
    /\ (fst (scan e) = e1 \/ exists err, fst (scan e) = logged err e1).
Proof.
  rewrite analyzeRepository_run.
  pose proof (@scan_root_keeps
                (fun s => after_reads owner repo branch e (fst s)) e
                (@scan_entry_after_reads e)) as H.
  cbn beta in H.
  assert (H' : after_reads owner repo branch e
                 (fst (fst (scan_root respond owner repo branch
                              (e, new_analysis))))).
  { apply H.
    - intros a Ha. cbn [fst] in *. apply (after_reads_trans Ha).
      apply (contents_call_reads e `"").
    - apply after_reads_refl. }
  destruct (scan_root respond owner repo branch (e, new_analysis))
    as [[e' a] [err|u]]; cbn [fst] in *; exists e'; eauto.
Qed.

(** X15: without a usable token a scan sends nothing: it returns the
    initial analysis, all flags false and nothing held, and leaves one
    console entry with the client's own error. *)
Theorem scan_signed_out e :
  Js.truthy_opt (token e) = false ->
  scan e = (logged (Error `"No GitHub token found") e, inr new_analysis).
Proof.
  intros Ht. rewrite analyzeRepository_run.
  unfold scan_root, bind, call, getRepoContents. cbn [fst snd].
  rewrite (githubApi_unauthenticated respond e _ _ Ht). reflexivity.
Qed.

(** X16: a scan that gets no entries reads nothing further and returns
    the initial analysis.  A listing that fails is logged with its error;
    a listing answered with a file object, which is not iterable, is
    logged as a type error; an empty array is logged not at all. *)
Theorem scan_without_entries e e1 :
  (forall err, listing e = (e1, inl err) ->
     scan e = (logged err e1, inr new_analysis))
  /\ (forall f, listing e = (e1, inr (JFile f)) ->
      scan e = (logged TypeError e1, inr new_analysis))
  /\ (listing e = (e1, inr (JFiles [])) ->
      scan e = (e1, inr new_analysis)).
Proof.
  rewrite analyzeRepository_run.
  unfold scan_root, bind, call, iterate. cbn [fst snd].
  repeat split.
  - intros err ->. reflexivity.
  - intros f ->. reflexivity.
  - intros ->. reflexivity.
Qed.

End MoreScannerFacts.

(* ================================================================== *)
(** * Further properties: the diff *)

Section MoreDiffFacts.

Lemma split_lf_length (s : Js.str) :
  List.length (Js.split_lf s) = S (count_lf s).
Proof.
  unfold count_lf. induction s as [|c s IH]; cbn [Js.split_lf filter].
  - reflexivity.
  - destruct (N.eqb c 10); cbn [List.length]; [rewrite IH; reflexivity|].
    destruct (Js.split_lf s) as [|l ls]; [discriminate IH|exact IH].
Qed.

Lemma split_lf_inj (s t : Js.str) :
  Js.split_lf s = Js.split_lf t -> s = t.
Proof.
  revert t. induction s as [|c s IH]; intros [|d t]; cbn [Js.split_lf].
  - reflexivity.
  - pose proof (split_lf_length t) as L.
    destruct (N.eqb d 10); destruct (Js.split_lf t); try discriminate.
  - pose proof (split_lf_length s) as L.
    destruct (N.eqb c 10); destruct (Js.split_lf s); try discriminate.
  - pose proof (split_lf_length s) as Ls.
    pose proof (split_lf_length t) as Lt.
    destruct (N.eqb c 10) eqn:Ec, (N.eqb d 10) eqn:Ed.
    + apply N.eqb_eq in Ec, Ed. intros [= H]. subst. f_equal. apply IH, H.
    + destruct (Js.split_lf t); discriminate.
    + destruct (Js.split_lf s); discriminate.
    + destruct (Js.split_lf s) as [|l ls] eqn:Es; [discriminate|].
      destruct (Js.split_lf t) as [|l' ls'] eqn:Et; [discriminate|].
      intros [= -> -> ->]. f_equal. apply IH. symmetry. exact Et.
Qed.

Lemma split_lf_no_lf (s l : Js.str) :
  In l (Js.split_lf s) -> ~ In 10%N l.
Proof.
  revert l. induction s as [|c s IH]; intros l; cbn [Js.split_lf].
  - intros [<-|[]] [].
  - destruct (N.eqb c 10) eqn:Ec.
    + intros [<-|H]; [intros []|apply IH, H].
    + destruct (Js.split_lf s) as [|l0 ls].
      * intros [<-|[]] [->|[]]. discriminate Ec.
      * intros [<-|H].
        -- intros [->|H']; [discriminate Ec|].
           apply (IH l0); [left; reflexivity|exact H'].
        -- apply IH. right. exact H.
Qed.

Lemma nth_error_ext {A} (l l' : list A) :
  (forall i, nth_error l i = nth_error l' i) -> l = l'.
Proof.
  revert l'. induction l as [|x l IH]; intros [|y l'] H.
  - reflexivity.
  - discriminate (H 0).
  - discriminate (H 0).
  - injection (H 0) as ->. f_equal. apply IH. intros i. exact (H (S i)).
Qed.

Lemma renderDiff_in (c : FileChange.t) (row : DiffRow) :
  In row (renderDiff c) <->
  exists i, i < List.length (renderDiff c)
            /\ nth_error (renderDiff c) i = Some row.
Proof.
  split.
  - intros H. apply In_nth_error in H. destruct H as [i H]. exists i.
    split; [|exact H]. apply nth_error_Some. congruence.
  - intros [i [_ H]]. apply nth_error_In in H. exact H.
Qed.

(** X17: the diff has one row more than the text with more line feeds
    has line feeds; two empty texts still give one row. *)
Theorem renderDiff_row_count (c : FileChange.t) :
  List.length (renderDiff c)
  = S (Nat.max (count_lf (FileChange.oldContent c))
               (count_lf (FileChange.newContent c))).
Proof.
  rewrite renderDiff_length, !split_lf_length. lia.
Qed.

(** X18: no row of the diff is marked changed exactly when the old and
    the new text are the same text. *)
Theorem renderDiff_unchanged_iff (c : FileChange.t) :
  (forall row, In row (renderDiff c) -> changed row = false)
  <-> FileChange.oldContent c = FileChange.newContent c.
Proof.
  split.
  - intros H. apply split_lf_inj. apply nth_error_ext. intros i.
    destruct (Nat.lt_ge_cases i (List.length (renderDiff c))) as [Hi|Hi].
    + pose proof (renderDiff_nth c Hi) as Hn. cbv zeta in Hn.
      specialize (H _ (nth_error_In _ _ Hn)). cbn [changed] in H.
      apply negb_false_iff, strict_eq_iff in H. exact H.
    + rewrite renderDiff_length in Hi.
      rewrite (proj2 (nth_error_None _ i)) by lia.
      rewrite (proj2 (nth_error_None _ i)) by lia. reflexivity.
  - intros E row Hin. apply renderDiff_in in Hin.
    destruct Hin as [i [Hi Hn]]. rewrite (renderDiff_nth c Hi) in Hn.
    cbv zeta in Hn. injection Hn as <-. cbn [changed]. rewrite E.
    apply negb_false_iff, strict_eq_iff. reflexivity.
Qed.

(** X19: a cell of the diff is never empty and never holds a line feed:
    it shows its line, or one space when the line is empty or the text
    has no such line. *)
Theorem renderDiff_cells (c : FileChange.t) (row : DiffRow) :
  In row (renderDiff c) ->
  let cell lines :=
    match nth_error lines (key row) with
    | Some (ch :: line) => ch :: line
    | _ => `" "
    end in
  oldCell row = cell (Js.split_lf (FileChange.oldContent c))
  /\ newCell row = cell (Js.split_lf (FileChange.newContent c))
  /\ oldCell row <> [] /\ newCell row <> []
  /\ ~ In 10%N (oldCell row) /\ ~ In 10%N (newCell row).
Proof.
  intros Hin. apply renderDiff_in in Hin. destruct Hin as [i [Hi Hn]].
  rewrite (renderDiff_nth c Hi) in Hn. cbv zeta in Hn.
  injection Hn as <-. cbn [key oldCell newCell].
  assert (H : forall s,
    Js.or_else (nth_error (Js.split_lf s) i) `" "
    = match nth_error (Js.split_lf s) i with
      | Some (ch :: line) => ch :: line
      | _ => `" "
      end
    /\ Js.or_else (nth_error (Js.split_lf s) i) `" " <> []
    /\ ~ In 10%N (Js.or_else (nth_error (Js.split_lf s) i) `" ")).
  { intros s. destruct (nth_error (Js.split_lf s) i) as [[|ch line]|] eqn:E;
      unfold Js.or_else; cbn [Js.truthy_opt Js.truthy].
    - repeat split; [discriminate|]. intros [H|[]]. discriminate H.
    - repeat split; [discriminate|].
      apply (split_lf_no_lf s). apply (nth_error_In _ _ E).
    - repeat split; [discriminate|]. intros [H|[]]. discriminate H. }
  destruct (H (FileChange.oldContent c)) as (O1 & O2 & O3).
  destruct (H (FileChange.newContent c)) as (N1 & N2 & N3).
  repeat split; assumption.
Qed.

End MoreDiffFacts.

(* ================================================================== *)
(** * Further properties: the line breaks of a payload *)

Section LineBreakFacts.

Variable World : Type.
Variable respond : Request -> World -> World * FetchOutcome.
Implicit Types (e : Env World).

(** X20: white space in a base64 payload does not count.  GitHub breaks
    the content of a file into lines; [getRepoFile] decodes it as if the
    line breaks, or any other ASCII white space, were not there. *)
Theorem getRepoFile_ignores_line_breaks e e' owner repo path branch f
    (a b : Js.str) (sp : N) :
  Base64.is_space sp = true ->
  githubApi respond
    (`"/repos/" ++ owner ++ `"/" ++ repo ++ `"/contents/" ++ path
     ++ ref_query branch) no_options e
  = (e', inr (JFile f)) ->
  GitHubFile.encoding f = Some `"base64" ->
  GitHubFile.content f = Some (a ++ sp :: b) ->
  getRepoFile respond owner repo path branch e
  = (e', match Base64.atob (a ++ b) with
         | Some d => inr (JFile (GitHubFile.set_content f d))
         | None => inl InvalidCharacterError
         end).
Proof.
  intros Hsp Hapi Henc Hc. unfold getRepoFile, bind. rewrite Hapi.
  unfold decode_content. rewrite Henc, Hc.
  rewrite (atob_ignores_space a b sp Hsp).
  replace (Js.truthy_opt (Some (a ++ sp :: b))) with true
    by (destruct a; reflexivity).
  cbn [Js.strict_eq andb]. rewrite eqb_refl.
  destruct (Base64.atob (a ++ b)); reflexivity.
Qed.

End LineBreakFacts.

(* ================================================================== *)
(** * Further properties: refused writes *)

Section RefusedWriteFacts.

Variable World : Type.
Variable respond : Request -> World -> World * FetchOutcome.
Implicit Types (e : Env World).

(** X21: a write that GitHub refuses raises
    ["Failed to update file: <status text>"], not the message of the
    reads, after its one request. *)
Theorem updateRepoFile_refused e owner repo path content message sha
    (target : Js.str) (w : World) (r : Response) :
  Js.truthy_opt (token e) = true ->
  Forall (fun c => (c <= 255)%N) content ->
  let put :=
    (`"https://api.github.com/repos/" ++ owner ++ `"/" ++ repo
     ++ `"/contents/" ++ path,
     mkInit (Some `"PUT") (Some (json_headers (token e)))
       (Some (UpdateBody message (Base64.encode content) sha target))) in
  respond put (world e) = (w, Resolved r) ->
  ok r = false ->
  updateRepoFile respond owner repo path content message sha target e
  = (sent e w put,
     inl (Error (`"Failed to update file: " ++ statusText r))).
Proof.
  intros Ht Hb put Hr Hok. subst put.
  unfold updateRepoFile, bind, getGitHubToken, btoa, fetch.
  rewrite Ht, (btoa_narrow Hb). cbv beta iota delta [negb ret].
  rewrite Hr, Hok. reflexivity.
Qed.

(** X22: when the source branch is found and the creation is refused,
    [createBranch] raises ["Failed to create branch: <status text>"]
    after both requests; the creation asked for the new ref at the hash
    of the source branch. *)
Theorem createBranch_creation_refused e owner repo newBranchName fromBranch
    (w1 w2 : World) (r1 r2 : Response) (hash : Js.str) :
  Js.truthy_opt (token e) = true ->
  let lookup :=
    api_request (token e)
      (`"/repos/" ++ owner ++ `"/" ++ repo ++ `"/git/refs/heads/"
       ++ fromBranch) in
  let create :=
    (`"https://api.github.com/repos/" ++ owner ++ `"/" ++ repo
     ++ `"/git/refs",
     mkInit (Some `"POST") (Some (json_headers (token e)))
       (Some (RefBody (`"refs/heads/" ++ newBranchName) hash))) in
  respond lookup (world e) = (w1, Resolved r1) ->
  ok r1 = true ->
  json r1 = Some (JRef hash) ->
  respond create w1 = (w2, Resolved r2) ->
  ok r2 = false ->
  createBranch respond owner repo newBranchName fromBranch e
  = (sent (sent e w1 lookup) w2 create,
     inl (Error (`"Failed to create branch: " ++ statusText r2))).
Proof.
  intros Ht lookup create H1 Hok1 Hj1 H2 Hok2. subst lookup create.
  unfold createBranch, bind at 1, getGitHubToken. rewrite Ht. cbn [negb].
  unfold bind at 1. rewrite (githubApi_run respond e _ Ht). cbv zeta.
  rewrite H1, Hok1, Hj1.
  unfold bind, object_sha, ret, fetch. cbn [world sent token].
  rewrite H2, Hok2. reflexivity.
Qed.

End RefusedWriteFacts.

(* ================================================================== *)
(** * Further properties: the repository selection page *)

Section ReposPageFacts.

Variable World : Type.
Variable respond : Request -> World -> World * FetchOutcome.
Variable native_message : exn -> Js.str.
Implicit Types (b : Browser World).

Local Abbreviation effect := (reposEffect respond native_message).

Local Abbreviation repos_request b :=
  (api_request (token (env b)) `"/user/repos?sort=updated&per_page=100").

(** The prefix the client puts before the status text holds no part of
    ["401"]. *)
Lemma includes_401_after_prefix (st : Js.str) :
  Js.includes (`"GitHub API error: " ++ st) `"401" = Js.includes st `"401".
Proof.
  unfold Js.lit. cbn [list_ascii_of_string map app].
  repeat (cbn [Js.includes]; match goal with
          | |- (Js.startsWith (?c :: _) _ || ?r)%bool = _ =>
              change (r = Js.includes st (map N_of_ascii
                                            (list_ascii_of_string "401")))
          end).
  reflexivity.
Qed.

Lemma reposEffect_run b :
  effect b
  = if Js.truthy_opt (token (env b)) then
      let rq := repos_request b in
      let (w, out) := respond rq (world (env b)) in
      let failed err :=
        let m := message native_message err in
        let unauthorized := Js.includes m `"401" in
        (mkBrowser
           (mkEnv (if unauthorized then None else token (env b)) w
              (requests (env b) ++ [rq])
              (console (env b) ++ [(`"Error fetching repos:", err)]))
           (ReposPage.mk (ReposPage.repos (view b)) false
              (ReposPage.selectedRepo (view b)) (Some m))
           (pushed b)
           (timers b ++ (if unauthorized then [(`"/", 2000%N)] else [])),
         inr tt) in
      match out with
      | Rejected => failed TypeError
      | Resolved r =>
          if ok r then
            match json r with
            | Some j =>
                (mkBrowser (sent (env b) w rq)
                   (ReposPage.mk j false (ReposPage.selectedRepo (view b))
                      (ReposPage.error (view b)))
                   (pushed b) (timers b), inr tt)
            | None => failed SyntaxError
            end
          else failed (Error (`"GitHub API error: " ++ statusText r))
      end
    else (mkBrowser (env b) (view b) (pushed b ++ [`"/"]) (timers b), inr tt).
Proof.
  destruct b as [e v ps ts].
  unfold reposEffect, bind at 1, on_env at 1, getGitHubToken.
  cbv beta iota zeta delta [env view pushed timers].
  destruct (Js.truthy_opt (token e)) eqn:Ht; cbv beta iota delta [negb];
    [|reflexivity].
  unfold fetchRepos, try_catch, bind, on_env, getGitHubRepos.
  cbv beta iota zeta delta [env view pushed timers].
  rewrite (githubApi_run respond e _ Ht). cbv zeta.
  destruct (respond _ (world e)) as [w [|r]];
    [|destruct (ok r); [destruct (json r); [reflexivity|]|]];
    cbv beta iota zeta
      delta [setLoading setError set_view console_error when ret
             clearGitHubToken push_later env view pushed timers fst snd sent
             token world requests console ReposPage.repos ReposPage.loading
             ReposPage.selectedRepo ReposPage.error];
    match goal with
    | |- context [Js.includes ?m ?p] => destruct (Js.includes m p)
    end;
    rewrite ?app_nil_r; reflexivity.
Qed.

(** X23: the effect of the page never raises and sends one request at
    most; it either stops the loading indicator or, with no token, goes
    to the landing page; the selected repository is not touched. *)
Theorem reposEffect_settles b :
  let b' := fst (effect b) in
  snd (effect b) = inr tt
  /\ (exists news, requests (env b') = requests (env b) ++ news
                   /\ List.length news <= 1)
  /\ ReposPage.selectedRepo (view b') = ReposPage.selectedRepo (view b)
  /\ (if Js.truthy_opt (token (env b))
      then ReposPage.loading (view b') = false /\ pushed b' = pushed b
      else b' = mkBrowser (env b) (view b) (pushed b ++ [`"/"]) (timers b)).
Proof.
  rewrite reposEffect_run. cbv zeta.
  assert (L0 : exists news : list Request,
            requests (env b) = requests (env b) ++ news
            /\ List.length news <= 1).
  { exists []. split; [symmetry; apply app_nil_r|cbn; lia]. }
  assert (L1 : forall rq : Request,
            exists news : list Request,
              requests (env b) ++ [rq] = requests (env b) ++ news
              /\ List.length news <= 1).
  { intros rq. exists [rq]. split; [reflexivity|cbn; lia]. }
  destruct (Js.truthy_opt (token (env b))).
  - destruct (respond _ (world (env b))) as [w [|r]];
      [|destruct (ok r); [destruct (json r)|]];
      cbn [fst snd env view pushed timers requests sent
           ReposPage.selectedRepo ReposPage.loading];
      repeat split; auto.
  - cbn [fst snd env view]. repeat split; auto.
Qed.

(** X24: when GitHub refuses the request for the repositories, the page
    shows the client's message and stops loading; it forgets the token
    and schedules the return to the landing page exactly when the status
    text of the answer contains ["401"].  A refusal whose status text is
    the usual reason phrase leaves the token in place. *)
Theorem reposEffect_refused b (w : World) (r : Response) :
  Js.truthy_opt (token (env b)) = true ->
  respond (repos_request b) (world (env b)) = (w, Resolved r) ->
  ok r = false ->
  let b' := fst (effect b) in
  let unauthorized := Js.includes (statusText r) `"401" in
  ReposPage.error (view b')
  = Some (`"GitHub API error: " ++ statusText r)
  /\ ReposPage.loading (view b') = false
  /\ ReposPage.repos (view b') = ReposPage.repos (view b)
  /\ token (env b') = (if unauthorized then None else token (env b))
  /\ timers b' = timers b ++ (if unauthorized then [(`"/", 2000%N)] else [])
  /\ pushed b' = pushed b
  /\ console (env b')
     = console (env b)
       ++ [(`"Error fetching repos:",
            Error (`"GitHub API error: " ++ statusText r))].
Proof.
  intros Ht Hr Hok. rewrite reposEffect_run, Ht. cbv zeta.
  rewrite Hr, Hok. cbn [message]. rewrite includes_401_after_prefix.
  cbn [fst env view pushed timers token console ReposPage.error
       ReposPage.loading ReposPage.repos].
  repeat split; reflexivity.
Qed.

(** X25: when GitHub answers the request with a body, the page holds that
    body as its repositories and stops loading; the token stays, nothing
    is logged and no return to the landing page is scheduled. *)
Theorem reposEffect_lists b (w : World) (r : Response) (j : Json) :
  Js.truthy_opt (token (env b)) = true ->
  respond (repos_request b) (world (env b)) = (w, Resolved r) ->
  ok r = true ->
  json r = Some j ->
  fst (effect b)
  = mkBrowser (sent (env b) w (repos_request b))
      (ReposPage.mk j false (ReposPage.selectedRepo (view b))
         (ReposPage.error (view b)))
      (pushed b) (timers b).
Proof.
  intros Ht Hr Hok Hj. rewrite reposEffect_run, Ht. cbv zeta.
  rewrite Hr, Hok, Hj. reflexivity.
Qed.

End ReposPageFacts.

(* ================================================================== *)
(** * Further properties: the file modification dialog *)

Section DialogFacts.

Variable Page : Type.
Variable onConfirm : Js.str -> bool -> option Js.str -> M Page unit.
Variable onClose : M Page unit.
Variable native_message : exn -> Js.str.
Implicit Types (p : Page) (d : Dialog.t).

Local Abbreviation confirm := (handleConfirm onConfirm onClose native_message).

Lemma trim_start_nil (s : Js.str) :
  trim_start s = [] <-> forallb is_white s = true.
Proof.
  induction s as [|c s IH]; cbn [trim_start forallb].
  - split; reflexivity.
  - destruct (is_white c); cbn [andb]; [exact IH|].
    split; discriminate.
Qed.

Lemma trim_start_head (s t : Js.str) (c : N) :
  trim_start s = c :: t -> is_white c = false.
Proof.
  induction s as [|y s IH]; cbn [trim_start]; [discriminate|].
  destruct (is_white y) eqn:Ey; [exact IH|].
  intros [= <- _]. exact Ey.
Qed.

Lemma trim_nil (s : Js.str) :
  trim s = [] <-> forallb is_white s = true.
Proof.
  unfold trim. split.
  - intros H. apply (f_equal (@rev N)) in H.
    rewrite rev_involutive in H. cbn [rev] in H.
    destruct (trim_start s) as [|c t] eqn:E.
    + apply trim_start_nil. exact E.
    + exfalso. apply trim_start_nil in H.
      rewrite forallb_forall in H.
      assert (Hc : is_white c = true).
      { apply H. apply in_rev. rewrite rev_involutive. left. reflexivity. }
      apply trim_start_head in E. congruence.
  - intros H. apply trim_start_nil in H. rewrite H. reflexivity.
Qed.

(** X26: asked for a new branch whose name is blank (empty, or white
    space only), the dialog shows its own message and does nothing else:
    neither callback runs, and the dialog does not turn to committing. *)
Theorem handleConfirm_blank_name p d :
  Dialog.createNewBranch d = true ->
  forallb is_white (Dialog.newBranchName d) = true ->
  confirm (p, d)
  = ((p, Dialog.mk (Dialog.selectedBranch d) true (Dialog.newBranchName d)
           (Dialog.committing d) (Some `"Please enter a branch name")),
     inr tt).
Proof.
  intros Hn Hw. unfold handleConfirm. cbn [snd]. rewrite Hn.
  apply trim_nil in Hw. rewrite Hw. cbn [Js.truthy negb andb].
  unfold setDialogError, set_dialog. cbn [fst snd]. rewrite Hn. reflexivity.
Qed.

(** X27: a confirmation that passes the name check never raises and never
    leaves the dialog committing.  The page's [onConfirm] gets the
    selected branch, and the new name only when a new branch is asked
    for; [onClose] runs only after [onConfirm] returned; an error of
    either callback ends as the dialog's message, no error clears it. *)
Theorem handleConfirm_settles p d :
  (Dialog.createNewBranch d
   && negb (Js.truthy (trim (Dialog.newBranchName d))))%bool = false ->
  let call :=
    onConfirm (Dialog.selectedBranch d) (Dialog.createNewBranch d)
      (if Dialog.createNewBranch d then Some (Dialog.newBranchName d)
       else None) in
  let after m p' :=
    ((p', Dialog.mk (Dialog.selectedBranch d) (Dialog.createNewBranch d)
            (Dialog.newBranchName d) false m), inr tt) in
  confirm (p, d)
  = match call p with
    | (p1, inl err) => after (Some (message native_message err)) p1
    | (p1, inr _) =>
        match onClose p1 with
        | (p2, inl err) => after (Some (message native_message err)) p2
        | (p2, inr _) => after None p2
        end
    end.
Proof.
  intros Hv. unfold handleConfirm. cbn [snd]. rewrite Hv.
  unfold bind, setCommitting, setDialogError, set_dialog, try_finally,
    try_catch, on_page. cbn [fst snd].
  destruct (onConfirm _ _ _ p) as [p1 [err|[]]]; cbn [fst snd];
    [reflexivity|].
  destruct (onClose p1) as [p2 [err|[]]]; reflexivity.
Qed.

End DialogFacts.

(* ================================================================== *)
(** * The further properties on the examples *)

(** A call that gives its own [Accept] header: one request, with the
    caller's [Accept] and the client's [Authorization]. *)
Lemma githubApi_sends_one_request_witness :
  Js.truthy_opt (token signed_in) = true
  /\ exists hs,
       requests
         (fst (githubApi demo_host `"/user"
                 (mkInit (Some `"POST") (Some [(`"Accept", `"text/plain")])
                    None)
                 signed_in))
       = [(`"https://api.github.com/user",
           mkInit (Some `"POST") (Some hs) None)]
       /\ obj_get `"Accept" hs = Some `"text/plain"
       /\ obj_get `"Authorization" hs = Some `"Bearer token-1".
Proof.
  split; [reflexivity|].
  destruct (@githubApi_sends_one_request unit demo_host signed_in `"/user"
              (mkInit (Some `"POST") (Some [(`"Accept", `"text/plain")])
                 None)
              eq_refl) as [hs [Hreq Hk]].
  exists hs. split; [exact Hreq|].
  split; rewrite Hk; reflexivity.
Defined.

(** A token stored after signing out is borne by the next call; an empty
    one stored over a token stops the next call. *)
Lemma token_slot_decides_calls_witness :
  requests
    (fst (githubApi demo_host `"/user" no_options
            (fst (setGitHubToken `"token-2" signed_out))))
  = [api_request (Some `"token-2") `"/user"]
  /\ githubApi demo_host `"/user" no_options
       (fst (setGitHubToken [] signed_in))
     = (fst (setGitHubToken [] signed_in),
        inl (Error `"No GitHub token found")).
Proof.
  split.
  - pose proof (@token_slot_decides_calls unit demo_host signed_out
                  `"token-2" `"/user") as H.
    cbv zeta in H. destruct H as (_ & H & _). apply H. discriminate.
  - pose proof (@token_slot_decides_calls unit demo_host signed_in
                  [] `"/user") as H.
    cbv zeta in H. destruct H as (_ & _ & H & _). apply H. reflexivity.
Defined.

(** Read as a file, the root of the example repository comes back as the
    listing it is. *)
Lemma getRepoFile_passes_through_witness :
  snd (getRepoFile demo_host `"terra" `"web" `"" None signed_in)
  = inr (JFiles demo_listing).
Proof.
  rewrite (@getRepoFile_passes_through unit demo_host signed_in
             (fst (getRepoFile demo_host `"terra" `"web" `"" None signed_in))
             `"terra" `"web" `"" None (JFiles demo_listing) eq_refl).
  - reflexivity.
  - left. exists demo_listing. reflexivity.
Defined.

(** The record read for [Dockerfile.prod] has the sha and the encoding of
    the payload. *)
Lemma getRepoFile_keeps_fields_witness :
  exists f',
    demo_got (demo_entry "Dockerfile.prod" "file") = JFile f'
    /\ GitHubFile.sha f' = `"0a1b"
    /\ GitHubFile.encoding f' = Some `"base64".
Proof.
  destruct (@getRepoFile_keeps_fields unit demo_host signed_in
              (fst (getRepoFile demo_host `"terra" `"web" `"Dockerfile.prod"
                      None signed_in))
              (fst (getRepoFile demo_host `"terra" `"web" `"Dockerfile.prod"
                      None signed_in))
              `"terra" `"web" `"Dockerfile.prod" None
              (demo_payload (demo_entry "Dockerfile.prod" "file"))
              (demo_got (demo_entry "Dockerfile.prod" "file"))
              eq_refl eq_refl)
    as (_ & f' & Hj & _ & _ & Hsha & _ & Henc).
  exists f'. split; [exact Hj|]. split; [exact Hsha|exact Henc].
Defined.

(** [FROM node], written and served back as [RlJPTSBub2Rl], is read as
    [FROM node]. *)
Lemma write_then_read_witness :
  Base64.btoa `"FROM node" = Some `"RlJPTSBub2Rl"
  /\ snd (getRepoFile demo_host `"terra" `"web" `"Dockerfile.prod" None
            signed_in)
     = inr (demo_got (demo_entry "Dockerfile.prod" "file")).
Proof.
  destruct (@write_then_read unit demo_host signed_in
              (fst (getRepoFile demo_host `"terra" `"web" `"Dockerfile.prod"
                      None signed_in))
              `"terra" `"web" `"Dockerfile.prod" None
              (demo_payload (demo_entry "Dockerfile.prod" "file"))
              `"FROM node")
    as [Hb Hr]; try reflexivity.
  - repeat constructor; discriminate.
  - split; [exact Hb|]. rewrite Hr. reflexivity.
Defined.

(** The content read for [Dockerfile.prod] is written back in one PUT
    whose body holds [RlJPTSBub2Rl]. *)
Lemma read_then_write_witness :
  map body_content
    (requests
       (fst (updateRepoFile demo_host `"terra" `"web" `"Dockerfile.prod"
               `"FROM node" `"Update Dockerfile.prod" `"0a1b" `"main"
               signed_in)))
  = [Some `"RlJPTSBub2Rl"]
  /\ Base64.atob `"RlJPTSBub2Rl" = Some `"FROM node".
Proof.
  destruct (@read_then_write unit demo_host signed_in
              (fst (getRepoFile demo_host `"terra" `"web" `"Dockerfile.prod"
                      None signed_in))
              signed_in
              `"terra" `"web" `"Dockerfile.prod" None
              (demo_payload (demo_entry "Dockerfile.prod" "file"))
              `"RlJPTSBub2Rl"
              (GitHubFile.set_content
                 (demo_payload (demo_entry "Dockerfile.prod" "file"))
                 `"FROM node")
              `"FROM node" `"Update Dockerfile.prod" `"0a1b" `"main"
              eq_refl eq_refl eq_refl eq_refl eq_refl eq_refl)
    as [Hreq Hback].
  split; [rewrite Hreq; reflexivity|exact Hback].
Defined.

(** The branch [feature] made from [main] bears the name asked for, after
    two requests. *)
Lemma createBranch_returns_witness :
  GitHubBranch.name (GitHubBranch.mk `"feature" `"c0ffee") = `"feature"
  /\ List.length
       (requests
          (fst (createBranch demo_host `"terra" `"web" `"feature" `"main"
                  signed_in)))
     = 2.
Proof.
  destruct (@createBranch_returns unit demo_host signed_in
              (fst (createBranch demo_host `"terra" `"web" `"feature" `"main"
                      signed_in))
              `"terra" `"web" `"feature" `"main"
              (GitHubBranch.mk `"feature" `"c0ffee") eq_refl)
    as (Hname & _ & lookup & create & r2 & Hreq & _).
  split; [exact Hname|]. rewrite Hreq. reflexivity.
Defined.

(** On the example repository the three flags and what is held agree. *)
Lemma scan_flags_match_collections_witness :
  exists e' a,
    analyzeRepository demo_host `"terra" `"web" None signed_in = (e', inr a)
    /\ (hasDockerCompose a = true <-> dockerComposeFile a <> None)
    /\ (hasDockerfile a = true <-> dockerfiles a <> [])
    /\ (hasTerraform a = true <-> terraformFiles a <> []).
Proof.
  destruct (@scan_flags_match_collections unit demo_host `"terra" `"web" None
              signed_in
              (fst (getRepoContents demo_host `"terra" `"web" (Some `"") None
                      signed_in))
              demo_listing
              (fst (analyzeRepository demo_host `"terra" `"web" None
                      signed_in))
              (mkAnalysis true true false true
                 (Some (demo_got (demo_entry "docker-compose.yaml" "file")))
                 [demo_got (demo_entry "Dockerfile.prod" "file")] [] [])
              eq_refl eq_refl)
    as (Hrun & H1 & H2 & H3 & _).
  eexists. eexists. split; [exact Hrun|].
  split; [exact H1|]. split; [exact H2|exact H3].
Defined.

(** The scan of the example repository sends three requests: the listing,
    and the reads of [Dockerfile.prod] and [docker-compose.yaml]. *)
Lemma scan_request_count_witness :
  List.length
    (requests
       (fst (analyzeRepository demo_host `"terra" `"web" None signed_in)))
  = 3.
Proof.
  destruct (@scan_request_count unit demo_host `"terra" `"web" None
              signed_in
              (fst (getRepoContents demo_host `"terra" `"web" (Some `"") None
                      signed_in))
              demo_listing eq_refl) as [_ H].
  rewrite (H (fst (analyzeRepository demo_host `"terra" `"web" None
                     signed_in))
             (mkAnalysis true true false true
                (Some (demo_got (demo_entry "docker-compose.yaml" "file")))
                [demo_got (demo_entry "Dockerfile.prod" "file")] [] [])
             eq_refl).
  reflexivity.
Defined.

(** Signed out, the scan of the example repository sends nothing. *)
Lemma scan_signed_out_witness :
  Js.truthy_opt (token signed_out) = false
  /\ requests
       (fst (analyzeRepository demo_host `"terra" `"web" None signed_out))
     = []
  /\ snd (analyzeRepository demo_host `"terra" `"web" None signed_out)
     = inr new_analysis.
Proof.
  split; [reflexivity|].
  rewrite (@scan_signed_out unit demo_host `"terra" `"web" None signed_out
             eq_refl).
  split; reflexivity.
Defined.

(** A repository the host does not know, a root that is a file and an
    empty root all give the initial analysis; only the empty root is not
    logged. *)
Lemma scan_without_entries_witness :
  analyzeRepository (static_host []) `"terra" `"web" None signed_in
  = (mkEnv (Some `"token-1") tt
       [api_request (Some `"token-1") `"/repos/terra/web/contents/"]
       [(`"Error analyzing repository:",
         Error `"GitHub API error: Not Found")],
     inr new_analysis)
  /\ console
       (fst (analyzeRepository
               (one_answer_host
                  `"https://api.github.com/repos/terra/web/contents/"
                  (JFile wrapped_payload))
               `"terra" `"web" None signed_in))
     = [(`"Error analyzing repository:", TypeError)]
  /\ console
       (fst (analyzeRepository
               (one_answer_host
                  `"https://api.github.com/repos/terra/web/contents/"
                  (JFiles []))
               `"terra" `"web" None signed_in))
     = [].
Proof.
  split; [|split].
  - destruct (@scan_without_entries unit (static_host []) `"terra" `"web"
                None signed_in
                (fst (getRepoContents (static_host []) `"terra" `"web"
                        (Some `"") None signed_in))) as (H & _ & _).
    rewrite (H (Error `"GitHub API error: Not Found") eq_refl). reflexivity.
  - destruct (@scan_without_entries unit
                (one_answer_host
                   `"https://api.github.com/repos/terra/web/contents/"
                   (JFile wrapped_payload))
                `"terra" `"web" None signed_in
                (fst (getRepoContents
                        (one_answer_host
                           `"https://api.github.com/repos/terra/web/contents/"
                           (JFile wrapped_payload))
                        `"terra" `"web" (Some `"") None signed_in)))
      as (_ & H & _).
    rewrite (H wrapped_payload eq_refl). reflexivity.
  - destruct (@scan_without_entries unit
                (one_answer_host
                   `"https://api.github.com/repos/terra/web/contents/"
                   (JFiles []))
                `"terra" `"web" None signed_in
                (fst (getRepoContents
                        (one_answer_host
                           `"https://api.github.com/repos/terra/web/contents/"
                           (JFiles []))
                        `"terra" `"web" (Some `"") None signed_in)))
      as (_ & _ & H).
    rewrite (H eq_refl). reflexivity.
Defined.

(** A final line feed added: the old cell of row 1 shows one space. *)
Lemma renderDiff_cells_witness :
  In (mkRow 1 true `" " `" ")
     (renderDiff (FileChange.mk `"docker-compose.yml" `"a" (`"a" ++ [10%N])
                    `"final newline"))
  /\ oldCell (mkRow 1 true `" " `" ") <> []
  /\ ~ In 10%N (newCell (mkRow 1 true `" " `" ")).
Proof.
  assert (Hin : In (mkRow 1 true `" " `" ")
                  (renderDiff
                     (FileChange.mk `"docker-compose.yml" `"a"
                        (`"a" ++ [10%N]) `"final newline")))
    by (right; left; reflexivity).
  split; [exact Hin|].
  pose proof (@renderDiff_cells
                (FileChange.mk `"docker-compose.yml" `"a" (`"a" ++ [10%N])
                   `"final newline")
                (mkRow 1 true `" " `" ") Hin) as H.
  cbv zeta in H. destruct H as (_ & _ & H3 & _ & _ & H6).
  split; [exact H3|exact H6].
Defined.

(** A payload in two lines is read as [FROM node]. *)
Lemma getRepoFile_ignores_line_breaks_witness :
  Base64.is_space 10 = true
  /\ snd (getRepoFile
            (one_answer_host
               `"https://api.github.com/repos/terra/web/contents/Dockerfile.prod"
               (JFile wrapped_payload))
            `"terra" `"web" `"Dockerfile.prod" None signed_in)
     = inr (JFile (GitHubFile.set_content wrapped_payload `"FROM node")).
Proof.
  split; [reflexivity|].
  rewrite (@getRepoFile_ignores_line_breaks unit
             (one_answer_host
                `"https://api.github.com/repos/terra/web/contents/Dockerfile.prod"
                (JFile wrapped_payload))
             signed_in
             (fst (getRepoFile
                     (one_answer_host
                        `"https://api.github.com/repos/terra/web/contents/Dockerfile.prod"
                        (JFile wrapped_payload))
                     `"terra" `"web" `"Dockerfile.prod" None signed_in))
             `"terra" `"web" `"Dockerfile.prod" None wrapped_payload
             `"RlJP" `"TSBub2Rl" 10%N eq_refl eq_refl eq_refl eq_refl).
  reflexivity.
Defined.

(** Refused as [Unauthorized], the page keeps the token; refused with
    [401] in the status text, it forgets it and schedules the return. *)
Lemma reposEffect_refused_witness :
  token
    (env (fst (reposEffect (refusing_host `"Unauthorized")
                 (fun _ => `"Failed to fetch") (mounted signed_in))))
  = Some `"token-1"
  /\ token
       (env (fst (reposEffect (refusing_host `"401 Unauthorized")
                    (fun _ => `"Failed to fetch") (mounted signed_in))))
     = None
  /\ timers (fst (reposEffect (refusing_host `"401 Unauthorized")
                    (fun _ => `"Failed to fetch") (mounted signed_in)))
     = [(`"/", 2000%N)].
Proof.
  pose proof (@reposEffect_refused unit (refusing_host `"Unauthorized")
                (fun _ => `"Failed to fetch") (mounted signed_in) tt
                (mkResponse false `"Unauthorized" None)
                eq_refl eq_refl eq_refl) as H1.
  pose proof (@reposEffect_refused unit (refusing_host `"401 Unauthorized")
                (fun _ => `"Failed to fetch") (mounted signed_in) tt
                (mkResponse false `"401 Unauthorized" None)
                eq_refl eq_refl eq_refl) as H2.
  cbv zeta in H1, H2.
  destruct H1 as (_ & _ & _ & T1 & _).
  destruct H2 as (_ & _ & _ & T2 & R2 & _).
  split; [rewrite T1; reflexivity|].
  split; [rewrite T2; reflexivity|rewrite R2; reflexivity].
Defined.

(** Answered with a body, the page holds it and stops loading. *)
Lemma reposEffect_lists_witness :
  view
    (fst (reposEffect
            (one_answer_host
               `"https://api.github.com/user/repos?sort=updated&per_page=100"
               JOther)
            (fun _ => `"Failed to fetch") (mounted signed_in)))
  = ReposPage.mk JOther false [] None.
Proof.
  rewrite (@reposEffect_lists unit
             (one_answer_host
                `"https://api.github.com/user/repos?sort=updated&per_page=100"
                JOther)
             (fun _ => `"Failed to fetch") (mounted signed_in) tt
             (mkResponse true `"OK" (Some JOther)) JOther
             eq_refl eq_refl eq_refl eq_refl).
  reflexivity.
Defined.

(** A name of two spaces: the message, and no call of the page. *)
Lemma handleConfirm_blank_name_witness :
  handleConfirm (fun _ _ _ => counted (inr tt)) (counted (inr tt))
    (fun _ => `"Failed to fetch") (0, demo_dialog true `"  ")
  = ((0, Dialog.mk `"main" true `"  " false
           (Some `"Please enter a branch name")),
     inr tt).
Proof.
  exact (@handleConfirm_blank_name nat (fun _ _ _ => counted (inr tt))
           (counted (inr tt)) (fun _ => `"Failed to fetch") 0
           (demo_dialog true `"  ") eq_refl eq_refl).
Defined.

(** A commit that fails: one call of the page, the error as the message,
    the dialog open and no longer committing. *)
Lemma handleConfirm_settles_witness :
  handleConfirm (fun _ _ _ => counted (inl (Error `"Failed to get file")))
    (counted (inr tt)) (fun _ => `"Failed to fetch")
    (0, demo_dialog false `"")
  = ((1, Dialog.mk `"main" false `"" false (Some `"Failed to get file")),
     inr tt).
Proof.
  exact (@handleConfirm_settles nat
           (fun _ _ _ => counted (inl (Error `"Failed to get file")))
           (counted (inr tt)) (fun _ => `"Failed to fetch") 0
           (demo_dialog false `"") eq_refl).
Defined.

(** Behind a host that knows no file, the write of [FROM node] raises
    with the status text of the refusal. *)
Lemma updateRepoFile_refused_witness :
  Js.truthy_opt (token signed_in) = true
  /\ snd (updateRepoFile (static_host []) `"terra" `"web" `"Dockerfile.prod"
            `"FROM node" `"Update Dockerfile.prod" `"0a1b" `"main" signed_in)
     = inl (Error `"Failed to update file: Not Found").
Proof.
  split; [reflexivity|].
  rewrite (@updateRepoFile_refused unit (static_host []) signed_in
             `"terra" `"web" `"Dockerfile.prod" `"FROM node"
             `"Update Dockerfile.prod" `"0a1b" `"main" tt
             (mkResponse false `"Not Found" None) eq_refl).
  - reflexivity.
  - repeat constructor; discriminate.
  - reflexivity.
  - reflexivity.
Defined.

(** Behind a host that serves the ref of [main] and nothing else, the
    creation of [feature] raises after two requests. *)
Lemma createBranch_creation_refused_witness :
  let host :=
    one_answer_host
      `"https://api.github.com/repos/terra/web/git/refs/heads/main"
      (JRef `"c0ffee") in
  snd (createBranch host `"terra" `"web" `"feature" `"main" signed_in)
  = inl (Error `"Failed to create branch: Not Found")
  /\ List.length
       (requests
          (fst (createBranch host `"terra" `"web" `"feature" `"main"
                  signed_in)))
     = 2.
Proof.
  cbv zeta.
  rewrite (@createBranch_creation_refused unit
             (one_answer_host
                `"https://api.github.com/repos/terra/web/git/refs/heads/main"
                (JRef `"c0ffee"))
             signed_in `"terra" `"web" `"feature" `"main" tt tt
             (mkResponse true `"OK" (Some (JRef `"c0ffee")))
             (mkResponse false `"Not Found" None) `"c0ffee"
             eq_refl eq_refl eq_refl eq_refl eq_refl eq_refl).
  split; reflexivity.
Defined.
